(** * State synchronisation of the gateway client

    A shallow embedding of [src/collections/presences.ts] (the [Presences]
    collection) and of the gateway handler ([GatewayHandler],
    [GatewayDispatchHandler]), together with the properties of the
    dispatch router and of the tiered entity cache.

    Conventions.  A JavaScript [Map] is a [gmap]; a [Set] is a [gset]; a
    value that may be [undefined] is an [option].  The handlers mutate the
    client, so every method takes the client state and returns the new one.
    [Presence] and [Member] instances are shared between the caches and the
    notifications, so they live in a store of objects and the caches hold
    references; the other entities are held by value, an in-place merge
    being an update of the entry under its key. *)

From stdpp Require Import base gmap strings list.


(** ** Event names *)

(** The names under which the dispatch handlers are registered, one per
    computed method key [[GatewayDispatchEvents.X]] of
    [GatewayDispatchHandler], in the order of the source. *)
Module GatewayDispatchEvents.

Inductive t : Set :=
  | READY | RESUMED | ACTIVITY_JOIN_INVITE | ACTIVITY_JOIN_REQUEST
  | ACTIVITY_START | BRAINTREE_POPUP_BRIDGE_CALLBACK | CALL_CREATE
  | CALL_DELETE | CALL_UPDATE | CHANNEL_CREATE | CHANNEL_DELETE
  | CHANNEL_PINS_ACK | CHANNEL_PINS_UPDATE | CHANNEL_UPDATE
  | CHANNEL_RECIPIENT_ADD | CHANNEL_RECIPIENT_REMOVE | ENTITLEMENT_CREATE
  | ENTITLEMENT_DELETE | ENTITLEMENT_UPDATE | FRIEND_SUGGESTION_CREATE
  | FRIEND_SUGGESTION_DELETE | GIFT_CODE_UPDATE | GUILD_BAN_ADD
  | GUILD_BAN_REMOVE | GUILD_CREATE | GUILD_DELETE | GUILD_EMOJIS_UPDATE
  | GUILD_INTEGRATIONS_UPDATE | GUILD_MEMBER_ADD | GUILD_MEMBER_LIST_UPDATE
  | GUILD_MEMBER_REMOVE | GUILD_MEMBER_UPDATE | GUILD_MEMBERS_CHUNK
  | GUILD_ROLE_CREATE | GUILD_ROLE_DELETE | GUILD_ROLE_UPDATE | GUILD_UPDATE
  | LIBRARY_APPLICATION_UPDATE | LOBBY_CREATE | LOBBY_DELETE | LOBBY_UPDATE
  | LOBBY_MEMBER_CONNECT | LOBBY_MEMBER_DISCONNECT | LOBBY_MEMBER_UPDATE
  | LOBBY_MESSAGE | LOBBY_VOICE_SERVER_UPDATE | LOBBY_VOICE_STATE_UPDATE
  | MESSAGE_ACK | MESSAGE_CREATE | MESSAGE_DELETE | MESSAGE_DELETE_BULK
  | MESSAGE_REACTION_ADD | MESSAGE_REACTION_REMOVE
  | MESSAGE_REACTION_REMOVE_ALL | MESSAGE_UPDATE | OAUTH2_TOKEN_REVOKE
  | PRESENCE_UPDATE | PRESENCES_REPLACE | RECENT_MENTION_DELETE
  | RELATIONSHIP_ADD | RELATIONSHIP_REMOVE | SESSIONS_UPDATE | STREAM_CREATE
  | STREAM_DELETE | STREAM_SERVER_UPDATE | STREAM_UPDATE | TYPING_START
  | USER_ACHIEVEMENT_UPDATE | USER_CONNECTIONS_UPDATE
  | USER_FEED_SETTINGS_UPDATE | USER_GUILD_SETTINGS_UPDATE
  | USER_NOTE_UPDATE | USER_PAYMENT_SOURCES_UPDATE | USER_PAYMENTS_UPDATE
  | USER_REQUIRED_ACTION_UPDATE | USER_SETTINGS_UPDATE | USER_UPDATE
  | VOICE_SERVER_UPDATE | VOICE_STATE_UPDATE | WEBHOOKS_UPDATE.

Definition all : list t :=
  [ READY; RESUMED; ACTIVITY_JOIN_INVITE; ACTIVITY_JOIN_REQUEST;
    ACTIVITY_START; BRAINTREE_POPUP_BRIDGE_CALLBACK; CALL_CREATE;
    CALL_DELETE; CALL_UPDATE; CHANNEL_CREATE; CHANNEL_DELETE;
    CHANNEL_PINS_ACK; CHANNEL_PINS_UPDATE; CHANNEL_UPDATE;
    CHANNEL_RECIPIENT_ADD; CHANNEL_RECIPIENT_REMOVE; ENTITLEMENT_CREATE;
    ENTITLEMENT_DELETE; ENTITLEMENT_UPDATE; FRIEND_SUGGESTION_CREATE;
    FRIEND_SUGGESTION_DELETE; GIFT_CODE_UPDATE; GUILD_BAN_ADD;
    GUILD_BAN_REMOVE; GUILD_CREATE; GUILD_DELETE; GUILD_EMOJIS_UPDATE;
    GUILD_INTEGRATIONS_UPDATE; GUILD_MEMBER_ADD; GUILD_MEMBER_LIST_UPDATE;
    GUILD_MEMBER_REMOVE; GUILD_MEMBER_UPDATE; GUILD_MEMBERS_CHUNK;
    GUILD_ROLE_CREATE; GUILD_ROLE_DELETE; GUILD_ROLE_UPDATE; GUILD_UPDATE;
    LIBRARY_APPLICATION_UPDATE; LOBBY_CREATE; LOBBY_DELETE; LOBBY_UPDATE;
    LOBBY_MEMBER_CONNECT; LOBBY_MEMBER_DISCONNECT; LOBBY_MEMBER_UPDATE;
    LOBBY_MESSAGE; LOBBY_VOICE_SERVER_UPDATE; LOBBY_VOICE_STATE_UPDATE;
    MESSAGE_ACK; MESSAGE_CREATE; MESSAGE_DELETE; MESSAGE_DELETE_BULK;
    MESSAGE_REACTION_ADD; MESSAGE_REACTION_REMOVE;
    MESSAGE_REACTION_REMOVE_ALL; MESSAGE_UPDATE; OAUTH2_TOKEN_REVOKE;
    PRESENCE_UPDATE; PRESENCES_REPLACE; RECENT_MENTION_DELETE;
    RELATIONSHIP_ADD; RELATIONSHIP_REMOVE; SESSIONS_UPDATE; STREAM_CREATE;
    STREAM_DELETE; STREAM_SERVER_UPDATE; STREAM_UPDATE; TYPING_START;
    USER_ACHIEVEMENT_UPDATE; USER_CONNECTIONS_UPDATE;
    USER_FEED_SETTINGS_UPDATE; USER_GUILD_SETTINGS_UPDATE; USER_NOTE_UPDATE;
    USER_PAYMENT_SOURCES_UPDATE; USER_PAYMENTS_UPDATE;
    USER_REQUIRED_ACTION_UPDATE; USER_SETTINGS_UPDATE; USER_UPDATE;
    VOICE_SERVER_UPDATE; VOICE_STATE_UPDATE; WEBHOOKS_UPDATE ].

(** Modelled from the spec: [GatewayDispatchEvents] comes from the socket
    package, which is not part of the repository; the value of each constant
    is the event name the gateway sends, which is the constant's own name. *)
Definition name (e : t) : string :=
  match e with
  | READY => "READY"
  | RESUMED => "RESUMED"
  | ACTIVITY_JOIN_INVITE => "ACTIVITY_JOIN_INVITE"
  | ACTIVITY_JOIN_REQUEST => "ACTIVITY_JOIN_REQUEST"
  | ACTIVITY_START => "ACTIVITY_START"
  | BRAINTREE_POPUP_BRIDGE_CALLBACK => "BRAINTREE_POPUP_BRIDGE_CALLBACK"
  | CALL_CREATE => "CALL_CREATE"
  | CALL_DELETE => "CALL_DELETE"
  | CALL_UPDATE => "CALL_UPDATE"
  | CHANNEL_CREATE => "CHANNEL_CREATE"
  | CHANNEL_DELETE => "CHANNEL_DELETE"
  | CHANNEL_PINS_ACK => "CHANNEL_PINS_ACK"
  | CHANNEL_PINS_UPDATE => "CHANNEL_PINS_UPDATE"
  | CHANNEL_UPDATE => "CHANNEL_UPDATE"
  | CHANNEL_RECIPIENT_ADD => "CHANNEL_RECIPIENT_ADD"
  | CHANNEL_RECIPIENT_REMOVE => "CHANNEL_RECIPIENT_REMOVE"
  | ENTITLEMENT_CREATE => "ENTITLEMENT_CREATE"
  | ENTITLEMENT_DELETE => "ENTITLEMENT_DELETE"
  | ENTITLEMENT_UPDATE => "ENTITLEMENT_UPDATE"
  | FRIEND_SUGGESTION_CREATE => "FRIEND_SUGGESTION_CREATE"
  | FRIEND_SUGGESTION_DELETE => "FRIEND_SUGGESTION_DELETE"
  | GIFT_CODE_UPDATE => "GIFT_CODE_UPDATE"
  | GUILD_BAN_ADD => "GUILD_BAN_ADD"
  | GUILD_BAN_REMOVE => "GUILD_BAN_REMOVE"
  | GUILD_CREATE => "GUILD_CREATE"
  | GUILD_DELETE => "GUILD_DELETE"
  | GUILD_EMOJIS_UPDATE => "GUILD_EMOJIS_UPDATE"
  | GUILD_INTEGRATIONS_UPDATE => "GUILD_INTEGRATIONS_UPDATE"
  | GUILD_MEMBER_ADD => "GUILD_MEMBER_ADD"
  | GUILD_MEMBER_LIST_UPDATE => "GUILD_MEMBER_LIST_UPDATE"
  | GUILD_MEMBER_REMOVE => "GUILD_MEMBER_REMOVE"
  | GUILD_MEMBER_UPDATE => "GUILD_MEMBER_UPDATE"
  | GUILD_MEMBERS_CHUNK => "GUILD_MEMBERS_CHUNK"
  | GUILD_ROLE_CREATE => "GUILD_ROLE_CREATE"
  | GUILD_ROLE_DELETE => "GUILD_ROLE_DELETE"
  | GUILD_ROLE_UPDATE => "GUILD_ROLE_UPDATE"
  | GUILD_UPDATE => "GUILD_UPDATE"
  | LIBRARY_APPLICATION_UPDATE => "LIBRARY_APPLICATION_UPDATE"
  | LOBBY_CREATE => "LOBBY_CREATE"
  | LOBBY_DELETE => "LOBBY_DELETE"
  | LOBBY_UPDATE => "LOBBY_UPDATE"
  | LOBBY_MEMBER_CONNECT => "LOBBY_MEMBER_CONNECT"
  | LOBBY_MEMBER_DISCONNECT => "LOBBY_MEMBER_DISCONNECT"
  | LOBBY_MEMBER_UPDATE => "LOBBY_MEMBER_UPDATE"
  | LOBBY_MESSAGE => "LOBBY_MESSAGE"
  | LOBBY_VOICE_SERVER_UPDATE => "LOBBY_VOICE_SERVER_UPDATE"
  | LOBBY_VOICE_STATE_UPDATE => "LOBBY_VOICE_STATE_UPDATE"
  | MESSAGE_ACK => "MESSAGE_ACK"
  | MESSAGE_CREATE => "MESSAGE_CREATE"
  | MESSAGE_DELETE => "MESSAGE_DELETE"
  | MESSAGE_DELETE_BULK => "MESSAGE_DELETE_BULK"
  | MESSAGE_REACTION_ADD => "MESSAGE_REACTION_ADD"
  | MESSAGE_REACTION_REMOVE => "MESSAGE_REACTION_REMOVE"
  | MESSAGE_REACTION_REMOVE_ALL => "MESSAGE_REACTION_REMOVE_ALL"
  | MESSAGE_UPDATE => "MESSAGE_UPDATE"
  | OAUTH2_TOKEN_REVOKE => "OAUTH2_TOKEN_REVOKE"
  | PRESENCE_UPDATE => "PRESENCE_UPDATE"
  | PRESENCES_REPLACE => "PRESENCES_REPLACE"
  | RECENT_MENTION_DELETE => "RECENT_MENTION_DELETE"
  | RELATIONSHIP_ADD => "RELATIONSHIP_ADD"
  | RELATIONSHIP_REMOVE => "RELATIONSHIP_REMOVE"
  | SESSIONS_UPDATE => "SESSIONS_UPDATE"
  | STREAM_CREATE => "STREAM_CREATE"
  | STREAM_DELETE => "STREAM_DELETE"
  | STREAM_SERVER_UPDATE => "STREAM_SERVER_UPDATE"
  | STREAM_UPDATE => "STREAM_UPDATE"
  | TYPING_START => "TYPING_START"
  | USER_ACHIEVEMENT_UPDATE => "USER_ACHIEVEMENT_UPDATE"
  | USER_CONNECTIONS_UPDATE => "USER_CONNECTIONS_UPDATE"
  | USER_FEED_SETTINGS_UPDATE => "USER_FEED_SETTINGS_UPDATE"
  | USER_GUILD_SETTINGS_UPDATE => "USER_GUILD_SETTINGS_UPDATE"
  | USER_NOTE_UPDATE => "USER_NOTE_UPDATE"
  | USER_PAYMENT_SOURCES_UPDATE => "USER_PAYMENT_SOURCES_UPDATE"
  | USER_PAYMENTS_UPDATE => "USER_PAYMENTS_UPDATE"
  | USER_REQUIRED_ACTION_UPDATE => "USER_REQUIRED_ACTION_UPDATE"
  | USER_SETTINGS_UPDATE => "USER_SETTINGS_UPDATE"
  | USER_UPDATE => "USER_UPDATE"
  | VOICE_SERVER_UPDATE => "VOICE_SERVER_UPDATE"
  | VOICE_STATE_UPDATE => "VOICE_STATE_UPDATE"
  | WEBHOOKS_UPDATE => "WEBHOOKS_UPDATE"
  end.

End GatewayDispatchEvents.

(** Modelled from the spec: [ClientEvents] is declared in [../constants],
    which is missing; it has one normalised identifier per dispatch event
    ([READY] and [RESUMED] are published as [GATEWAY_READY] and
    [GATEWAY_RESUMED]) besides [RAW_EVENT] and [UNKNOWN]. *)
Module ClientEvents.

Inductive t : Set :=
  | GATEWAY_READY | GATEWAY_RESUMED | ACTIVITY_JOIN_INVITE
  | ACTIVITY_JOIN_REQUEST | ACTIVITY_START | BRAINTREE_POPUP_BRIDGE_CALLBACK
  | CALL_CREATE | CALL_DELETE | CALL_UPDATE | CHANNEL_CREATE
  | CHANNEL_DELETE | CHANNEL_PINS_ACK | CHANNEL_PINS_UPDATE | CHANNEL_UPDATE
  | CHANNEL_RECIPIENT_ADD | CHANNEL_RECIPIENT_REMOVE | ENTITLEMENT_CREATE
  | ENTITLEMENT_DELETE | ENTITLEMENT_UPDATE | FRIEND_SUGGESTION_CREATE
  | FRIEND_SUGGESTION_DELETE | GIFT_CODE_UPDATE | GUILD_BAN_ADD
  | GUILD_BAN_REMOVE | GUILD_CREATE | GUILD_DELETE | GUILD_EMOJIS_UPDATE
  | GUILD_INTEGRATIONS_UPDATE | GUILD_MEMBER_ADD | GUILD_MEMBER_LIST_UPDATE
  | GUILD_MEMBER_REMOVE | GUILD_MEMBER_UPDATE | GUILD_MEMBERS_CHUNK
  | GUILD_ROLE_CREATE | GUILD_ROLE_DELETE | GUILD_ROLE_UPDATE | GUILD_UPDATE
  | LIBRARY_APPLICATION_UPDATE | LOBBY_CREATE | LOBBY_DELETE | LOBBY_UPDATE
  | LOBBY_MEMBER_CONNECT | LOBBY_MEMBER_DISCONNECT | LOBBY_MEMBER_UPDATE
  | LOBBY_MESSAGE | LOBBY_VOICE_SERVER_UPDATE | LOBBY_VOICE_STATE_UPDATE
  | MESSAGE_ACK | MESSAGE_CREATE | MESSAGE_DELETE | MESSAGE_DELETE_BULK
  | MESSAGE_REACTION_ADD | MESSAGE_REACTION_REMOVE
  | MESSAGE_REACTION_REMOVE_ALL | MESSAGE_UPDATE | OAUTH2_TOKEN_REVOKE
  | PRESENCE_UPDATE | PRESENCES_REPLACE | RECENT_MENTION_DELETE
  | RELATIONSHIP_ADD | RELATIONSHIP_REMOVE | SESSIONS_UPDATE | STREAM_CREATE
  | STREAM_DELETE | STREAM_SERVER_UPDATE | STREAM_UPDATE | TYPING_START
  | USER_ACHIEVEMENT_UPDATE | USER_CONNECTIONS_UPDATE
  | USER_FEED_SETTINGS_UPDATE | USER_GUILD_SETTINGS_UPDATE
  | USER_NOTE_UPDATE | USER_PAYMENT_SOURCES_UPDATE | USER_PAYMENTS_UPDATE
  | USER_REQUIRED_ACTION_UPDATE | USER_SETTINGS_UPDATE | USER_UPDATE
  | VOICE_SERVER_UPDATE | VOICE_STATE_UPDATE | WEBHOOKS_UPDATE | RAW_EVENT
  | UNKNOWN.

#[global] Instance eq_dec : EqDecision t.
Proof. solve_decision. Defined.

(** The identifier under which a dispatch event is published. *)
Definition normalized (e : GatewayDispatchEvents.t) : t :=
  match e with
  | GatewayDispatchEvents.READY => GATEWAY_READY
  | GatewayDispatchEvents.RESUMED => GATEWAY_RESUMED
  | GatewayDispatchEvents.ACTIVITY_JOIN_INVITE => ACTIVITY_JOIN_INVITE
  | GatewayDispatchEvents.ACTIVITY_JOIN_REQUEST => ACTIVITY_JOIN_REQUEST
  | GatewayDispatchEvents.ACTIVITY_START => ACTIVITY_START
  | GatewayDispatchEvents.BRAINTREE_POPUP_BRIDGE_CALLBACK => BRAINTREE_POPUP_BRIDGE_CALLBACK
  | GatewayDispatchEvents.CALL_CREATE => CALL_CREATE
  | GatewayDispatchEvents.CALL_DELETE => CALL_DELETE
  | GatewayDispatchEvents.CALL_UPDATE => CALL_UPDATE
  | GatewayDispatchEvents.CHANNEL_CREATE => CHANNEL_CREATE
  | GatewayDispatchEvents.CHANNEL_DELETE => CHANNEL_DELETE
  | GatewayDispatchEvents.CHANNEL_PINS_ACK => CHANNEL_PINS_ACK
  | GatewayDispatchEvents.CHANNEL_PINS_UPDATE => CHANNEL_PINS_UPDATE
  | GatewayDispatchEvents.CHANNEL_UPDATE => CHANNEL_UPDATE
  | GatewayDispatchEvents.CHANNEL_RECIPIENT_ADD => CHANNEL_RECIPIENT_ADD
  | GatewayDispatchEvents.CHANNEL_RECIPIENT_REMOVE => CHANNEL_RECIPIENT_REMOVE
  | GatewayDispatchEvents.ENTITLEMENT_CREATE => ENTITLEMENT_CREATE
  | GatewayDispatchEvents.ENTITLEMENT_DELETE => ENTITLEMENT_DELETE
  | GatewayDispatchEvents.ENTITLEMENT_UPDATE => ENTITLEMENT_UPDATE
  | GatewayDispatchEvents.FRIEND_SUGGESTION_CREATE => FRIEND_SUGGESTION_CREATE
  | GatewayDispatchEvents.FRIEND_SUGGESTION_DELETE => FRIEND_SUGGESTION_DELETE
  | GatewayDispatchEvents.GIFT_CODE_UPDATE => GIFT_CODE_UPDATE
  | GatewayDispatchEvents.GUILD_BAN_ADD => GUILD_BAN_ADD
  | GatewayDispatchEvents.GUILD_BAN_REMOVE => GUILD_BAN_REMOVE
  | GatewayDispatchEvents.GUILD_CREATE => GUILD_CREATE
  | GatewayDispatchEvents.GUILD_DELETE => GUILD_DELETE
  | GatewayDispatchEvents.GUILD_EMOJIS_UPDATE => GUILD_EMOJIS_UPDATE
  | GatewayDispatchEvents.GUILD_INTEGRATIONS_UPDATE => GUILD_INTEGRATIONS_UPDATE
  | GatewayDispatchEvents.GUILD_MEMBER_ADD => GUILD_MEMBER_ADD
  | GatewayDispatchEvents.GUILD_MEMBER_LIST_UPDATE => GUILD_MEMBER_LIST_UPDATE
  | GatewayDispatchEvents.GUILD_MEMBER_REMOVE => GUILD_MEMBER_REMOVE
  | GatewayDispatchEvents.GUILD_MEMBER_UPDATE => GUILD_MEMBER_UPDATE
  | GatewayDispatchEvents.GUILD_MEMBERS_CHUNK => GUILD_MEMBERS_CHUNK
  | GatewayDispatchEvents.GUILD_ROLE_CREATE => GUILD_ROLE_CREATE
  | GatewayDispatchEvents.GUILD_ROLE_DELETE => GUILD_ROLE_DELETE
  | GatewayDispatchEvents.GUILD_ROLE_UPDATE => GUILD_ROLE_UPDATE
  | GatewayDispatchEvents.GUILD_UPDATE => GUILD_UPDATE
  | GatewayDispatchEvents.LIBRARY_APPLICATION_UPDATE => LIBRARY_APPLICATION_UPDATE
  | GatewayDispatchEvents.LOBBY_CREATE => LOBBY_CREATE
  | GatewayDispatchEvents.LOBBY_DELETE => LOBBY_DELETE
  | GatewayDispatchEvents.LOBBY_UPDATE => LOBBY_UPDATE
  | GatewayDispatchEvents.LOBBY_MEMBER_CONNECT => LOBBY_MEMBER_CONNECT
  | GatewayDispatchEvents.LOBBY_MEMBER_DISCONNECT => LOBBY_MEMBER_DISCONNECT
  | GatewayDispatchEvents.LOBBY_MEMBER_UPDATE => LOBBY_MEMBER_UPDATE
  | GatewayDispatchEvents.LOBBY_MESSAGE => LOBBY_MESSAGE
  | GatewayDispatchEvents.LOBBY_VOICE_SERVER_UPDATE => LOBBY_VOICE_SERVER_UPDATE
  | GatewayDispatchEvents.LOBBY_VOICE_STATE_UPDATE => LOBBY_VOICE_STATE_UPDATE
  | GatewayDispatchEvents.MESSAGE_ACK => MESSAGE_ACK
  | GatewayDispatchEvents.MESSAGE_CREATE => MESSAGE_CREATE
  | GatewayDispatchEvents.MESSAGE_DELETE => MESSAGE_DELETE
  | GatewayDispatchEvents.MESSAGE_DELETE_BULK => MESSAGE_DELETE_BULK
  | GatewayDispatchEvents.MESSAGE_REACTION_ADD => MESSAGE_REACTION_ADD
  | GatewayDispatchEvents.MESSAGE_REACTION_REMOVE => MESSAGE_REACTION_REMOVE
  | GatewayDispatchEvents.MESSAGE_REACTION_REMOVE_ALL => MESSAGE_REACTION_REMOVE_ALL
  | GatewayDispatchEvents.MESSAGE_UPDATE => MESSAGE_UPDATE
  | GatewayDispatchEvents.OAUTH2_TOKEN_REVOKE => OAUTH2_TOKEN_REVOKE
  | GatewayDispatchEvents.PRESENCE_UPDATE => PRESENCE_UPDATE
  | GatewayDispatchEvents.PRESENCES_REPLACE => PRESENCES_REPLACE
  | GatewayDispatchEvents.RECENT_MENTION_DELETE => RECENT_MENTION_DELETE
  | GatewayDispatchEvents.RELATIONSHIP_ADD => RELATIONSHIP_ADD
  | GatewayDispatchEvents.RELATIONSHIP_REMOVE => RELATIONSHIP_REMOVE
  | GatewayDispatchEvents.SESSIONS_UPDATE => SESSIONS_UPDATE
  | GatewayDispatchEvents.STREAM_CREATE => STREAM_CREATE
  | GatewayDispatchEvents.STREAM_DELETE => STREAM_DELETE
  | GatewayDispatchEvents.STREAM_SERVER_UPDATE => STREAM_SERVER_UPDATE
  | GatewayDispatchEvents.STREAM_UPDATE => STREAM_UPDATE
  | GatewayDispatchEvents.TYPING_START => TYPING_START
  | GatewayDispatchEvents.USER_ACHIEVEMENT_UPDATE => USER_ACHIEVEMENT_UPDATE
  | GatewayDispatchEvents.USER_CONNECTIONS_UPDATE => USER_CONNECTIONS_UPDATE
  | GatewayDispatchEvents.USER_FEED_SETTINGS_UPDATE => USER_FEED_SETTINGS_UPDATE
  | GatewayDispatchEvents.USER_GUILD_SETTINGS_UPDATE => USER_GUILD_SETTINGS_UPDATE
  | GatewayDispatchEvents.USER_NOTE_UPDATE => USER_NOTE_UPDATE
  | GatewayDispatchEvents.USER_PAYMENT_SOURCES_UPDATE => USER_PAYMENT_SOURCES_UPDATE
  | GatewayDispatchEvents.USER_PAYMENTS_UPDATE => USER_PAYMENTS_UPDATE
  | GatewayDispatchEvents.USER_REQUIRED_ACTION_UPDATE => USER_REQUIRED_ACTION_UPDATE
  | GatewayDispatchEvents.USER_SETTINGS_UPDATE => USER_SETTINGS_UPDATE
  | GatewayDispatchEvents.USER_UPDATE => USER_UPDATE
  | GatewayDispatchEvents.VOICE_SERVER_UPDATE => VOICE_SERVER_UPDATE
  | GatewayDispatchEvents.VOICE_STATE_UPDATE => VOICE_STATE_UPDATE
  | GatewayDispatchEvents.WEBHOOKS_UPDATE => WEBHOOKS_UPDATE
  end.

End ClientEvents.

(** ** JavaScript values *)

(** A field-name-to-value record of an entity or of a payload; the values
    are kept as text. *)
Abbreviation Fields := (gmap string string).

(** A reference to an object of the store ([new] appends to the store). *)
Abbreviation ref := nat.

(** [!!value] for a string that may be undefined: the empty string is
    falsy. *)
Definition truthy (value : option string) : bool :=
  match value with
  | Some s => negb (String.eqb s "")
  | None => false
  end.

(** [value || fallback]. *)
Definition js_or (value : option string) (fallback : string) : string :=
  match value with
  | Some s => if String.eqb s "" then fallback else s
  | None => fallback
  end.

(** [value || fallback] when the fallback may be undefined too. *)
Definition js_or_opt (value fallback : option string) : option string :=
  if truthy value then value else fallback.

(** [!!value] for a boolean that may be undefined. *)
Definition truthy_bool (value : option bool) : bool := default false value.

(** [String.prototype.toUpperCase], on the ASCII letters only (the event
    names of the gateway are ASCII): the letters [a] to [z] are mapped, any
    other character is left as it is, where JavaScript upper-cases the
    letters outside ASCII too. *)
Definition upper_ascii (a : Ascii.ascii) : Ascii.ascii :=
  let n := Ascii.nat_of_ascii a in
  if Nat.leb 97 n && Nat.leb n 122 then Ascii.ascii_of_nat (n - 32) else a.

Fixpoint toUpperCase (s : string) : string :=
  match s with
  | EmptyString => EmptyString
  | String a rest => String (upper_ascii a) (toUpperCase rest)
  end.

(** The [differences] value of a notification: [let differences: any;]
    leaves it [undefined], [let differences: any = null;] makes it [null],
    and a computed difference names the changed fields. *)
Inductive Differences :=
  | undefined
  | null
  | changed (keys : list string).

(** Modelled from the spec: the structures ([../structures]) are missing;
    [differences] is a field-level difference between the entity's
    snapshot and the incoming partial, only for fields present in the
    partial. *)
Definition diffKeys (old partial : Fields) : list string :=
  (map_to_list (filter (λ kv, old !! kv.1 ≠ Some kv.2) partial)).*1.

(** Modelled from the spec: [merge] overwrites only the fields present in
    the partial payload and leaves absent fields untouched. *)
Definition mergeFields (partial old : Fields) : Fields := partial ∪ old.

Definition mergeOpt {A} (partial old : option A) : option A :=
  match partial with
  | Some v => Some v
  | None => old
  end.

(** ** Entities

    Modelled from the spec: the entity classes of [../structures] are
    missing; each is a record with its identity key and the fields the
    handlers read, the remaining fields being kept in [fields]. *)

(** [User], [Channel], [Relationship] and [VoiceCall] (keyed by its channel
    id), and the raw payloads they are built from. *)
Module Obj.
Record t := mk { id : string; fields : Fields }.
Definition new (raw : t) : t := raw.
Definition merge (raw : t) (o : t) : t :=
  {| id := id o; fields := mergeFields (fields raw) (fields o) |}.
Definition differences (o : t) (raw : t) : list string :=
  diffKeys (fields o) (fields raw).
End Obj.

Module RawGuild.
Record t := mk {
  id : string;
  unavailable : option bool;
  member_count : option Z;
  fields : Fields }.
End RawGuild.

Module Guild.
Record t := mk {
  id : string;
  unavailable : bool;
  memberCount : Z;
  fields : Fields }.
Definition merge (raw : RawGuild.t) (g : t) : t :=
  {| id := id g;
     unavailable := default (unavailable g) (RawGuild.unavailable raw);
     memberCount := default (memberCount g) (RawGuild.member_count raw);
     fields := mergeFields (RawGuild.fields raw) (fields g) |}.
Definition new (raw : RawGuild.t) : t :=
  merge raw {| id := RawGuild.id raw; unavailable := false;
               memberCount := 0%Z; fields := ∅ |}.
Definition differences (g : t) (raw : RawGuild.t) : list string :=
  (if bool_decide (mergeOpt (RawGuild.unavailable raw) (Some (unavailable g))
                   = Some (unavailable g)) then [] else ["unavailable"])
  ++ (if bool_decide (mergeOpt (RawGuild.member_count raw) (Some (memberCount g))
                      = Some (memberCount g)) then [] else ["member_count"])
  ++ diffKeys (fields g) (RawGuild.fields raw).
End Guild.

Module Emoji.
Record t := mk { id : string; guildId : option string; fields : Fields }.
Definition new (raw : Obj.t) : t :=
  {| id := Obj.id raw; guildId := None; fields := Obj.fields raw |}.
Definition merge (raw : Obj.t) (e : t) : t :=
  {| id := id e; guildId := guildId e;
     fields := mergeFields (Obj.fields raw) (fields e) |}.
(** [emoji.guildId = guildId]. *)
Definition with_guildId (guildId' : option string) (e : t) : t :=
  {| id := id e; guildId := guildId'; fields := fields e |}.
End Emoji.

Module Reaction.
Record t := mk { count : Z; me : bool }.
(** [new Reaction(client, data)] from a reaction event: nobody counted
    yet. *)
Definition new : t := {| count := 0%Z; me := false |}.
(** [reaction.merge({count, me})]. *)
Definition merge (count' : Z) (me' : bool) (r : t) : t :=
  {| count := count'; me := me' |}.
End Reaction.

Module Message.
Record t := mk {
  id : string;
  reactions : gmap string Reaction.t;
  fields : Fields }.
Definition new (raw : Obj.t) : t :=
  {| id := Obj.id raw; reactions := ∅; fields := Obj.fields raw |}.
Definition merge (raw : Obj.t) (m : t) : t :=
  {| id := id m; reactions := reactions m;
     fields := mergeFields (Obj.fields raw) (fields m) |}.
Definition differences (m : t) (raw : Obj.t) : list string :=
  diffKeys (fields m) (Obj.fields raw).
Definition with_reactions
  (f : gmap string Reaction.t → gmap string Reaction.t) (m : t) : t :=
  {| id := id m; reactions := f (reactions m); fields := fields m |}.
End Message.

Module RawPresence.
Record t := mk {
  guild_id : option string;
  user : Obj.t;
  status : option string;
  nick : option string;
  premium_since : option string;
  roles : option (list string);
  fields : Fields }.
End RawPresence.

Definition DEFAULT_PRESENCE_CACHE_KEY : string := "@me".

Module Presence.
Record t := mk {
  guildId : option string;
  userId : string;
  status : string;
  fields : Fields }.
Definition OFFLINE : string := "offline".
Definition isOffline (p : t) : bool := String.eqb (status p) OFFLINE.
Definition fromGuild (p : t) : bool := truthy (guildId p).
Definition cacheId (p : t) : string :=
  js_or (guildId p) DEFAULT_PRESENCE_CACHE_KEY.
(** [presence.merge(value)] with a raw presence. *)
Definition merge (raw : RawPresence.t) (p : t) : t :=
  {| guildId := mergeOpt (RawPresence.guild_id raw) (guildId p);
     userId := Obj.id (RawPresence.user raw);
     status := default (status p) (RawPresence.status raw);
     fields := mergeFields (RawPresence.fields raw) (fields p) |}.
Definition new (raw : RawPresence.t) : t :=
  merge raw {| guildId := None; userId := Obj.id (RawPresence.user raw);
               status := OFFLINE; fields := ∅ |}.
(** [old.merge(presence)] with another presence object. *)
Definition mergePresence (src : t) (old : t) : t :=
  {| guildId := mergeOpt (guildId src) (guildId old);
     userId := userId src;
     status := status src;
     fields := mergeFields (fields src) (fields old) |}.
Definition differences (p : t) (raw : RawPresence.t) : list string :=
  (if bool_decide (default (status p) (RawPresence.status raw) = status p)
   then [] else ["status"])
  ++ diffKeys (fields p) (RawPresence.fields raw).
End Presence.

Module RawMember.
Record t := mk {
  guild_id : option string;
  nick : option string;
  premium_since : option string;
  roles : option (list string);
  user : Obj.t }.
End RawMember.

Module Member.
Record t := mk {
  guildId : string;
  id : string;
  nick : option string;
  premiumSince : option string;
  roles : list string }.
Definition merge (raw : RawMember.t) (m : t) : t :=
  {| guildId := default (guildId m) (RawMember.guild_id raw);
     id := Obj.id (RawMember.user raw);
     nick := mergeOpt (RawMember.nick raw) (nick m);
     premiumSince := mergeOpt (RawMember.premium_since raw) (premiumSince m);
     roles := default (roles m) (RawMember.roles raw) |}.
Definition new (raw : RawMember.t) : t :=
  merge raw {| guildId := ""; id := Obj.id (RawMember.user raw);
               nick := None; premiumSince := None; roles := [] |}.
Definition with_guildId (guildId' : string) (m : t) : t :=
  {| guildId := guildId'; id := id m; nick := nick m;
     premiumSince := premiumSince m; roles := roles m |}.
Definition differences (m : t) (raw : RawMember.t) : list string :=
  (if bool_decide (mergeOpt (RawMember.nick raw) (nick m) = nick m)
   then [] else ["nick"])
  ++ (if bool_decide (mergeOpt (RawMember.premium_since raw) (premiumSince m)
                      = premiumSince m) then [] else ["premium_since"])
  ++ (if bool_decide (default (roles m) (RawMember.roles raw) = roles m)
      then [] else ["roles"]).
End Member.

Module RawTyping.
Record t := mk {
  channel_id : string;
  guild_id : option string;
  user_id : string;
  fields : Fields }.
End RawTyping.

Module Typing.
Record t := mk { channelId : string; userId : string; fields : Fields }.
Definition merge (raw : RawTyping.t) (t0 : t) : t :=
  {| channelId := channelId t0; userId := userId t0;
     fields := mergeFields (RawTyping.fields raw) (fields t0) |}.
Definition new (raw : RawTyping.t) : t :=
  {| channelId := RawTyping.channel_id raw; userId := RawTyping.user_id raw;
     fields := RawTyping.fields raw |}.
End Typing.

(** A voice state update always carries [channel_id], [null] when the user
    left. *)
Module RawVoiceState.
Record t := mk {
  guild_id : option string;
  channel_id : option string;
  user_id : string;
  fields : Fields }.
End RawVoiceState.

Module VoiceState.
Record t := mk {
  guildId : option string;
  channelId : option string;
  userId : string;
  fields : Fields }.
(** [voiceState.serverId]: the guild id, or else the channel id. *)
Definition serverId (v : t) : option string :=
  js_or_opt (guildId v) (channelId v).
Definition merge (raw : RawVoiceState.t) (v : t) : t :=
  {| guildId := mergeOpt (RawVoiceState.guild_id raw) (guildId v);
     channelId := RawVoiceState.channel_id raw;
     userId := userId v;
     fields := mergeFields (RawVoiceState.fields raw) (fields v) |}.
Definition new (raw : RawVoiceState.t) : t :=
  {| guildId := RawVoiceState.guild_id raw;
     channelId := RawVoiceState.channel_id raw;
     userId := RawVoiceState.user_id raw;
     fields := RawVoiceState.fields raw |}.
Definition differences (v : t) (raw : RawVoiceState.t) : list string :=
  (if bool_decide (RawVoiceState.channel_id raw = channelId v)
   then [] else ["channel_id"])
  ++ diffKeys (fields v) (RawVoiceState.fields raw).
End VoiceState.

(** Modelled from the spec: [VoiceCall.kill] is missing; it puts the call
    in its terminal killed state. *)
Module VoiceCall.
Definition kill (call : Obj.t) : Obj.t :=
  Obj.mk (Obj.id call) (<["killed" := "true"]> (Obj.fields call)).
End VoiceCall.

(** ** Payloads of the gateway *)

Module RawReaction.
Record t := mk {
  channel_id : string;
  guild_id : option string;
  message_id : string;
  user_id : string;
  emoji_id : option string;
  emoji_name : string }.
End RawReaction.

Module RawChannelPins.
Record t := mk {
  channel_id : string;
  guild_id : option string;
  last_pin_timestamp : option string }.
End RawChannelPins.

Module RawGuildBan.
Record t := mk { guild_id : string; user : Obj.t }.
End RawGuildBan.

Module RawMembersChunk.
Record t := mk {
  guild_id : string;
  members : option (list RawMember.t);
  not_found : option (list string);
  presences : option (list RawPresence.t) }.
End RawMembersChunk.

Module RawReady.
Record t := mk {
  user : Obj.t;
  private_channels : option (list Obj.t);
  guilds : list RawGuild.t;
  notes : option (list (string * string));
  presences : option (list RawPresence.t);
  relationships : option (list Obj.t);
  trace : list string }.
End RawReady.

Module RawResumed.
Record t := mk { trace : list string }.
End RawResumed.

(** [fields] holds the fields of the payload itself, which
    [user.merge(data)] is given. *)
Module RawChannelRecipient.
Record t := mk {
  channel_id : string;
  nick : option string;
  user : Obj.t;
  fields : Fields }.
End RawChannelRecipient.

Module RawFriendSuggestion.
Record t := mk { reasons : list Fields; suggested_user : Obj.t }.
End RawFriendSuggestion.

Module RawEmojisUpdate.
Record t := mk { guild_id : string; emojis : list Obj.t }.
End RawEmojisUpdate.

Module RawRole.
Record t := mk { guild_id : string; role : Obj.t }.
End RawRole.

Module RawRoleDelete.
Record t := mk { guild_id : string; role_id : string }.
End RawRoleDelete.

Module RawMessageDeleteBulk.
Record t := mk {
  ids : list string;
  channel_id : string;
  guild_id : option string }.
End RawMessageDeleteBulk.

Module RawReactionRemoveAll.
Record t := mk {
  channel_id : string;
  guild_id : option string;
  message_id : string }.
End RawReactionRemoveAll.

Module RawPresencesReplace.
Record t := mk { presences : option (list RawPresence.t) }.
End RawPresencesReplace.

Module RawNote.
Record t := mk { id : string; note : string }.
End RawNote.

(** [packet.d], of type [any] in the source: the payload shapes of the
    handlers below, and [D_Other] for a record of plain fields. *)
Inductive PacketData :=
  | D_Ready (data : RawReady.t)
  | D_Guild (data : RawGuild.t)
  | D_Obj (data : Obj.t)
  | D_Presence (data : RawPresence.t)
  | D_Member (data : RawMember.t)
  | D_Reaction (data : RawReaction.t)
  | D_ChannelPins (data : RawChannelPins.t)
  | D_GuildBan (data : RawGuildBan.t)
  | D_MembersChunk (data : RawMembersChunk.t)
  | D_Other (data : Fields)
  | D_Resumed (data : RawResumed.t)
  | D_ChannelRecipient (data : RawChannelRecipient.t)
  | D_FriendSuggestion (data : RawFriendSuggestion.t)
  | D_EmojisUpdate (data : RawEmojisUpdate.t)
  | D_Role (data : RawRole.t)
  | D_RoleDelete (data : RawRoleDelete.t)
  | D_MessageDeleteBulk (data : RawMessageDeleteBulk.t)
  | D_ReactionRemoveAll (data : RawReactionRemoveAll.t)
  | D_PresencesReplace (data : RawPresencesReplace.t)
  | D_Note (data : RawNote.t)
  | D_Typing (data : RawTyping.t)
  | D_VoiceState (data : RawVoiceState.t).

(** ** Outward notifications *)

(** The first argument of [client.emit]: a [ClientEvents] constant, or a
    string ([emit('warn', ...)], [emit(payload.name, ...)]). *)
Inductive EventName :=
  | Named (e : ClientEvents.t)
  | Literal (s : string).

#[global] Instance EventName_eq_dec : EqDecision EventName.
Proof. solve_decision. Defined.

(** The second argument of [client.emit], per handler.  Entities held by
    value are given as they are when the notification is emitted. *)
Inductive Payload :=
  | P_Raw (name : string) (data : PacketData)
  | P_Data (data : PacketData)
  | P_GatewayReady (raw : RawReady.t)
  | P_Warn (message : string)
  | P_CallUpdate (call : Obj.t) (differences : Differences)
  | P_ChannelPinsUpdate (channel : option Obj.t) (channelId : string)
      (guildId : option string) (lastPinTimestamp : option string)
  | P_ChannelUpdate (channel : Obj.t) (differences : Differences)
  | P_GuildBan (guild : option Obj.t) (guildId : string) (user : Obj.t)
  | P_GuildCreate (fromUnavailable : bool) (guild : Guild.t)
  | P_GuildDelete (guild : option Guild.t) (guildId : string)
      (isUnavailable : bool)
  | P_GuildMembersChunk (members notFound presences : option nat)
      (guildId : string) (raw : RawMembersChunk.t)
  | P_GuildMemberUpdate (differences : Differences)
      (guildId : option string) (member : ref)
  | P_GuildUpdate (differences : Differences) (guild : Guild.t)
  | P_MessageReactionRemove (channel : option Obj.t) (channelId : string)
      (guild : option Guild.t) (guildId : option string)
      (message : option Message.t) (messageId : string)
      (reaction : Reaction.t) (user : option Obj.t) (userId : string)
      (raw : RawReaction.t)
  | P_MessageUpdate (differences : Differences) (message : Message.t)
  | P_PresenceUpdate (differences : Differences) (isGuildPresence : bool)
      (member : option ref) (presence : ref) (guildId : option string)
  | P_RelationshipAdd (differences : Differences) (relationship : Obj.t)
  | P_GatewayResumed (raw : RawResumed.t)
  | P_CallCreate (call : Obj.t)
  | P_CallDelete (channelId : string)
  | P_ChannelCreate (channel : Obj.t)
  | P_ChannelDelete (channel : Obj.t)
  | P_ChannelRecipient (channel : option Obj.t) (channelId : string)
      (nick : option string) (user : Obj.t)
  | P_FriendSuggestionCreate (reasons : list (option string * option string))
      (user : Obj.t)
  | P_Record (fields : list (string * option string))
  | P_GuildEmojisUpdate (emojis : gmap string Emoji.t)
      (emojisOld : option (gmap string Emoji.t)) (guild : option Guild.t)
      (guildId : string)
  | P_GuildMemberAdd (guildId : option string) (member : ref)
  | P_RawOnly (raw : PacketData)
  | P_GuildMemberRemove (guildId : option string) (user : Obj.t)
  | P_GuildRole (guild : option Guild.t) (guildId : string) (role : Obj.t)
  | P_GuildRoleDelete (guild : option Guild.t) (guildId : string)
      (role : option Obj.t) (roleId : string)
  | P_GuildRoleUpdate (differences : Differences) (guild : option Guild.t)
      (guildId : string) (role : Obj.t)
  | P_MessageCreate (message : Message.t)
  | P_MessageDelete (message : option Message.t) (raw : Obj.t)
  | P_MessageDeleteBulk (amount : nat) (channel : option Obj.t)
      (channelId : string) (guild : option Guild.t) (guildId : option string)
      (messages : gmap string (option Message.t))
      (raw : RawMessageDeleteBulk.t)
  | P_MessageReactionAdd (channel : option Obj.t) (channelId : string)
      (guild : option Guild.t) (guildId : option string)
      (message : option Message.t) (messageId : string)
      (reaction : Reaction.t) (user : option Obj.t) (userId : string)
      (raw : RawReaction.t)
  | P_MessageReactionRemoveAll (channel : option Obj.t) (channelId : string)
      (guild : option Guild.t) (guildId : option string)
      (message : option Message.t) (messageId : string)
      (raw : RawReactionRemoveAll.t)
  | P_PresencesReplace (presences : gmap string ref)
  | P_RelationshipRemove (id : string) (relationship : Obj.t)
      (type : option string)
  | P_TypingStart (channelId : string) (guildId : option string)
      (typing : ref) (userId : string)
  | P_UserNoteUpdate (note : string) (user : option Obj.t) (userId : string)
  | P_UserUpdate (differences : Differences) (user : Obj.t)
  | P_VoiceStateUpdate (differences : Differences) (leftChannel : bool)
      (voiceState : ref).

Module Notification.
Record t := mk { name : EventName; payload : Payload }.
End Notification.

(** ** Collections *)

(** Modelled from the spec: [BaseClientCollection] ([./basecollection]) is
    missing; a flat repository is a [Map] keyed by the entity id, with the
    [enabled] switch that the handlers and [Presences] read; [insert]
    stores only when the collection is enabled, as [TypingCollection.insert]
    and [Presences.insert] do. *)
Module Repo.
Record t (V : Type) := mk { enabled : bool; cache : gmap string V }.
Arguments mk {V} _ _.
Arguments enabled {V} _.
Arguments cache {V} _.
Definition with_cache {V} (f : gmap string V → gmap string V) (r : t V)
  : t V := {| enabled := enabled r; cache := f (cache r) |}.
Definition has {V} (key : string) (r : t V) : bool :=
  bool_decide (is_Some (cache r !! key)).
Definition get {V} (key : string) (r : t V) : option V := cache r !! key.
Definition set {V} (key : string) (value : V) (r : t V) : t V :=
  with_cache (insert key value) r.
Definition delete {V} (key : string) (r : t V) : t V :=
  with_cache (base.delete key) r.
Definition clear {V} (r : t V) : t V := with_cache (λ _, ∅) r.
Definition insert {V} (key : string) (value : V) (r : t V) : t V :=
  if enabled r then set key value r else r.
End Repo.

(** A two-level store, scope key to entity key to object reference, with
    the switches of [Presences] (and of the roster collection). *)
Module Tier.
Record t := mk {
  enabled : bool;
  storeOffline : bool;
  cache : gmap string (gmap string ref) }.
Definition with_cache
  (f : gmap string (gmap string ref) → gmap string (gmap string ref))
  (r : t) : t :=
  {| enabled := enabled r; storeOffline := storeOffline r;
     cache := f (cache r) |}.
End Tier.

(** The result of the overloaded [get] of a tiered collection. *)
Inductive Got :=
  | GotCache (cache : gmap string ref)
  | GotEntity (entity : ref)
  | GotUndefined.

(** The collection a cached channel or guild holds (the recipients and the
    nicknames of a direct-message channel, the roles of a guild), kept by
    the id of its owner; what the constructor of the owner puts into it is
    not represented. *)
Definition nested {V} (owner : string) (m : gmap string (gmap string V))
  : gmap string V := default ∅ (m !! owner).

Definition with_nested {V} (owner : string)
  (f : gmap string V → gmap string V) (m : gmap string (gmap string V))
  : gmap string (gmap string V) := <[owner := f (nested owner m)]> m.

(** ** The client *)

Module Request.
(** [gateway.requestGuildMembers(guildId, {limit, presences, query})]. *)
Record t := mk {
  guildId : string;
  limit : Z;
  presences : bool;
  query : string }.
End Request.

Inductive AuthTypes := BOT | USER.

Inductive RestCall := fetchOauth2Application.

(** The state the handlers read and write: the collections of
    [ShardClient], the objects they refer to, what the gateway and the
    request layer were asked to send, the fields of [GatewayHandler], the
    registered observers and the notifications emitted so far.
    [differencesCalls] counts the calls of a [differences] method;
    [recipients], [nicks] and [roles] are the collections that the cached
    channels and guilds hold. *)
Record Client := mkClient {
  user : option Obj.t;
  isBot : bool;
  authType : AuthTypes;
  users : Repo.t Obj.t;
  channels : Repo.t Obj.t;
  guilds : Repo.t Guild.t;
  emojis : Repo.t Emoji.t;
  messages : Repo.t Message.t;
  relationships : Repo.t Obj.t;
  voiceCalls : Repo.t Obj.t;
  notes : Repo.t string;
  owners : gmap string Obj.t;
  members : Tier.t;
  presences : Tier.t;
  memberObjs : list Member.t;
  presenceObjs : list Presence.t;
  largeThreshold : Z;
  guildSubscriptions : bool;
  discordTrace : list string;
  requestedGuildMembers : list Request.t;
  restCalls : list RestCall;
  emitRawEvent : bool;
  disabledEvents : gset string;
  loadAllMembers : bool;
  memberChunksLeft : gset string;
  listeners : list ClientEvents.t;
  emitted : list Notification.t;
  differencesCalls : nat;
  typing : Tier.t;
  voiceStates : Tier.t;
  typingObjs : list Typing.t;
  voiceStateObjs : list VoiceState.t;
  recipients : gmap string (gmap string Obj.t);
  nicks : gmap string (gmap string string);
  roles : gmap string (gmap string Obj.t) }.

(** Field updates: [with_f g c] is [c] with field [f] replaced by [g (f c)]. *)
Definition with_user (g : option Obj.t → option Obj.t) (c : Client) : Client :=
  mkClient (g (user c)) (isBot c) (authType c) (users c) (channels c)
    (guilds c) (emojis c) (messages c) (relationships c) (voiceCalls c)
    (notes c) (owners c) (members c) (presences c) (memberObjs c)
    (presenceObjs c) (largeThreshold c) (guildSubscriptions c)
    (discordTrace c) (requestedGuildMembers c) (restCalls c) (emitRawEvent c)
    (disabledEvents c) (loadAllMembers c) (memberChunksLeft c) (listeners c)
    (emitted c) (differencesCalls c) (typing c) (voiceStates c) (typingObjs c)
    (voiceStateObjs c) (recipients c) (nicks c) (roles c).
Definition with_isBot (g : bool → bool) (c : Client) : Client :=
  mkClient (user c) (g (isBot c)) (authType c) (users c) (channels c)
    (guilds c) (emojis c) (messages c) (relationships c) (voiceCalls c)
    (notes c) (owners c) (members c) (presences c) (memberObjs c)
    (presenceObjs c) (largeThreshold c) (guildSubscriptions c)
    (discordTrace c) (requestedGuildMembers c) (restCalls c) (emitRawEvent c)
    (disabledEvents c) (loadAllMembers c) (memberChunksLeft c) (listeners c)
    (emitted c) (differencesCalls c) (typing c) (voiceStates c) (typingObjs c)
    (voiceStateObjs c) (recipients c) (nicks c) (roles c).
Definition with_authType (g : AuthTypes → AuthTypes) (c : Client) : Client :=
  mkClient (user c) (isBot c) (g (authType c)) (users c) (channels c)
    (guilds c) (emojis c) (messages c) (relationships c) (voiceCalls c)
    (notes c) (owners c) (members c) (presences c) (memberObjs c)
    (presenceObjs c) (largeThreshold c) (guildSubscriptions c)
    (discordTrace c) (requestedGuildMembers c) (restCalls c) (emitRawEvent c)
    (disabledEvents c) (loadAllMembers c) (memberChunksLeft c) (listeners c)
    (emitted c) (differencesCalls c) (typing c) (voiceStates c) (typingObjs c)
    (voiceStateObjs c) (recipients c) (nicks c) (roles c).
Definition with_users
  (g : Repo.t Obj.t → Repo.t Obj.t)
  (c : Client) : Client :=
  mkClient (user c) (isBot c) (authType c) (g (users c)) (channels c)
    (guilds c) (emojis c) (messages c) (relationships c) (voiceCalls c)
    (notes c) (owners c) (members c) (presences c) (memberObjs c)
    (presenceObjs c) (largeThreshold c) (guildSubscriptions c)
    (discordTrace c) (requestedGuildMembers c) (restCalls c) (emitRawEvent c)
    (disabledEvents c) (loadAllMembers c) (memberChunksLeft c) (listeners c)
    (emitted c) (differencesCalls c) (typing c) (voiceStates c) (typingObjs c)
    (voiceStateObjs c) (recipients c) (nicks c) (roles c).
Definition with_channels
  (g : Repo.t Obj.t → Repo.t Obj.t)
  (c : Client) : Client :=
  mkClient (user c) (isBot c) (authType c) (users c) (g (channels c))
    (guilds c) (emojis c) (messages c) (relationships c) (voiceCalls c)
    (notes c) (owners c) (members c) (presences c) (memberObjs c)
    (presenceObjs c) (largeThreshold c) (guildSubscriptions c)
    (discordTrace c) (requestedGuildMembers c) (restCalls c) (emitRawEvent c)
    (disabledEvents c) (loadAllMembers c) (memberChunksLeft c) (listeners c)
    (emitted c) (differencesCalls c) (typing c) (voiceStates c) (typingObjs c)
    (voiceStateObjs c) (recipients c) (nicks c) (roles c).
Definition with_guilds
  (g : Repo.t Guild.t → Repo.t Guild.t)
  (c : Client) : Client :=
  mkClient (user c) (isBot c) (authType c) (users c) (channels c)
    (g (guilds c)) (emojis c) (messages c) (relationships c) (voiceCalls c)
    (notes c) (owners c) (members c) (presences c) (memberObjs c)
    (presenceObjs c) (largeThreshold c) (guildSubscriptions c)
    (discordTrace c) (requestedGuildMembers c) (restCalls c) (emitRawEvent c)
    (disabledEvents c) (loadAllMembers c) (memberChunksLeft c) (listeners c)
    (emitted c) (differencesCalls c) (typing c) (voiceStates c) (typingObjs c)
    (voiceStateObjs c) (recipients c) (nicks c) (roles c).
Definition with_emojis
  (g : Repo.t Emoji.t → Repo.t Emoji.t)
  (c : Client) : Client :=
  mkClient (user c) (isBot c) (authType c) (users c) (channels c) (guilds c)
    (g (emojis c)) (messages c) (relationships c) (voiceCalls c) (notes c)
    (owners c) (members c) (presences c) (memberObjs c) (presenceObjs c)
    (largeThreshold c) (guildSubscriptions c) (discordTrace c)
    (requestedGuildMembers c) (restCalls c) (emitRawEvent c)
    (disabledEvents c) (loadAllMembers c) (memberChunksLeft c) (listeners c)
    (emitted c) (differencesCalls c) (typing c) (voiceStates c) (typingObjs c)
    (voiceStateObjs c) (recipients c) (nicks c) (roles c).
Definition with_messages
  (g : Repo.t Message.t → Repo.t Message.t)
  (c : Client) : Client :=
  mkClient (user c) (isBot c) (authType c) (users c) (channels c) (guilds c)
    (emojis c) (g (messages c)) (relationships c) (voiceCalls c) (notes c)
    (owners c) (members c) (presences c) (memberObjs c) (presenceObjs c)
    (largeThreshold c) (guildSubscriptions c) (discordTrace c)
    (requestedGuildMembers c) (restCalls c) (emitRawEvent c)
    (disabledEvents c) (loadAllMembers c) (memberChunksLeft c) (listeners c)
    (emitted c) (differencesCalls c) (typing c) (voiceStates c) (typingObjs c)
    (voiceStateObjs c) (recipients c) (nicks c) (roles c).
Definition with_relationships
  (g : Repo.t Obj.t → Repo.t Obj.t)
  (c : Client) : Client :=
  mkClient (user c) (isBot c) (authType c) (users c) (channels c) (guilds c)
    (emojis c) (messages c) (g (relationships c)) (voiceCalls c) (notes c)
    (owners c) (members c) (presences c) (memberObjs c) (presenceObjs c)
    (largeThreshold c) (guildSubscriptions c) (discordTrace c)
    (requestedGuildMembers c) (restCalls c) (emitRawEvent c)
    (disabledEvents c) (loadAllMembers c) (memberChunksLeft c) (listeners c)
    (emitted c) (differencesCalls c) (typing c) (voiceStates c) (typingObjs c)
    (voiceStateObjs c) (recipients c) (nicks c) (roles c).
Definition with_voiceCalls
  (g : Repo.t Obj.t → Repo.t Obj.t)
  (c : Client) : Client :=
  mkClient (user c) (isBot c) (authType c) (users c) (channels c) (guilds c)
    (emojis c) (messages c) (relationships c) (g (voiceCalls c)) (notes c)
    (owners c) (members c) (presences c) (memberObjs c) (presenceObjs c)
    (largeThreshold c) (guildSubscriptions c) (discordTrace c)
    (requestedGuildMembers c) (restCalls c) (emitRawEvent c)
    (disabledEvents c) (loadAllMembers c) (memberChunksLeft c) (listeners c)
    (emitted c) (differencesCalls c) (typing c) (voiceStates c) (typingObjs c)
    (voiceStateObjs c) (recipients c) (nicks c) (roles c).
Definition with_notes
  (g : Repo.t string → Repo.t string)
  (c : Client) : Client :=
  mkClient (user c) (isBot c) (authType c) (users c) (channels c) (guilds c)
    (emojis c) (messages c) (relationships c) (voiceCalls c) (g (notes c))
    (owners c) (members c) (presences c) (memberObjs c) (presenceObjs c)
    (largeThreshold c) (guildSubscriptions c) (discordTrace c)
    (requestedGuildMembers c) (restCalls c) (emitRawEvent c)
    (disabledEvents c) (loadAllMembers c) (memberChunksLeft c) (listeners c)
    (emitted c) (differencesCalls c) (typing c) (voiceStates c) (typingObjs c)
    (voiceStateObjs c) (recipients c) (nicks c) (roles c).
Definition with_owners
  (g : gmap string Obj.t → gmap string Obj.t)
  (c : Client) : Client :=
  mkClient (user c) (isBot c) (authType c) (users c) (channels c) (guilds c)
    (emojis c) (messages c) (relationships c) (voiceCalls c) (notes c)
    (g (owners c)) (members c) (presences c) (memberObjs c) (presenceObjs c)
    (largeThreshold c) (guildSubscriptions c) (discordTrace c)
    (requestedGuildMembers c) (restCalls c) (emitRawEvent c)
    (disabledEvents c) (loadAllMembers c) (memberChunksLeft c) (listeners c)
    (emitted c) (differencesCalls c) (typing c) (voiceStates c) (typingObjs c)
    (voiceStateObjs c) (recipients c) (nicks c) (roles c).
Definition with_members (g : Tier.t → Tier.t) (c : Client) : Client :=
  mkClient (user c) (isBot c) (authType c) (users c) (channels c) (guilds c)
    (emojis c) (messages c) (relationships c) (voiceCalls c) (notes c)
    (owners c) (g (members c)) (presences c) (memberObjs c) (presenceObjs c)
    (largeThreshold c) (guildSubscriptions c) (discordTrace c)
    (requestedGuildMembers c) (restCalls c) (emitRawEvent c)
    (disabledEvents c) (loadAllMembers c) (memberChunksLeft c) (listeners c)
    (emitted c) (differencesCalls c) (typing c) (voiceStates c) (typingObjs c)
    (voiceStateObjs c) (recipients c) (nicks c) (roles c).
Definition with_presences (g : Tier.t → Tier.t) (c : Client) : Client :=
  mkClient (user c) (isBot c) (authType c) (users c) (channels c) (guilds c)
    (emojis c) (messages c) (relationships c) (voiceCalls c) (notes c)
    (owners c) (members c) (g (presences c)) (memberObjs c) (presenceObjs c)
    (largeThreshold c) (guildSubscriptions c) (discordTrace c)
    (requestedGuildMembers c) (restCalls c) (emitRawEvent c)
    (disabledEvents c) (loadAllMembers c) (memberChunksLeft c) (listeners c)
    (emitted c) (differencesCalls c) (typing c) (voiceStates c) (typingObjs c)
    (voiceStateObjs c) (recipients c) (nicks c) (roles c).
Definition with_memberObjs
  (g : list Member.t → list Member.t)
  (c : Client) : Client :=
  mkClient (user c) (isBot c) (authType c) (users c) (channels c) (guilds c)
    (emojis c) (messages c) (relationships c) (voiceCalls c) (notes c)
    (owners c) (members c) (presences c) (g (memberObjs c)) (presenceObjs c)
    (largeThreshold c) (guildSubscriptions c) (discordTrace c)
    (requestedGuildMembers c) (restCalls c) (emitRawEvent c)
    (disabledEvents c) (loadAllMembers c) (memberChunksLeft c) (listeners c)
    (emitted c) (differencesCalls c) (typing c) (voiceStates c) (typingObjs c)
    (voiceStateObjs c) (recipients c) (nicks c) (roles c).
Definition with_presenceObjs
  (g : list Presence.t → list Presence.t)
  (c : Client) : Client :=
  mkClient (user c) (isBot c) (authType c) (users c) (channels c) (guilds c)
    (emojis c) (messages c) (relationships c) (voiceCalls c) (notes c)
    (owners c) (members c) (presences c) (memberObjs c) (g (presenceObjs c))
    (largeThreshold c) (guildSubscriptions c) (discordTrace c)
    (requestedGuildMembers c) (restCalls c) (emitRawEvent c)
    (disabledEvents c) (loadAllMembers c) (memberChunksLeft c) (listeners c)
    (emitted c) (differencesCalls c) (typing c) (voiceStates c) (typingObjs c)
    (voiceStateObjs c) (recipients c) (nicks c) (roles c).
Definition with_largeThreshold (g : Z → Z) (c : Client) : Client :=
  mkClient (user c) (isBot c) (authType c) (users c) (channels c) (guilds c)
    (emojis c) (messages c) (relationships c) (voiceCalls c) (notes c)
    (owners c) (members c) (presences c) (memberObjs c) (presenceObjs c)
    (g (largeThreshold c)) (guildSubscriptions c) (discordTrace c)
    (requestedGuildMembers c) (restCalls c) (emitRawEvent c)
    (disabledEvents c) (loadAllMembers c) (memberChunksLeft c) (listeners c)
    (emitted c) (differencesCalls c) (typing c) (voiceStates c) (typingObjs c)
    (voiceStateObjs c) (recipients c) (nicks c) (roles c).
Definition with_guildSubscriptions (g : bool → bool) (c : Client) : Client :=
  mkClient (user c) (isBot c) (authType c) (users c) (channels c) (guilds c)
    (emojis c) (messages c) (relationships c) (voiceCalls c) (notes c)
    (owners c) (members c) (presences c) (memberObjs c) (presenceObjs c)
    (largeThreshold c) (g (guildSubscriptions c)) (discordTrace c)
    (requestedGuildMembers c) (restCalls c) (emitRawEvent c)
    (disabledEvents c) (loadAllMembers c) (memberChunksLeft c) (listeners c)
    (emitted c) (differencesCalls c) (typing c) (voiceStates c) (typingObjs c)
    (voiceStateObjs c) (recipients c) (nicks c) (roles c).
Definition with_discordTrace
  (g : list string → list string)
  (c : Client) : Client :=
  mkClient (user c) (isBot c) (authType c) (users c) (channels c) (guilds c)
    (emojis c) (messages c) (relationships c) (voiceCalls c) (notes c)
    (owners c) (members c) (presences c) (memberObjs c) (presenceObjs c)
    (largeThreshold c) (guildSubscriptions c) (g (discordTrace c))
    (requestedGuildMembers c) (restCalls c) (emitRawEvent c)
    (disabledEvents c) (loadAllMembers c) (memberChunksLeft c) (listeners c)
    (emitted c) (differencesCalls c) (typing c) (voiceStates c) (typingObjs c)
    (voiceStateObjs c) (recipients c) (nicks c) (roles c).
Definition with_requestedGuildMembers
  (g : list Request.t → list Request.t)
  (c : Client) : Client :=
  mkClient (user c) (isBot c) (authType c) (users c) (channels c) (guilds c)
    (emojis c) (messages c) (relationships c) (voiceCalls c) (notes c)
    (owners c) (members c) (presences c) (memberObjs c) (presenceObjs c)
    (largeThreshold c) (guildSubscriptions c) (discordTrace c)
    (g (requestedGuildMembers c)) (restCalls c) (emitRawEvent c)
    (disabledEvents c) (loadAllMembers c) (memberChunksLeft c) (listeners c)
    (emitted c) (differencesCalls c) (typing c) (voiceStates c) (typingObjs c)
    (voiceStateObjs c) (recipients c) (nicks c) (roles c).
Definition with_restCalls
  (g : list RestCall → list RestCall)
  (c : Client) : Client :=
  mkClient (user c) (isBot c) (authType c) (users c) (channels c) (guilds c)
    (emojis c) (messages c) (relationships c) (voiceCalls c) (notes c)
    (owners c) (members c) (presences c) (memberObjs c) (presenceObjs c)
    (largeThreshold c) (guildSubscriptions c) (discordTrace c)
    (requestedGuildMembers c) (g (restCalls c)) (emitRawEvent c)
    (disabledEvents c) (loadAllMembers c) (memberChunksLeft c) (listeners c)
    (emitted c) (differencesCalls c) (typing c) (voiceStates c) (typingObjs c)
    (voiceStateObjs c) (recipients c) (nicks c) (roles c).
Definition with_emitRawEvent (g : bool → bool) (c : Client) : Client :=
  mkClient (user c) (isBot c) (authType c) (users c) (channels c) (guilds c)
    (emojis c) (messages c) (relationships c) (voiceCalls c) (notes c)
    (owners c) (members c) (presences c) (memberObjs c) (presenceObjs c)
    (largeThreshold c) (guildSubscriptions c) (discordTrace c)
    (requestedGuildMembers c) (restCalls c) (g (emitRawEvent c))
    (disabledEvents c) (loadAllMembers c) (memberChunksLeft c) (listeners c)
    (emitted c) (differencesCalls c) (typing c) (voiceStates c) (typingObjs c)
    (voiceStateObjs c) (recipients c) (nicks c) (roles c).
Definition with_disabledEvents
  (g : gset string → gset string)
  (c : Client) : Client :=
  mkClient (user c) (isBot c) (authType c) (users c) (channels c) (guilds c)
    (emojis c) (messages c) (relationships c) (voiceCalls c) (notes c)
    (owners c) (members c) (presences c) (memberObjs c) (presenceObjs c)
    (largeThreshold c) (guildSubscriptions c) (discordTrace c)
    (requestedGuildMembers c) (restCalls c) (emitRawEvent c)
    (g (disabledEvents c)) (loadAllMembers c) (memberChunksLeft c)
    (listeners c) (emitted c) (differencesCalls c) (typing c) (voiceStates c)
    (typingObjs c) (voiceStateObjs c) (recipients c) (nicks c) (roles c).
Definition with_loadAllMembers (g : bool → bool) (c : Client) : Client :=
  mkClient (user c) (isBot c) (authType c) (users c) (channels c) (guilds c)
    (emojis c) (messages c) (relationships c) (voiceCalls c) (notes c)
    (owners c) (members c) (presences c) (memberObjs c) (presenceObjs c)
    (largeThreshold c) (guildSubscriptions c) (discordTrace c)
    (requestedGuildMembers c) (restCalls c) (emitRawEvent c)
    (disabledEvents c) (g (loadAllMembers c)) (memberChunksLeft c)
    (listeners c) (emitted c) (differencesCalls c) (typing c) (voiceStates c)
    (typingObjs c) (voiceStateObjs c) (recipients c) (nicks c) (roles c).
Definition with_memberChunksLeft
  (g : gset string → gset string)
  (c : Client) : Client :=
  mkClient (user c) (isBot c) (authType c) (users c) (channels c) (guilds c)
    (emojis c) (messages c) (relationships c) (voiceCalls c) (notes c)
    (owners c) (members c) (presences c) (memberObjs c) (presenceObjs c)
    (largeThreshold c) (guildSubscriptions c) (discordTrace c)
    (requestedGuildMembers c) (restCalls c) (emitRawEvent c)
    (disabledEvents c) (loadAllMembers c) (g (memberChunksLeft c))
    (listeners c) (emitted c) (differencesCalls c) (typing c) (voiceStates c)
    (typingObjs c) (voiceStateObjs c) (recipients c) (nicks c) (roles c).
Definition with_listeners
  (g : list ClientEvents.t → list ClientEvents.t)
  (c : Client) : Client :=
  mkClient (user c) (isBot c) (authType c) (users c) (channels c) (guilds c)
    (emojis c) (messages c) (relationships c) (voiceCalls c) (notes c)
    (owners c) (members c) (presences c) (memberObjs c) (presenceObjs c)
    (largeThreshold c) (guildSubscriptions c) (discordTrace c)
    (requestedGuildMembers c) (restCalls c) (emitRawEvent c)
    (disabledEvents c) (loadAllMembers c) (memberChunksLeft c)
    (g (listeners c)) (emitted c) (differencesCalls c) (typing c)
    (voiceStates c) (typingObjs c) (voiceStateObjs c) (recipients c) (nicks c)
    (roles c).
Definition with_emitted
  (g : list Notification.t → list Notification.t)
  (c : Client) : Client :=
  mkClient (user c) (isBot c) (authType c) (users c) (channels c) (guilds c)
    (emojis c) (messages c) (relationships c) (voiceCalls c) (notes c)
    (owners c) (members c) (presences c) (memberObjs c) (presenceObjs c)
    (largeThreshold c) (guildSubscriptions c) (discordTrace c)
    (requestedGuildMembers c) (restCalls c) (emitRawEvent c)
    (disabledEvents c) (loadAllMembers c) (memberChunksLeft c) (listeners c)
    (g (emitted c)) (differencesCalls c) (typing c) (voiceStates c)
    (typingObjs c) (voiceStateObjs c) (recipients c) (nicks c) (roles c).
Definition with_differencesCalls (g : nat → nat) (c : Client) : Client :=
  mkClient (user c) (isBot c) (authType c) (users c) (channels c) (guilds c)
    (emojis c) (messages c) (relationships c) (voiceCalls c) (notes c)
    (owners c) (members c) (presences c) (memberObjs c) (presenceObjs c)
    (largeThreshold c) (guildSubscriptions c) (discordTrace c)
    (requestedGuildMembers c) (restCalls c) (emitRawEvent c)
    (disabledEvents c) (loadAllMembers c) (memberChunksLeft c) (listeners c)
    (emitted c) (g (differencesCalls c)) (typing c) (voiceStates c)
    (typingObjs c) (voiceStateObjs c) (recipients c) (nicks c) (roles c).
Definition with_typing (g : Tier.t → Tier.t) (c : Client) : Client :=
  mkClient (user c) (isBot c) (authType c) (users c) (channels c) (guilds c)
    (emojis c) (messages c) (relationships c) (voiceCalls c) (notes c)
    (owners c) (members c) (presences c) (memberObjs c) (presenceObjs c)
    (largeThreshold c) (guildSubscriptions c) (discordTrace c)
    (requestedGuildMembers c) (restCalls c) (emitRawEvent c)
    (disabledEvents c) (loadAllMembers c) (memberChunksLeft c) (listeners c)
    (emitted c) (differencesCalls c) (g (typing c)) (voiceStates c)
    (typingObjs c) (voiceStateObjs c) (recipients c) (nicks c) (roles c).
Definition with_voiceStates (g : Tier.t → Tier.t) (c : Client) : Client :=
  mkClient (user c) (isBot c) (authType c) (users c) (channels c) (guilds c)
    (emojis c) (messages c) (relationships c) (voiceCalls c) (notes c)
    (owners c) (members c) (presences c) (memberObjs c) (presenceObjs c)
    (largeThreshold c) (guildSubscriptions c) (discordTrace c)
    (requestedGuildMembers c) (restCalls c) (emitRawEvent c)
    (disabledEvents c) (loadAllMembers c) (memberChunksLeft c) (listeners c)
    (emitted c) (differencesCalls c) (typing c) (g (voiceStates c))
    (typingObjs c) (voiceStateObjs c) (recipients c) (nicks c) (roles c).
Definition with_typingObjs
  (g : list Typing.t → list Typing.t)
  (c : Client) : Client :=
  mkClient (user c) (isBot c) (authType c) (users c) (channels c) (guilds c)
    (emojis c) (messages c) (relationships c) (voiceCalls c) (notes c)
    (owners c) (members c) (presences c) (memberObjs c) (presenceObjs c)
    (largeThreshold c) (guildSubscriptions c) (discordTrace c)
    (requestedGuildMembers c) (restCalls c) (emitRawEvent c)
    (disabledEvents c) (loadAllMembers c) (memberChunksLeft c) (listeners c)
    (emitted c) (differencesCalls c) (typing c) (voiceStates c)
    (g (typingObjs c)) (voiceStateObjs c) (recipients c) (nicks c) (roles c).
Definition with_voiceStateObjs
  (g : list VoiceState.t → list VoiceState.t)
  (c : Client) : Client :=
  mkClient (user c) (isBot c) (authType c) (users c) (channels c) (guilds c)
    (emojis c) (messages c) (relationships c) (voiceCalls c) (notes c)
    (owners c) (members c) (presences c) (memberObjs c) (presenceObjs c)
    (largeThreshold c) (guildSubscriptions c) (discordTrace c)
    (requestedGuildMembers c) (restCalls c) (emitRawEvent c)
    (disabledEvents c) (loadAllMembers c) (memberChunksLeft c) (listeners c)
    (emitted c) (differencesCalls c) (typing c) (voiceStates c) (typingObjs c)
    (g (voiceStateObjs c)) (recipients c) (nicks c) (roles c).
Definition with_recipients
  (g : gmap string (gmap string Obj.t) → gmap string (gmap string Obj.t))
  (c : Client) : Client :=
  mkClient (user c) (isBot c) (authType c) (users c) (channels c) (guilds c)
    (emojis c) (messages c) (relationships c) (voiceCalls c) (notes c)
    (owners c) (members c) (presences c) (memberObjs c) (presenceObjs c)
    (largeThreshold c) (guildSubscriptions c) (discordTrace c)
    (requestedGuildMembers c) (restCalls c) (emitRawEvent c)
    (disabledEvents c) (loadAllMembers c) (memberChunksLeft c) (listeners c)
    (emitted c) (differencesCalls c) (typing c) (voiceStates c) (typingObjs c)
    (voiceStateObjs c) (g (recipients c)) (nicks c) (roles c).
Definition with_nicks
  (g : gmap string (gmap string string) → gmap string (gmap string string))
  (c : Client) : Client :=
  mkClient (user c) (isBot c) (authType c) (users c) (channels c) (guilds c)
    (emojis c) (messages c) (relationships c) (voiceCalls c) (notes c)
    (owners c) (members c) (presences c) (memberObjs c) (presenceObjs c)
    (largeThreshold c) (guildSubscriptions c) (discordTrace c)
    (requestedGuildMembers c) (restCalls c) (emitRawEvent c)
    (disabledEvents c) (loadAllMembers c) (memberChunksLeft c) (listeners c)
    (emitted c) (differencesCalls c) (typing c) (voiceStates c) (typingObjs c)
    (voiceStateObjs c) (recipients c) (g (nicks c)) (roles c).
Definition with_roles
  (g : gmap string (gmap string Obj.t) → gmap string (gmap string Obj.t))
  (c : Client) : Client :=
  mkClient (user c) (isBot c) (authType c) (users c) (channels c) (guilds c)
    (emojis c) (messages c) (relationships c) (voiceCalls c) (notes c)
    (owners c) (members c) (presences c) (memberObjs c) (presenceObjs c)
    (largeThreshold c) (guildSubscriptions c) (discordTrace c)
    (requestedGuildMembers c) (restCalls c) (emitRawEvent c)
    (disabledEvents c) (loadAllMembers c) (memberChunksLeft c) (listeners c)
    (emitted c) (differencesCalls c) (typing c) (voiceStates c) (typingObjs c)
    (voiceStateObjs c) (recipients c) (nicks c) (g (roles c)).

Definition emit (name : EventName) (payload : Payload) (c : Client) : Client :=
  with_emitted (λ sent, sent ++ [Notification.mk name payload]) c.

Definition hasEventListener (e : ClientEvents.t) (c : Client) : bool :=
  bool_decide (e ∈ listeners c).

(** A call of a [differences] method: the result, and one more call
    counted. *)
Definition computed (keys : list string) (c : Client) : Differences * Client :=
  (changed keys, with_differencesCalls S c).

Definition requestGuildMembers (guildId : string) (limit : Z)
  (presences : bool) (query : string) (c : Client) : Client :=
  with_requestedGuildMembers
    (λ sent, sent ++ [Request.mk guildId limit presences query]) c.

(** Modelled from the spec: [ShardClient.reset] is missing; it resets all
    repositories and tiers to empty. *)
Definition reset (c : Client) : Client :=
  with_users Repo.clear
  (with_channels Repo.clear
  (with_guilds Repo.clear
  (with_emojis Repo.clear
  (with_messages Repo.clear
  (with_relationships Repo.clear
  (with_voiceCalls Repo.clear
  (with_notes Repo.clear
  (with_members (Tier.with_cache (λ _, ∅))
  (with_presences (Tier.with_cache (λ _, ∅))
  (with_typing (Tier.with_cache (λ _, ∅))
  (with_voiceStates (Tier.with_cache (λ _, ∅))
  (with_recipients (λ _, ∅)
  (with_nicks (λ _, ∅)
  (with_roles (λ _, ∅) c)))))))))))))).

(** ** The roster collection

    Modelled from the spec: the [Members] collection ([./members]) is
    missing; it is the tiered cache of the members of each scope, with the
    lookups and the deletion of a tiered cache (those of [Presences]
    below), and its [insert] stores the member in the tier of its scope, as
    [TypingCollection.insert] does for its own tier. *)
Module Members.

Definition insertCache (cacheId : string) (this : Tier.t) : Tier.t :=
  if bool_decide (is_Some (Tier.cache this !! cacheId)) then this
  else Tier.with_cache (insert cacheId ∅) this.

Definition delete (cacheId userId : option string) (this : Tier.t)
  : bool * Tier.t :=
  if Tier.enabled this then
    match cacheId with
    | Some cacheId =>
        match Tier.cache this !! cacheId with
        | Some cache =>
            match userId with
            | Some userId =>
                (bool_decide (is_Some (cache !! userId)),
                 Tier.with_cache
                   (insert cacheId (base.delete userId cache)) this)
            | None => (true, Tier.with_cache (base.delete cacheId) this)
            end
        | None => (false, this)
        end
    | None =>
        match userId with
        | Some userId =>
            foldl (λ '(deleted, this) '(cacheId, cache),
                     if bool_decide (is_Some (cache !! userId))
                     then (true, Tier.with_cache
                             (insert cacheId (base.delete userId cache)) this)
                     else (deleted, this))
                  (false, this) (map_to_list (Tier.cache this))
        | None => (false, this)
        end
    end
  else (false, this).

Definition get (cacheId userId : option string) (this : Tier.t) : Got :=
  if Tier.enabled this then
    match cacheId with
    | Some cacheId =>
        match Tier.cache this !! cacheId with
        | Some cache =>
            match userId with
            | Some userId => from_option GotEntity GotUndefined (cache !! userId)
            | None => GotCache cache
            end
        | None => GotUndefined
        end
    | None =>
        match userId with
        | Some userId =>
            from_option GotEntity GotUndefined
              (head (omap (λ kv, kv.2 !! userId)
                          (map_to_list (Tier.cache this))))
        | None => GotUndefined
        end
    end
  else GotUndefined.

Definition has (cacheId userId : option string) (this : Tier.t) : bool :=
  if Tier.enabled this then
    match cacheId with
    | Some cacheId =>
        match Tier.cache this !! cacheId with
        | Some cache =>
            match userId with
            | Some userId => bool_decide (is_Some (cache !! userId))
            | None => true
            end
        | None => false
        end
    | None =>
        match userId with
        | Some userId =>
            existsb (λ kv, bool_decide (is_Some (kv.2 !! userId)))
                    (map_to_list (Tier.cache this))
        | None => false
        end
    end
  else false.

Definition insert (member : ref) (c : Client) : Client :=
  match memberObjs c !! member with
  | Some m =>
      if Tier.enabled (members c) then
        with_members
          (λ this,
             let this := insertCache (Member.guildId m) this in
             Tier.with_cache
               (alter (base.insert (Member.id m) member) (Member.guildId m))
               this) c
      else c
  | None => c
  end.

End Members.

(** ** [TypingCollection] (src/collections/typing.ts)

    Modelled from the spec: [BaseClientCollectionCache] ([./basecollection])
    is missing; its lookups are those of a tiered cache, as for the
    roster.  [insert] is the method of the source. *)
Module TypingCollection.

Definition insertCache := Members.insertCache.
Definition get := Members.get.
Definition has := Members.has.

Definition insert (indicator : ref) (c : Client) : Client :=
  match typingObjs c !! indicator with
  | Some t0 =>
      if Tier.enabled (typing c) then
        with_typing
          (λ this,
             let this := insertCache (Typing.channelId t0) this in
             Tier.with_cache
               (alter (base.insert (Typing.userId t0) indicator)
                  (Typing.channelId t0))
               this) c
      else c
  | None => c
  end.

End TypingCollection.

(** ** The voice states

    Modelled from the spec: the collection of the voice states is missing;
    it is a tiered cache keyed by the server id of the voice state, with
    the lookups and the deletion of the roster, and its [insert] is that of
    [TypingCollection]; a voice state with neither a guild nor a channel is
    not stored. *)
Module VoiceStates.

Definition insertCache := Members.insertCache.
Definition delete := Members.delete.
Definition get := Members.get.
Definition has := Members.has.

Definition insert (voiceState : ref) (c : Client) : Client :=
  match voiceStateObjs c !! voiceState with
  | Some v =>
      match VoiceState.serverId v with
      | Some serverId =>
          if Tier.enabled (voiceStates c) then
            with_voiceStates
              (λ this,
                 let this := insertCache serverId this in
                 Tier.with_cache
                   (alter (base.insert (VoiceState.userId v) voiceState)
                      serverId)
                   this) c
          else c
      | None => c
      end
  | None => c
  end.

End VoiceStates.

(** ** [Presences] (src/collections/presences.ts)

    The overloads of [delete], [get] and [has] take a cache id and a user
    id that may each be [null] or [undefined].  With no cache id the source
    walks the tiers in insertion order; [map_to_list] fixes another order,
    which only [get] with no cache id can tell. *)
Module Presences.

Definition insertCache (cacheId : string) (this : Tier.t) : Tier.t :=
  if bool_decide (is_Some (Tier.cache this !! cacheId)) then this
  else Tier.with_cache (insert cacheId ∅) this.

Definition delete (cacheId userId : option string) (this : Tier.t)
  : bool * Tier.t :=
  if Tier.enabled this then
    match cacheId with
    | Some cacheId =>
        match Tier.cache this !! cacheId with
        | Some cache =>
            match userId with
            | Some userId =>
                (bool_decide (is_Some (cache !! userId)),
                 Tier.with_cache
                   (insert cacheId (base.delete userId cache)) this)
            | None => (true, Tier.with_cache (base.delete cacheId) this)
            end
        | None => (false, this)
        end
    | None =>
        match userId with
        | Some userId =>
            foldl (λ '(deleted, this) '(cacheId, cache),
                     if bool_decide (is_Some (cache !! userId))
                     then (true, Tier.with_cache
                             (insert cacheId (base.delete userId cache)) this)
                     else (deleted, this))
                  (false, this) (map_to_list (Tier.cache this))
        | None => (false, this)
        end
    end
  else (false, this).

Definition get (cacheId userId : option string) (this : Tier.t) : Got :=
  if Tier.enabled this then
    match cacheId with
    | Some cacheId =>
        match Tier.cache this !! cacheId with
        | Some cache =>
            match userId with
            | Some userId => from_option GotEntity GotUndefined (cache !! userId)
            | None => GotCache cache
            end
        | None => GotUndefined
        end
    | None =>
        match userId with
        | Some userId =>
            from_option GotEntity GotUndefined
              (head (omap (λ kv, kv.2 !! userId)
                          (map_to_list (Tier.cache this))))
        | None => GotUndefined
        end
    end
  else GotUndefined.

Definition has (cacheId userId : option string) (this : Tier.t) : bool :=
  if Tier.enabled this then
    match cacheId with
    | Some cacheId =>
        match Tier.cache this !! cacheId with
        | Some cache =>
            match userId with
            | Some userId => bool_decide (is_Some (cache !! userId))
            | None => true
            end
        | None => false
        end
    | None =>
        match userId with
        | Some userId =>
            existsb (λ kv, bool_decide (is_Some (kv.2 !! userId)))
                    (map_to_list (Tier.cache this))
        | None => false
        end
    end
  else false.

(** [insert(presence)]: [null] when the collection is disabled, else the
    stored instance.  An offline presence evicts the member of its scope
    and, unless offline presences are stored, its own key. *)
Definition insert (presence : ref) (c : Client) : option ref * Client :=
  match presenceObjs c !! presence with
  | None => (None, c)
  | Some p =>
      let cacheId := Presence.cacheId p in
      let c := with_presences (insertCache cacheId) c in
      if negb (Tier.enabled (presences c)) then (None, c)
      else
        let c :=
          if Presence.isOffline p && Presence.fromGuild p
             && negb (Tier.storeOffline (members c))
          then with_members
                 (λ this, (Members.delete (Presence.guildId p)
                             (Some (Presence.userId p)) this).2) c
          else c in
        if Presence.isOffline p && negb (Tier.storeOffline (presences c))
        then (Some presence,
              with_presences
                (λ this, (delete (Some cacheId)
                            (Some (Presence.userId p)) this).2) c)
        else
          let cache := default ∅ (Tier.cache (presences c) !! cacheId) in
          match cache !! Presence.userId p with
          | Some old =>
              (Some old,
               with_presenceObjs (alter (Presence.mergePresence p) old) c)
          | None =>
              (Some presence,
               with_presences
                 (Tier.with_cache
                    (base.insert cacheId
                       (base.insert (Presence.userId p) presence cache))) c)
          end
  end.

(** [add(value)]: [has] and [get] agree on a key, so the test of [has]
    followed by [get] is the match on [get]. *)
Definition add (value : RawPresence.t) (c : Client) : ref * Client :=
  let cacheId :=
    js_or (RawPresence.guild_id value) DEFAULT_PRESENCE_CACHE_KEY in
  let userId := Obj.id (RawPresence.user value) in
  let c := with_presences (insertCache cacheId) c in
  match get (Some cacheId) (Some userId) (presences c) with
  | GotEntity presence =>
      let c := with_presenceObjs (alter (Presence.merge value) presence) c in
      match presenceObjs c !! presence with
      | Some p =>
          if Presence.isOffline p then
            let c :=
              if Presence.fromGuild p && negb (Tier.storeOffline (members c))
              then with_members
                     (λ this, (Members.delete (Presence.guildId p)
                                 (Some (Presence.userId p)) this).2) c
              else c in
            let c :=
              if negb (Tier.storeOffline (presences c))
              then with_presences
                     (λ this, (delete (Some cacheId)
                                 (Some (Presence.userId p)) this).2) c
              else c in
            (presence, c)
          else (presence, c)
      | None => (presence, c)
      end
  | _ =>
      let presence := length (presenceObjs c) in
      let c := with_presenceObjs (λ objs, objs ++ [Presence.new value]) c in
      match insert presence c with
      | (Some newPresence, c) => (newPresence, c)
      | (None, c) => (presence, c)
      end
  end.

End Presences.

(** ** [GatewayHandler]: the fields read by the dispatch handlers *)

Definition shouldLoadAllMembers (c : Client) : bool :=
  loadAllMembers c && guildSubscriptions c.

(** ** [GatewayDispatchHandler]

    One definition per handler method, named as the method.  A test of
    [has] followed by [get] on a flat repository is the match on [get]. *)
Module GatewayDispatchHandler.

(** The body of the loop over [data['guilds']] in [READY]. *)
Definition READY_guild (raw : RawGuild.t) (c : Client) : Client :=
  let '(guild, c) :=
    match Repo.get (RawGuild.id raw) (guilds c) with
    | Some guild =>
        let guild := Guild.merge raw guild in
        (guild, with_guilds (Repo.set (RawGuild.id raw) guild) c)
    | None =>
        let guild := Guild.new raw in
        (guild, with_guilds (Repo.insert (Guild.id guild) guild) c)
    end in
  if shouldLoadAllMembers c then
    if Guild.unavailable guild then
      with_memberChunksLeft (λ left, {[Guild.id guild]} ∪ left) c
    else if bool_decide (Guild.id guild ∈ memberChunksLeft c) then
      let c :=
        if (largeThreshold c <? Guild.memberCount guild)%Z
        then requestGuildMembers (Guild.id guild) 0 true "" c
        else c in
      with_memberChunksLeft (λ left, left ∖ {[Guild.id guild]}) c
    else c
  else c.

Definition READY_private_channel (raw : Obj.t) (c : Client) : Client :=
  match Repo.get (Obj.id raw) (channels c) with
  | Some channel =>
      with_channels (Repo.set (Obj.id raw) (Obj.merge raw channel)) c
  | None => with_channels (Repo.insert (Obj.id raw) (Obj.new raw)) c
  end.

Definition READY_relationship (raw : Obj.t) (c : Client) : Client :=
  match Repo.get (Obj.id raw) (relationships c) with
  | Some relationship =>
      with_relationships
        (Repo.set (Obj.id raw) (Obj.merge raw relationship)) c
  | None => with_relationships (Repo.insert (Obj.id raw) (Obj.new raw)) c
  end.

(** [READY], up to its [await], block by block: the local user, the
    private channels, the guilds, the notes, the presences, the
    relationships, and the notification; for a bot the request for the
    OAuth2 application is left with the request layer. *)
Definition READY_user (data : RawReady.t) (c : Client) : Client :=
  let c :=
    with_user (λ me, Some (match me with
                           | None => Obj.new (RawReady.user data)
                           | Some me => Obj.merge (RawReady.user data) me
                           end)) c in
  let c :=
    match user c with
    | Some me => with_users (Repo.insert (Obj.id me) me) c
    | None => c
    end in
  let c :=
    with_isBot
      (λ _, bool_decide (Obj.fields (RawReady.user data) !! "bot"
                         = Some "true")) c in
  with_authType (λ _, if isBot c then BOT else USER) c.

Definition READY_channels (data : RawReady.t) (c : Client) : Client :=
  if Repo.enabled (channels c) then
    foldl (λ c raw, READY_private_channel raw c) c
          (default [] (RawReady.private_channels data))
  else c.

Definition READY_guilds (data : RawReady.t) (c : Client) : Client :=
  if Repo.enabled (guilds c) then
    foldl (λ c raw, READY_guild raw c) c (RawReady.guilds data)
  else c.

Definition READY_notes (data : RawReady.t) (c : Client) : Client :=
  if Repo.enabled (notes c) then
    foldl (λ c (note : string * string),
             with_notes (Repo.insert note.1 note.2) c) c
          (default [] (RawReady.notes data))
  else c.

Definition READY_presences (data : RawReady.t) (c : Client) : Client :=
  if Tier.enabled (presences c) then
    foldl (λ c raw, (Presences.add raw c).2) c
          (default [] (RawReady.presences data))
  else c.

Definition READY_relationships (data : RawReady.t) (c : Client) : Client :=
  if Repo.enabled (relationships c) then
    foldl (λ c raw, READY_relationship raw c) c
          (default [] (RawReady.relationships data))
  else c.

Definition READY_emit (data : RawReady.t) (c : Client) : Client :=
  let c := with_discordTrace (λ _, RawReady.trace data) c in
  let c := emit (Named ClientEvents.GATEWAY_READY) (P_GatewayReady data) c in
  if isBot c then with_restCalls (λ calls, calls ++ [fetchOauth2Application]) c
  else
    match user c with
    | Some me => with_owners (insert (Obj.id me) me) c
    | None => c
    end.

Definition READY (data : RawReady.t) (c : Client) : Client :=
  let c := reset c in
  let c := READY_user data c in
  let c := READY_channels data c in
  let c := READY_guilds data c in
  let c := READY_notes data c in
  let c := READY_presences data c in
  let c := READY_relationships data c in
  READY_emit data c.

(** The [catch] of [READY], when the request for the OAuth2 application
    fails. *)
Definition READY_catch (c : Client) : Client :=
  emit (Literal "warn")
       (P_Warn "Failed to fetch OAuth2 Application Information") c.

Definition RESUMED (data : RawResumed.t) (c : Client) : Client :=
  let c := with_discordTrace (λ _, RawResumed.trace data) c in
  emit (Named ClientEvents.GATEWAY_RESUMED) (P_GatewayResumed data) c.

Definition ACTIVITY_JOIN_INVITE (data : PacketData) (c : Client) : Client := c.

Definition ACTIVITY_JOIN_REQUEST (data : PacketData) (c : Client) : Client := c.

Definition ACTIVITY_START (data : PacketData) (c : Client) : Client := c.

Definition BRAINTREE_POPUP_BRIDGE_CALLBACK (data : PacketData) (c : Client)
  : Client := c.

Definition CALL_CREATE (data : Obj.t) (c : Client) : Client :=
  let '(call, c) :=
    match Repo.get (Obj.id data) (voiceCalls c) with
    | Some call =>
        let call := Obj.merge data call in
        (call, with_voiceCalls (Repo.set (Obj.id data) call) c)
    | None =>
        let call := Obj.new data in
        (call, with_voiceCalls (Repo.insert (Obj.id call) call) c)
    end in
  emit (Named ClientEvents.CALL_CREATE) (P_CallCreate call) c.

Definition CALL_DELETE (data : Obj.t) (c : Client) : Client :=
  let c :=
    match Repo.get (Obj.id data) (voiceCalls c) with
    | Some call =>
        with_voiceCalls (Repo.set (Obj.id data) (VoiceCall.kill call)) c
    | None => c
    end in
  emit (Named ClientEvents.CALL_DELETE) (P_CallDelete (Obj.id data)) c.

Definition CALL_UPDATE (data : Obj.t) (c : Client) : Client :=
  let '(differences, call, c) :=
    match Repo.get (Obj.id data) (voiceCalls c) with
    | Some call =>
        let '(differences, c) :=
          if hasEventListener ClientEvents.CALL_UPDATE c
          then computed (Obj.differences call data) c
          else (null, c) in
        let call := Obj.merge data call in
        (differences, call, with_voiceCalls (Repo.set (Obj.id data) call) c)
    | None =>
        let call := Obj.new data in
        (null, call, with_voiceCalls (Repo.insert (Obj.id call) call) c)
    end in
  emit (Named ClientEvents.CALL_UPDATE) (P_CallUpdate call differences) c.

Definition CHANNEL_CREATE (data : Obj.t) (c : Client) : Client :=
  let '(channel, c) :=
    match Repo.get (Obj.id data) (channels c) with
    | Some channel =>
        let channel := Obj.merge data channel in
        (channel, with_channels (Repo.set (Obj.id data) channel) c)
    | None =>
        let channel := Obj.new data in
        (channel, with_channels (Repo.insert (Obj.id channel) channel) c)
    end in
  emit (Named ClientEvents.CHANNEL_CREATE) (P_ChannelCreate channel) c.

Definition CHANNEL_DELETE (data : Obj.t) (c : Client) : Client :=
  let '(channel, c) :=
    match Repo.get (Obj.id data) (channels c) with
    | Some channel => (channel, with_channels (Repo.delete (Obj.id data)) c)
    | None => (Obj.new data, c)
    end in
  emit (Named ClientEvents.CHANNEL_DELETE) (P_ChannelDelete channel) c.

Definition CHANNEL_PINS_ACK (data : PacketData) (c : Client) : Client := c.

Definition CHANNEL_PINS_UPDATE (data : RawChannelPins.t) (c : Client)
  : Client :=
  let '(channel, c) :=
    match Repo.get (RawChannelPins.channel_id data) (channels c) with
    | Some channel =>
        let channel :=
          Obj.merge
            (Obj.mk (Obj.id channel)
               (from_option (λ v, {["last_pin_timestamp" := v]}) ∅
                  (RawChannelPins.last_pin_timestamp data))) channel in
        (Some channel,
         with_channels (Repo.set (RawChannelPins.channel_id data) channel) c)
    | None => (None, c)
    end in
  emit (Named ClientEvents.CHANNEL_DELETE)
       (P_ChannelPinsUpdate channel (RawChannelPins.channel_id data)
          (RawChannelPins.guild_id data)
          (RawChannelPins.last_pin_timestamp data)) c.

Definition CHANNEL_UPDATE (data : Obj.t) (c : Client) : Client :=
  let '(differences, channel, c) :=
    match Repo.get (Obj.id data) (channels c) with
    | Some channel =>
        let '(differences, c) :=
          if hasEventListener ClientEvents.CHANNEL_UPDATE c
          then computed (Obj.differences channel data) c
          else (null, c) in
        let channel := Obj.merge data channel in
        (differences, channel,
         with_channels (Repo.set (Obj.id data) channel) c)
    | None =>
        let channel := Obj.new data in
        (null, channel, with_channels (Repo.insert (Obj.id channel) channel) c)
    end in
  emit (Named ClientEvents.CHANNEL_UPDATE)
       (P_ChannelUpdate channel differences) c.

Definition CHANNEL_RECIPIENT_ADD (data : RawChannelRecipient.t) (c : Client)
  : Client :=
  let channelId := RawChannelRecipient.channel_id data in
  let nick := RawChannelRecipient.nick data in
  let raw := RawChannelRecipient.user data in
  let '(channel, recipient, c) :=
    match Repo.get channelId (channels c) with
    | Some channel =>
        let '(recipient, c) :=
          match nested channelId (recipients c) !! Obj.id raw with
          | Some recipient =>
              let recipient :=
                Obj.merge
                  (Obj.mk (Obj.id recipient) (RawChannelRecipient.fields data))
                  recipient in
              (recipient,
               with_recipients
                 (with_nested channelId (insert (Obj.id raw) recipient)) c)
          | None =>
              let recipient := Obj.new raw in
              (recipient,
               with_recipients
                 (with_nested channelId (insert (Obj.id recipient) recipient))
                 c)
          end in
        let c :=
          match nick with
          | None =>
              with_nicks (with_nested channelId (delete (Obj.id recipient))) c
          | Some nick =>
              with_nicks
                (with_nested channelId (insert (Obj.id recipient) nick)) c
          end in
        (Some channel, recipient, c)
    | None =>
        let recipient := Obj.new raw in
        (None, recipient,
         with_users (Repo.insert (Obj.id recipient) recipient) c)
    end in
  emit (Named ClientEvents.CHANNEL_RECIPIENT_ADD)
       (P_ChannelRecipient channel channelId nick recipient) c.

Definition CHANNEL_RECIPIENT_REMOVE (data : RawChannelRecipient.t)
  (c : Client) : Client :=
  let channelId := RawChannelRecipient.channel_id data in
  let nick := RawChannelRecipient.nick data in
  let raw := RawChannelRecipient.user data in
  let '(channel, recipient, c) :=
    match Repo.get channelId (channels c) with
    | Some channel =>
        match nested channelId (recipients c) !! Obj.id raw with
        | Some recipient =>
            let recipient :=
              Obj.merge
                (Obj.mk (Obj.id recipient) (RawChannelRecipient.fields data))
                recipient in
            (Some channel, recipient,
             with_recipients
               (with_nested channelId (delete (Obj.id recipient))) c)
        | None => (Some channel, Obj.new raw, c)
        end
    | None => (None, Obj.new raw, c)
    end in
  emit (Named ClientEvents.CHANNEL_RECIPIENT_REMOVE)
       (P_ChannelRecipient channel channelId nick recipient) c.

Definition ENTITLEMENT_CREATE (data : PacketData) (c : Client) : Client := c.

Definition ENTITLEMENT_DELETE (data : PacketData) (c : Client) : Client := c.

Definition ENTITLEMENT_UPDATE (data : PacketData) (c : Client) : Client := c.

Definition FRIEND_SUGGESTION_CREATE (data : RawFriendSuggestion.t)
  (c : Client) : Client :=
  emit (Named ClientEvents.FRIEND_SUGGESTION_CREATE)
       (P_FriendSuggestionCreate
          ((λ reason : Fields, (reason !! "name", reason !! "platform_type"))
             <$> RawFriendSuggestion.reasons data)
          (Obj.new (RawFriendSuggestion.suggested_user data))) c.

Definition FRIEND_SUGGESTION_DELETE (data : Fields) (c : Client) : Client :=
  emit (Named ClientEvents.FRIEND_SUGGESTION_DELETE)
       (P_Record [("suggestedUserId", data !! "suggested_user_id")]) c.

Definition GIFT_CODE_UPDATE (data : Fields) (c : Client) : Client :=
  emit (Named ClientEvents.GIFT_CODE_UPDATE)
       (P_Record [("code", data !! "code"); ("uses", data !! "uses")]) c.

Definition GUILD_BAN_ADD (data : RawGuildBan.t) (c : Client) : Client :=
  let guild := Repo.get (RawGuildBan.guild_id data) (users c) in
  let guildId := RawGuildBan.guild_id data in
  let '(user, c) :=
    match Repo.get (Obj.id (RawGuildBan.user data)) (users c) with
    | Some user =>
        let user := Obj.merge (RawGuildBan.user data) user in
        (user, with_users (Repo.set (Obj.id (RawGuildBan.user data)) user) c)
    | None => (Obj.new (RawGuildBan.user data), c)
    end in
  emit (Named ClientEvents.GUILD_BAN_ADD) (P_GuildBan guild guildId user) c.

Definition GUILD_BAN_REMOVE (data : RawGuildBan.t) (c : Client) : Client :=
  let guild := Repo.get (RawGuildBan.guild_id data) (users c) in
  let guildId := RawGuildBan.guild_id data in
  let '(user, c) :=
    match Repo.get (Obj.id (RawGuildBan.user data)) (users c) with
    | Some user =>
        let user := Obj.merge (RawGuildBan.user data) user in
        (user, with_users (Repo.set (Obj.id (RawGuildBan.user data)) user) c)
    | None => (Obj.new (RawGuildBan.user data), c)
    end in
  emit (Named ClientEvents.GUILD_BAN_REMOVE) (P_GuildBan guild guildId user) c.

Definition GUILD_CREATE (data : RawGuild.t) (c : Client) : Client :=
  let '(fromUnavailable, guild, c) :=
    match Repo.get (RawGuild.id data) (guilds c) with
    | Some guild =>
        let fromUnavailable := Guild.unavailable guild in
        let guild := Guild.merge data guild in
        (fromUnavailable, guild,
         with_guilds (Repo.set (RawGuild.id data) guild) c)
    | None =>
        let guild := Guild.new data in
        let c := with_guilds (Repo.insert (Guild.id guild) guild) c in
        let c :=
          if shouldLoadAllMembers c
          then with_memberChunksLeft (λ left, {[Guild.id guild]} ∪ left) c
          else c in
        (false, guild, c)
    end in
  let c :=
    if bool_decide (Guild.id guild ∈ memberChunksLeft c) then
      let c :=
        if loadAllMembers c then
          if (largeThreshold c <? Guild.memberCount guild)%Z
          then requestGuildMembers (Guild.id guild) 0 true "" c
          else c
        else c in
      with_memberChunksLeft (λ left, left ∖ {[RawGuild.id data]}) c
    else c in
  emit (Named ClientEvents.GUILD_CREATE) (P_GuildCreate fromUnavailable guild) c.

(** The [forEach] over the emoji repository in [GUILD_DELETE]: a [Map] is
    walked live, an entry deleted before its turn is not visited. *)
Definition GUILD_DELETE_emojis (guildId : string) (c : Client) : Client :=
  foldl (λ c kv,
           match Repo.get kv.1 (emojis c) with
           | Some emoji =>
               if bool_decide (Emoji.guildId emoji = Some guildId)
               then with_emojis (Repo.delete (Emoji.id emoji)) c
               else c
           | None => c
           end)
        c (map_to_list (Repo.cache (emojis c))).

Definition GUILD_DELETE (data : RawGuild.t) (c : Client) : Client :=
  let guildId := RawGuild.id data in
  let isUnavailable := truthy_bool (RawGuild.unavailable data) in
  let '(guild, c) :=
    if isUnavailable then
      match Repo.get (RawGuild.id data) (guilds c) with
      | Some guild =>
          let guild := Guild.merge data guild in
          (Some guild, with_guilds (Repo.set (RawGuild.id data) guild) c)
      | None =>
          let guild := Guild.new data in
          (Some guild, with_guilds (Repo.insert (Guild.id guild) guild) c)
      end
    else
      let c := with_guilds (Repo.delete (RawGuild.id data)) c in
      let c :=
        with_members
          (λ this, (Members.delete (Some (RawGuild.id data)) None this).2) c in
      let c :=
        with_presences
          (λ this, (Presences.delete (Some (RawGuild.id data)) None this).2)
          c in
      (None, GUILD_DELETE_emojis (RawGuild.id data) c) in
  emit (Named ClientEvents.GUILD_DELETE)
       (P_GuildDelete guild guildId isUnavailable) c.

(** The emojis of a guild: those of the emoji repository that refer to
    it.  Modelled from the spec: [Guild] is missing; its emojis are stored
    flat in the emoji repository and scoped by reference. *)
Definition Guild_emojis (guildId : string) (c : Client)
  : gmap string Emoji.t :=
  filter (λ kv, Emoji.guildId kv.2 = Some guildId) (Repo.cache (emojis c)).

(** The body of the loop over [data['emojis']] in [GUILD_EMOJIS_UPDATE]. *)
Definition GUILD_EMOJIS_UPDATE_emoji (guildId : string)
  : gmap string Emoji.t * Client → Obj.t → gmap string Emoji.t * Client :=
  λ '(collected, c) raw,
    let '(emoji, c) :=
      match Repo.get (Obj.id raw) (emojis c) with
      | Some emoji =>
          let emoji := Emoji.merge raw emoji in
          (emoji, with_emojis (Repo.set (Obj.id raw) emoji) c)
      | None =>
          let emoji := Emoji.with_guildId (Some guildId) (Emoji.new raw) in
          (emoji, with_emojis (Repo.insert (Emoji.id emoji) emoji) c)
      end in
    (<[Emoji.id emoji := emoji]> collected, c).

(** The two loops of [GUILD_EMOJIS_UPDATE] for a guild that is not cached:
    the emojis of the guild that the payload no longer lists are deleted,
    then every listed emoji is merged or inserted. *)
Definition GUILD_EMOJIS_UPDATE_emojis (guildId : string) (raws : list Obj.t)
  (c : Client) : gmap string Emoji.t * Client :=
  let c :=
    foldl (λ c id,
             if bool_decide (id ∈ Obj.id <$> raws) then c
             else with_emojis (Repo.delete id) c)
          c (map_to_list (Guild_emojis guildId c)).*1 in
  foldl (GUILD_EMOJIS_UPDATE_emoji guildId) (∅, c) raws.

(** Modelled from the spec: [guild.merge({emojis})] and [guild.emojis] are
    missing; the merge is taken to do what the handler does itself for a
    guild that is not cached. *)
Definition GUILD_EMOJIS_UPDATE (data : RawEmojisUpdate.t) (c : Client)
  : Client :=
  let guildId := RawEmojisUpdate.guild_id data in
  let '(collected, emojisOld, guild, c) :=
    match Repo.get guildId (guilds c) with
    | Some guild =>
        let emojisOld :=
          if hasEventListener ClientEvents.GUILD_EMOJIS_UPDATE c
          then Some (Guild_emojis guildId c) else None in
        let c :=
          (GUILD_EMOJIS_UPDATE_emojis guildId (RawEmojisUpdate.emojis data)
             c).2 in
        (Guild_emojis guildId c, emojisOld, Some guild, c)
    | None =>
        let emojisOld := Guild_emojis guildId c in
        let '(collected, c) :=
          GUILD_EMOJIS_UPDATE_emojis guildId (RawEmojisUpdate.emojis data)
            c in
        (collected, Some emojisOld, None, c)
    end in
  emit (Named ClientEvents.GUILD_EMOJIS_UPDATE)
       (P_GuildEmojisUpdate collected emojisOld guild guildId) c.

Definition GUILD_INTEGRATIONS_UPDATE (data : Fields) (c : Client) : Client :=
  emit (Named ClientEvents.GUILD_INTEGRATIONS_UPDATE)
       (P_Record [("guildId", data !! "guild_id")]) c.

(** [guild.merge({member_count: guild.memberCount + change})] for the guild
    cached under [guildId], if any. *)
Definition adjustMemberCount (guildId : option string) (change : Z)
  (c : Client) : Client :=
  match guildId with
  | Some guildId =>
      match Repo.get guildId (guilds c) with
      | Some guild =>
          with_guilds
            (Repo.set guildId
               (Guild.merge
                  (RawGuild.mk guildId None
                     (Some (Guild.memberCount guild + change)%Z) ∅)
                  guild)) c
      | None => c
      end
  | None => c
  end.

Definition GUILD_MEMBER_ADD (data : RawMember.t) (c : Client) : Client :=
  let guildId := RawMember.guild_id data in
  let userId := Obj.id (RawMember.user data) in
  let '(member, c) :=
    match Members.get guildId (Some userId) (members c) with
    | GotEntity member =>
        (member, with_memberObjs (alter (Member.merge data) member) c)
    | _ =>
        let member := length (memberObjs c) in
        let c := with_memberObjs (λ objs, objs ++ [Member.new data]) c in
        (member, Members.insert member c)
    end in
  let c := adjustMemberCount guildId 1 c in
  emit (Named ClientEvents.GUILD_MEMBER_ADD) (P_GuildMemberAdd guildId member)
       c.

Definition GUILD_MEMBER_LIST_UPDATE (data : PacketData) (c : Client)
  : Client :=
  emit (Named ClientEvents.GUILD_MEMBER_LIST_UPDATE) (P_RawOnly data) c.

Definition GUILD_MEMBER_REMOVE (data : RawMember.t) (c : Client) : Client :=
  let guildId := RawMember.guild_id data in
  let raw := RawMember.user data in
  let c :=
    if Members.has guildId (Some (Obj.id raw)) (members c)
    then with_members
           (λ this, (Members.delete guildId (Some (Obj.id raw)) this).2) c
    else c in
  let '(removed, c) :=
    match Repo.get (Obj.id raw) (users c) with
    | Some removed =>
        let removed := Obj.merge raw removed in
        (removed, with_users (Repo.set (Obj.id raw) removed) c)
    | None => (Obj.new raw, c)
    end in
  let c := adjustMemberCount guildId (-1) c in
  emit (Named ClientEvents.GUILD_MEMBER_REMOVE)
       (P_GuildMemberRemove guildId removed) c.

Definition GUILD_MEMBER_UPDATE (data : RawMember.t) (c : Client) : Client :=
  let guildId := RawMember.guild_id data in
  let userId := Obj.id (RawMember.user data) in
  let '(differences, member, c) :=
    match Members.get guildId (Some userId) (members c) with
    | GotEntity member =>
        let '(differences, c) :=
          if hasEventListener ClientEvents.GUILD_MEMBER_UPDATE c then
            match memberObjs c !! member with
            | Some m => computed (Member.differences m data) c
            | None => (null, c)
            end
          else (null, c) in
        (differences, member,
         with_memberObjs (alter (Member.merge data) member) c)
    | _ =>
        let member := length (memberObjs c) in
        let c := with_memberObjs (λ objs, objs ++ [Member.new data]) c in
        (null, member, Members.insert member c)
    end in
  emit (Named ClientEvents.GUILD_MEMBER_UPDATE)
       (P_GuildMemberUpdate differences guildId member) c.

(** The body of the loop over [data['members']] in [GUILD_MEMBERS_CHUNK],
    when the roster collection is enabled. *)
Definition GUILD_MEMBERS_CHUNK_member (guildId : string) (value : RawMember.t)
  (c : Client) : Client :=
  match Members.get (Some guildId) (Some (Obj.id (RawMember.user value)))
          (members c) with
  | GotEntity member => with_memberObjs (alter (Member.merge value) member) c
  | _ =>
      let member := length (memberObjs c) in
      let c :=
        with_memberObjs
          (λ objs, objs ++ [Member.with_guildId guildId (Member.new value)]) c in
      Members.insert member c
  end.

(** The same loop when only the user repository is enabled. *)
Definition GUILD_MEMBERS_CHUNK_user (value : RawMember.t) (c : Client)
  : Client :=
  let user := RawMember.user value in
  match Repo.get (Obj.id user) (users c) with
  | Some old => with_users (Repo.set (Obj.id user) (Obj.merge user old)) c
  | None => with_users (Repo.insert (Obj.id user) (Obj.new user)) c
  end.

Definition GUILD_MEMBERS_CHUNK (data : RawMembersChunk.t) (c : Client)
  : Client :=
  let guildId := RawMembersChunk.guild_id data in
  let c :=
    match RawMembersChunk.members data with
    | Some values =>
        if Tier.enabled (members c) then
          foldl (λ c value, GUILD_MEMBERS_CHUNK_member guildId value c) c values
        else if Repo.enabled (users c) then
          foldl (λ c value, GUILD_MEMBERS_CHUNK_user value c) c values
        else c
    | None => c
    end in
  let c :=
    match RawMembersChunk.presences data with
    | Some values =>
        if Tier.enabled (presences c) then
          foldl (λ c value,
                   (Presences.add
                      (RawPresence.mk (Some guildId) (RawPresence.user value)
                         (RawPresence.status value) (RawPresence.nick value)
                         (RawPresence.premium_since value)
                         (RawPresence.roles value) (RawPresence.fields value))
                      c).2) c values
        else c
    | None => c
    end in
  emit (Named ClientEvents.GUILD_MEMBERS_CHUNK)
       (P_GuildMembersChunk (length <$> RawMembersChunk.members data)
          (length <$> RawMembersChunk.not_found data)
          (length <$> RawMembersChunk.presences data) guildId data) c.

(** [data['role']['guild_id'] = guildId]. *)
Definition roleOf (data : RawRole.t) : Obj.t :=
  Obj.mk (Obj.id (RawRole.role data))
         (<["guild_id" := RawRole.guild_id data]>
            (Obj.fields (RawRole.role data))).

Definition GUILD_ROLE_CREATE (data : RawRole.t) (c : Client) : Client :=
  let guildId := RawRole.guild_id data in
  let raw := RawRole.role data in
  let '(guild, role, c) :=
    match Repo.get guildId (guilds c) with
    | Some guild =>
        match nested guildId (roles c) !! Obj.id raw with
        | Some role =>
            let role := Obj.merge raw role in
            (Some guild, role,
             with_roles (with_nested guildId (insert (Obj.id raw) role)) c)
        | None => (Some guild, Obj.new (roleOf data), c)
        end
    | None => (None, Obj.new (roleOf data), c)
    end in
  emit (Named ClientEvents.GUILD_ROLE_CREATE) (P_GuildRole guild guildId role)
       c.

Definition GUILD_ROLE_DELETE (data : RawRoleDelete.t) (c : Client) : Client :=
  let guildId := RawRoleDelete.guild_id data in
  let roleId := RawRoleDelete.role_id data in
  let '(guild, role, c) :=
    match Repo.get guildId (guilds c) with
    | Some guild =>
        match nested guildId (roles c) !! roleId with
        | Some role =>
            (Some guild, Some role,
             with_roles (with_nested guildId (delete roleId)) c)
        | None => (Some guild, None, c)
        end
    | None => (None, None, c)
    end in
  emit (Named ClientEvents.GUILD_ROLE_DELETE)
       (P_GuildRoleDelete guild guildId role roleId) c.

Definition GUILD_ROLE_UPDATE (data : RawRole.t) (c : Client) : Client :=
  let guildId := RawRole.guild_id data in
  let raw := RawRole.role data in
  let '(differences, guild, role, c) :=
    match Repo.get guildId (guilds c) with
    | Some guild =>
        match nested guildId (roles c) !! Obj.id raw with
        | Some role =>
            let '(differences, c) :=
              if hasEventListener ClientEvents.GUILD_ROLE_UPDATE c
              then computed (Obj.differences role raw) c
              else (null, c) in
            let role := Obj.merge raw role in
            (differences, Some guild, role,
             with_roles (with_nested guildId (insert (Obj.id raw) role)) c)
        | None =>
            let role := Obj.new (roleOf data) in
            (null, Some guild, role,
             with_roles (with_nested guildId (insert (Obj.id role) role)) c)
        end
    | None => (null, None, Obj.new (roleOf data), c)
    end in
  emit (Named ClientEvents.GUILD_ROLE_UPDATE)
       (P_GuildRoleUpdate differences guild guildId role) c.

Definition GUILD_UPDATE (data : RawGuild.t) (c : Client) : Client :=
  let '(differences, guild, c) :=
    match Repo.get (RawGuild.id data) (guilds c) with
    | Some guild =>
        let '(differences, c) :=
          if hasEventListener ClientEvents.GUILD_UPDATE c
          then computed (Guild.differences guild data) c
          else (null, c) in
        let guild := Guild.merge data guild in
        (differences, guild, with_guilds (Repo.set (RawGuild.id data) guild) c)
    | None =>
        let guild := Guild.new data in
        (null, guild, with_guilds (Repo.insert (Guild.id guild) guild) c)
    end in
  emit (Named ClientEvents.GUILD_UPDATE) (P_GuildUpdate differences guild) c.

Definition LIBRARY_APPLICATION_UPDATE (data : PacketData) (c : Client)
  : Client := c.

Definition LOBBY_CREATE (data : PacketData) (c : Client) : Client := c.

Definition LOBBY_DELETE (data : PacketData) (c : Client) : Client := c.

Definition LOBBY_UPDATE (data : PacketData) (c : Client) : Client := c.

Definition LOBBY_MEMBER_CONNECT (data : PacketData) (c : Client) : Client := c.

Definition LOBBY_MEMBER_DISCONNECT (data : PacketData) (c : Client)
  : Client := c.

Definition LOBBY_MEMBER_UPDATE (data : PacketData) (c : Client) : Client := c.

Definition LOBBY_MESSAGE (data : PacketData) (c : Client) : Client := c.

Definition LOBBY_VOICE_SERVER_UPDATE (data : PacketData) (c : Client)
  : Client := c.

Definition LOBBY_VOICE_STATE_UPDATE (data : PacketData) (c : Client)
  : Client := c.

Definition MESSAGE_ACK (data : PacketData) (c : Client) : Client := c.

Definition MESSAGE_CREATE (data : Obj.t) (c : Client) : Client :=
  let '(message, c) :=
    match Repo.get (Obj.id data) (messages c) with
    | Some message =>
        let message := Message.merge data message in
        (message, with_messages (Repo.set (Obj.id data) message) c)
    | None =>
        let message := Message.new data in
        (message, with_messages (Repo.insert (Message.id message) message) c)
    end in
  let c :=
    match Obj.fields data !! "channel_id" with
    | Some channelId =>
        match Repo.get channelId (channels c) with
        | Some channel =>
            with_channels
              (Repo.set channelId
                 (Obj.merge
                    (Obj.mk (Obj.id channel)
                       {["last_message_id" := Obj.id data]}) channel)) c
        | None => c
        end
    | None => c
    end in
  emit (Named ClientEvents.MESSAGE_CREATE) (P_MessageCreate message) c.

Definition MESSAGE_DELETE (data : Obj.t) (c : Client) : Client :=
  let '(message, c) :=
    match Repo.get (Obj.id data) (messages c) with
    | Some message =>
        (Some message, with_messages (Repo.delete (Obj.id data)) c)
    | None => (None, c)
    end in
  emit (Named ClientEvents.MESSAGE_DELETE) (P_MessageDelete message data) c.

(** The body of the loop over [data['ids']] in [MESSAGE_DELETE_BULK]. *)
Definition MESSAGE_DELETE_BULK_message
  : gmap string (option Message.t) * Client → string →
    gmap string (option Message.t) * Client :=
  λ '(collected, c) messageId,
    match Repo.get messageId (messages c) with
    | Some message =>
        (<[messageId := Some message]> collected,
         with_messages (Repo.delete messageId) c)
    | None => (<[messageId := None]> collected, c)
    end.

Definition MESSAGE_DELETE_BULK (data : RawMessageDeleteBulk.t) (c : Client)
  : Client :=
  let amount := length (RawMessageDeleteBulk.ids data) in
  let channelId := RawMessageDeleteBulk.channel_id data in
  let guildId := RawMessageDeleteBulk.guild_id data in
  let '(collected, c) :=
    foldl MESSAGE_DELETE_BULK_message (∅, c) (RawMessageDeleteBulk.ids data) in
  let channel := Repo.get channelId (channels c) in
  let guild := guildId ≫= λ guildId, Repo.get guildId (guilds c) in
  emit (Named ClientEvents.MESSAGE_DELETE_BULK)
       (P_MessageDeleteBulk amount channel channelId guild guildId collected
          data) c.

Definition MESSAGE_REACTION_ADD (data : RawReaction.t) (c : Client) : Client :=
  let channelId := RawReaction.channel_id data in
  let guildId := RawReaction.guild_id data in
  let messageId := RawReaction.message_id data in
  let userId := RawReaction.user_id data in
  let meUserId := Obj.id <$> user c in
  let reactor := Repo.get userId (users c) in
  let emojiId :=
    js_or (RawReaction.emoji_id data) (RawReaction.emoji_name data) in
  let message := Repo.get messageId (messages c) in
  let reaction :=
    default Reaction.new
      (message ≫= λ message, Message.reactions message !! emojiId) in
  let reaction :=
    Reaction.merge (Reaction.count reaction + 1)
      (bool_decide (Some userId = meUserId) || Reaction.me reaction)
      reaction in
  let message :=
    Message.with_reactions (insert emojiId reaction) <$> message in
  let c :=
    match message with
    | Some message => with_messages (Repo.set messageId message) c
    | None => c
    end in
  let channel := Repo.get channelId (channels c) in
  let guild := guildId ≫= λ guildId, Repo.get guildId (guilds c) in
  emit (Named ClientEvents.MESSAGE_REACTION_ADD)
       (P_MessageReactionAdd channel channelId guild guildId message
          messageId reaction reactor userId data) c.

Definition MESSAGE_REACTION_REMOVE (data : RawReaction.t) (c : Client)
  : Client :=
  let channelId := RawReaction.channel_id data in
  let guildId := RawReaction.guild_id data in
  let messageId := RawReaction.message_id data in
  let userId := RawReaction.user_id data in
  let meUserId := Obj.id <$> user c in
  let user := Repo.get userId (users c) in
  let emojiId :=
    js_or (RawReaction.emoji_id data) (RawReaction.emoji_name data) in
  let '(message, reaction, c) :=
    match Repo.get messageId (messages c) with
    | Some message =>
        match Message.reactions message !! emojiId with
        | Some reaction =>
            let reaction :=
              Reaction.merge
                (Z.min (Reaction.count reaction - 1) 0)
                (Reaction.me reaction
                 && negb (bool_decide (Some userId = meUserId)))
                reaction in
            let message :=
              Message.with_reactions (insert emojiId reaction) message in
            let message :=
              if (Reaction.count reaction <=? 0)%Z
              then Message.with_reactions (delete emojiId) message
              else message in
            (Some message, Some reaction,
             with_messages (Repo.set messageId message) c)
        | None => (Some message, None, c)
        end
    | None => (None, None, c)
    end in
  let reaction := default Reaction.new reaction in
  let channel := Repo.get channelId (channels c) in
  let guild := guildId ≫= λ guildId, Repo.get guildId (guilds c) in
  emit (Named ClientEvents.MESSAGE_REACTION_REMOVE)
       (P_MessageReactionRemove channel channelId guild guildId message
          messageId reaction user userId data) c.

Definition MESSAGE_REACTION_REMOVE_ALL (data : RawReactionRemoveAll.t)
  (c : Client) : Client :=
  let channelId := RawReactionRemoveAll.channel_id data in
  let guildId := RawReactionRemoveAll.guild_id data in
  let messageId := RawReactionRemoveAll.message_id data in
  let '(message, c) :=
    match Repo.get messageId (messages c) with
    | Some message =>
        let message := Message.with_reactions (λ _, ∅) message in
        (Some message, with_messages (Repo.set messageId message) c)
    | None => (None, c)
    end in
  let channel := Repo.get channelId (channels c) in
  let guild := guildId ≫= λ guildId, Repo.get guildId (guilds c) in
  emit (Named ClientEvents.MESSAGE_REACTION_REMOVE_ALL)
       (P_MessageReactionRemoveAll channel channelId guild guildId message
          messageId data) c.

Definition MESSAGE_UPDATE (data : Obj.t) (c : Client) : Client :=
  let '(differences, message, c) :=
    match Repo.get (Obj.id data) (messages c) with
    | Some message =>
        let '(differences, c) :=
          if hasEventListener ClientEvents.MESSAGE_UPDATE c
          then computed (Message.differences message data) c
          else (undefined, c) in
        let message := Message.merge data message in
        (differences, message,
         with_messages (Repo.set (Obj.id data) message) c)
    | None =>
        let message := Message.new data in
        (undefined, message,
         with_messages (Repo.insert (Message.id message) message) c)
    end in
  emit (Named ClientEvents.MESSAGE_UPDATE)
       (P_MessageUpdate differences message) c.

Definition OAUTH2_TOKEN_REVOKE (data : PacketData) (c : Client) : Client := c.

Definition PRESENCE_UPDATE (data : RawPresence.t) (c : Client) : Client :=
  let isGuildPresence := truthy (RawPresence.guild_id data) in
  let userId := Obj.id (RawPresence.user data) in
  let '(differences, c) :=
    if hasEventListener ClientEvents.PRESENCE_UPDATE c then
      let cacheId :=
        js_or (RawPresence.guild_id data) DEFAULT_PRESENCE_CACHE_KEY in
      match Presences.get (Some cacheId) (Some userId) (presences c) with
      | GotEntity presence =>
          match presenceObjs c !! presence with
          | Some p => computed (Presence.differences p data) c
          | None => (null, c)
          end
      | _ => (null, c)
      end
    else (null, c) in
  let '(presence, c) := Presences.add data c in
  let '(member, c) :=
    if truthy (RawPresence.guild_id data) then
      let rawMember :=
        {| RawMember.guild_id := RawPresence.guild_id data;
           RawMember.nick := RawPresence.nick data;
           RawMember.premium_since := RawPresence.premium_since data;
           RawMember.roles := Some (default [] (RawPresence.roles data));
           RawMember.user := RawPresence.user data |} in
      match Members.get (RawPresence.guild_id data) (Some userId)
              (members c) with
      | GotEntity member =>
          (Some member,
           with_memberObjs (alter (Member.merge rawMember) member) c)
      | _ =>
          let member := length (memberObjs c) in
          let c := with_memberObjs (λ objs, objs ++ [Member.new rawMember]) c in
          (Some member, Members.insert member c)
      end
    else (None, c) in
  emit (Named ClientEvents.PRESENCE_UPDATE)
       (P_PresenceUpdate differences isGuildPresence member presence
          (RawPresence.guild_id data)) c.

(** The body of the loop over [data['presences']] in
    [PRESENCES_REPLACE]. *)
Definition PRESENCES_REPLACE_presence
  : gmap string ref * Client → RawPresence.t → gmap string ref * Client :=
  λ '(collected, c) raw,
    let '(presence, c) := Presences.add raw c in
    let userId :=
      from_option Presence.userId (Obj.id (RawPresence.user raw))
        (presenceObjs c !! presence) in
    (<[userId := presence]> collected, c).

Definition PRESENCES_REPLACE (data : RawPresencesReplace.t) (c : Client)
  : Client :=
  let '(collected, c) :=
    match RawPresencesReplace.presences data with
    | Some raws => foldl PRESENCES_REPLACE_presence (∅, c) raws
    | None => (∅, c)
    end in
  emit (Named ClientEvents.PRESENCES_REPLACE) (P_PresencesReplace collected) c.

Definition RECENT_MENTION_DELETE (data : PacketData) (c : Client) : Client :=
  c.

Definition RELATIONSHIP_ADD (data : Obj.t) (c : Client) : Client :=
  let '(differences, relationship, c) :=
    match Repo.get (Obj.id data) (relationships c) with
    | Some relationship =>
        let '(differences, c) :=
          if hasEventListener ClientEvents.RELATIONSHIP_ADD c
          then computed (Obj.differences relationship data) c
          else (undefined, c) in
        let relationship := Obj.merge data relationship in
        (differences, relationship,
         with_relationships (Repo.set (Obj.id data) relationship) c)
    | None =>
        let relationship := Obj.new data in
        (undefined, relationship,
         with_relationships
           (Repo.insert (Obj.id relationship) relationship) c)
    end in
  emit (Named ClientEvents.RELATIONSHIP_ADD)
       (P_RelationshipAdd differences relationship) c.

Definition RELATIONSHIP_REMOVE (data : Obj.t) (c : Client) : Client :=
  let '(relationship, c) :=
    match Repo.get (Obj.id data) (relationships c) with
    | Some relationship =>
        (relationship, with_relationships (Repo.delete (Obj.id data)) c)
    | None => (Obj.new data, c)
    end in
  emit (Named ClientEvents.RELATIONSHIP_REMOVE)
       (P_RelationshipRemove (Obj.id data) relationship
          (Obj.fields data !! "type")) c.

Definition SESSIONS_UPDATE (data : PacketData) (c : Client) : Client := c.

Definition STREAM_CREATE (data : Fields) (c : Client) : Client :=
  emit (Named ClientEvents.STREAM_CREATE)
       (P_Record [("paused", data !! "paused"); ("region", data !! "region");
                  ("rtcServerId", data !! "rtc_server_id");
                  ("streamKey", data !! "stream_key");
                  ("viewerIds", data !! "viewer_ids")]) c.

Definition STREAM_DELETE (data : Fields) (c : Client) : Client :=
  emit (Named ClientEvents.STREAM_DELETE)
       (P_Record [("reason", data !! "reason");
                  ("streamKey", data !! "stream_key");
                  ("unavailable", data !! "unavailable")]) c.

Definition STREAM_SERVER_UPDATE (data : Fields) (c : Client) : Client :=
  emit (Named ClientEvents.STREAM_SERVER_UPDATE)
       (P_Record [("endpoint", data !! "endpoint");
                  ("streamKey", data !! "stream_key");
                  ("token", data !! "token")]) c.

Definition STREAM_UPDATE (data : Fields) (c : Client) : Client :=
  emit (Named ClientEvents.STREAM_UPDATE)
       (P_Record [("paused", data !! "paused"); ("region", data !! "region");
                  ("streamKey", data !! "stream_key");
                  ("viewerIds", data !! "viewer_ids")]) c.

Definition TYPING_START (data : RawTyping.t) (c : Client) : Client :=
  let channelId := RawTyping.channel_id data in
  let guildId := RawTyping.guild_id data in
  let userId := RawTyping.user_id data in
  let '(indicator, c) :=
    match TypingCollection.get (Some channelId) (Some userId) (typing c) with
    | GotEntity indicator =>
        (indicator, with_typingObjs (alter (Typing.merge data) indicator) c)
    | _ =>
        let indicator := length (typingObjs c) in
        let c := with_typingObjs (λ objs, objs ++ [Typing.new data]) c in
        (indicator, TypingCollection.insert indicator c)
    end in
  emit (Named ClientEvents.TYPING_START)
       (P_TypingStart channelId guildId indicator userId) c.

Definition USER_ACHIEVEMENT_UPDATE (data : PacketData) (c : Client)
  : Client := c.

Definition USER_CONNECTIONS_UPDATE (data : PacketData) (c : Client)
  : Client := c.

Definition USER_FEED_SETTINGS_UPDATE (data : PacketData) (c : Client)
  : Client := c.

Definition USER_GUILD_SETTINGS_UPDATE (data : PacketData) (c : Client)
  : Client := c.

Definition USER_NOTE_UPDATE (data : RawNote.t) (c : Client) : Client :=
  let noted := Repo.get (RawNote.id data) (users c) in
  let c :=
    with_notes (Repo.insert (RawNote.id data) (RawNote.note data)) c in
  emit (Named ClientEvents.USER_NOTE_UPDATE)
       (P_UserNoteUpdate (RawNote.note data) noted (RawNote.id data)) c.

Definition USER_PAYMENT_SOURCES_UPDATE (data : PacketData) (c : Client)
  : Client := c.

Definition USER_PAYMENTS_UPDATE (data : PacketData) (c : Client) : Client := c.

Definition USER_REQUIRED_ACTION_UPDATE (data : PacketData) (c : Client)
  : Client := c.

Definition USER_SETTINGS_UPDATE (data : PacketData) (c : Client) : Client := c.

(** [USER_UPDATE] merges into [client.user]; the copies of the local user
    that the user repository and the owners hold by value are left as they
    are. *)
Definition USER_UPDATE (data : Obj.t) (c : Client) : Client :=
  let '(differences, me, c) :=
    match user c with
    | Some me =>
        let '(differences, c) :=
          if hasEventListener ClientEvents.USER_UPDATE c
          then computed (Obj.differences me data) c
          else (null, c) in
        let me := Obj.merge data me in
        (differences, me, with_user (λ _, Some me) c)
    | None =>
        let me := Obj.new data in
        let c := with_user (λ _, Some me) c in
        (null, me, with_users (Repo.insert (Obj.id me) me) c)
    end in
  emit (Named ClientEvents.USER_UPDATE) (P_UserUpdate differences me) c.

Definition VOICE_SERVER_UPDATE (data : Fields) (c : Client) : Client :=
  emit (Named ClientEvents.VOICE_SERVER_UPDATE)
       (P_Record [("channelId", data !! "channel_id");
                  ("endpoint", data !! "endpoint");
                  ("guildId", data !! "guild_id");
                  ("token", data !! "token")]) c.

Definition VOICE_STATE_UPDATE (data : RawVoiceState.t) (c : Client) : Client :=
  let serverId :=
    js_or_opt (RawVoiceState.guild_id data) (RawVoiceState.channel_id data) in
  let userId := RawVoiceState.user_id data in
  let '(differences, leftChannel, voiceState, c) :=
    match VoiceStates.get serverId (Some userId) (voiceStates c) with
    | GotEntity voiceState =>
        let '(differences, c) :=
          if hasEventListener ClientEvents.VOICE_STATE_UPDATE c then
            match voiceStateObjs c !! voiceState with
            | Some v => computed (VoiceState.differences v data) c
            | None => (null, c)
            end
          else (null, c) in
        let c :=
          with_voiceStateObjs (alter (VoiceState.merge data) voiceState) c in
        if truthy (RawVoiceState.channel_id data)
        then (differences, false, voiceState, c)
        else
          (differences, true, voiceState,
           with_voiceStates
             (λ this, (VoiceStates.delete serverId (Some userId) this).2) c)
    | _ =>
        let voiceState := length (voiceStateObjs c) in
        let c :=
          with_voiceStateObjs (λ objs, objs ++ [VoiceState.new data]) c in
        (null, false, voiceState, VoiceStates.insert voiceState c)
    end in
  emit (Named ClientEvents.VOICE_STATE_UPDATE)
       (P_VoiceStateUpdate differences leftChannel voiceState) c.

Definition WEBHOOKS_UPDATE (data : Fields) (c : Client) : Client :=
  emit (Named ClientEvents.WEBHOOKS_UPDATE)
       (P_Record [("channelId", data !! "channel_id");
                  ("guildId", data !! "guild_id")]) c.

(** The handlers whose method has an empty body in the source. *)
Definition emptyBody (handler : GatewayDispatchEvents.t) : bool :=
  match handler with
  | GatewayDispatchEvents.ACTIVITY_JOIN_INVITE
  | GatewayDispatchEvents.ACTIVITY_JOIN_REQUEST
  | GatewayDispatchEvents.ACTIVITY_START
  | GatewayDispatchEvents.BRAINTREE_POPUP_BRIDGE_CALLBACK
  | GatewayDispatchEvents.CHANNEL_PINS_ACK
  | GatewayDispatchEvents.ENTITLEMENT_CREATE
  | GatewayDispatchEvents.ENTITLEMENT_DELETE
  | GatewayDispatchEvents.ENTITLEMENT_UPDATE
  | GatewayDispatchEvents.LIBRARY_APPLICATION_UPDATE
  | GatewayDispatchEvents.LOBBY_CREATE
  | GatewayDispatchEvents.LOBBY_DELETE
  | GatewayDispatchEvents.LOBBY_UPDATE
  | GatewayDispatchEvents.LOBBY_MEMBER_CONNECT
  | GatewayDispatchEvents.LOBBY_MEMBER_DISCONNECT
  | GatewayDispatchEvents.LOBBY_MEMBER_UPDATE
  | GatewayDispatchEvents.LOBBY_MESSAGE
  | GatewayDispatchEvents.LOBBY_VOICE_SERVER_UPDATE
  | GatewayDispatchEvents.LOBBY_VOICE_STATE_UPDATE
  | GatewayDispatchEvents.MESSAGE_ACK
  | GatewayDispatchEvents.OAUTH2_TOKEN_REVOKE
  | GatewayDispatchEvents.RECENT_MENTION_DELETE
  | GatewayDispatchEvents.SESSIONS_UPDATE
  | GatewayDispatchEvents.USER_ACHIEVEMENT_UPDATE
  | GatewayDispatchEvents.USER_CONNECTIONS_UPDATE
  | GatewayDispatchEvents.USER_FEED_SETTINGS_UPDATE
  | GatewayDispatchEvents.USER_GUILD_SETTINGS_UPDATE
  | GatewayDispatchEvents.USER_PAYMENT_SOURCES_UPDATE
  | GatewayDispatchEvents.USER_PAYMENTS_UPDATE
  | GatewayDispatchEvents.USER_REQUIRED_ACTION_UPDATE
  | GatewayDispatchEvents.USER_SETTINGS_UPDATE => true
  | _ => false
  end.

(** Whether a payload has the shape that the handler declares for its
    [data]; a handler that does not read its [data] takes any payload. *)
Definition typed (handler : GatewayDispatchEvents.t) (data : PacketData)
  : bool :=
  match handler, data with
  | GatewayDispatchEvents.READY, D_Ready _ => true
  | GatewayDispatchEvents.RESUMED, D_Resumed _ => true
  | GatewayDispatchEvents.ACTIVITY_JOIN_INVITE, _ => true
  | GatewayDispatchEvents.ACTIVITY_JOIN_REQUEST, _ => true
  | GatewayDispatchEvents.ACTIVITY_START, _ => true
  | GatewayDispatchEvents.BRAINTREE_POPUP_BRIDGE_CALLBACK, _ => true
  | GatewayDispatchEvents.CALL_CREATE, D_Obj _ => true
  | GatewayDispatchEvents.CALL_DELETE, D_Obj _ => true
  | GatewayDispatchEvents.CALL_UPDATE, D_Obj _ => true
  | GatewayDispatchEvents.CHANNEL_CREATE, D_Obj _ => true
  | GatewayDispatchEvents.CHANNEL_DELETE, D_Obj _ => true
  | GatewayDispatchEvents.CHANNEL_PINS_ACK, _ => true
  | GatewayDispatchEvents.CHANNEL_PINS_UPDATE, D_ChannelPins _ => true
  | GatewayDispatchEvents.CHANNEL_UPDATE, D_Obj _ => true
  | GatewayDispatchEvents.CHANNEL_RECIPIENT_ADD, D_ChannelRecipient _ => true
  | GatewayDispatchEvents.CHANNEL_RECIPIENT_REMOVE, D_ChannelRecipient _ => true
  | GatewayDispatchEvents.ENTITLEMENT_CREATE, _ => true
  | GatewayDispatchEvents.ENTITLEMENT_DELETE, _ => true
  | GatewayDispatchEvents.ENTITLEMENT_UPDATE, _ => true
  | GatewayDispatchEvents.FRIEND_SUGGESTION_CREATE, D_FriendSuggestion _ => true
  | GatewayDispatchEvents.FRIEND_SUGGESTION_DELETE, D_Other _ => true
  | GatewayDispatchEvents.GIFT_CODE_UPDATE, D_Other _ => true
  | GatewayDispatchEvents.GUILD_BAN_ADD, D_GuildBan _ => true
  | GatewayDispatchEvents.GUILD_BAN_REMOVE, D_GuildBan _ => true
  | GatewayDispatchEvents.GUILD_CREATE, D_Guild _ => true
  | GatewayDispatchEvents.GUILD_DELETE, D_Guild _ => true
  | GatewayDispatchEvents.GUILD_EMOJIS_UPDATE, D_EmojisUpdate _ => true
  | GatewayDispatchEvents.GUILD_INTEGRATIONS_UPDATE, D_Other _ => true
  | GatewayDispatchEvents.GUILD_MEMBER_ADD, D_Member _ => true
  | GatewayDispatchEvents.GUILD_MEMBER_LIST_UPDATE, _ => true
  | GatewayDispatchEvents.GUILD_MEMBER_REMOVE, D_Member _ => true
  | GatewayDispatchEvents.GUILD_MEMBER_UPDATE, D_Member _ => true
  | GatewayDispatchEvents.GUILD_MEMBERS_CHUNK, D_MembersChunk _ => true
  | GatewayDispatchEvents.GUILD_ROLE_CREATE, D_Role _ => true
  | GatewayDispatchEvents.GUILD_ROLE_DELETE, D_RoleDelete _ => true
  | GatewayDispatchEvents.GUILD_ROLE_UPDATE, D_Role _ => true
  | GatewayDispatchEvents.GUILD_UPDATE, D_Guild _ => true
  | GatewayDispatchEvents.LIBRARY_APPLICATION_UPDATE, _ => true
  | GatewayDispatchEvents.LOBBY_CREATE, _ => true
  | GatewayDispatchEvents.LOBBY_DELETE, _ => true
  | GatewayDispatchEvents.LOBBY_UPDATE, _ => true
  | GatewayDispatchEvents.LOBBY_MEMBER_CONNECT, _ => true
  | GatewayDispatchEvents.LOBBY_MEMBER_DISCONNECT, _ => true
  | GatewayDispatchEvents.LOBBY_MEMBER_UPDATE, _ => true
  | GatewayDispatchEvents.LOBBY_MESSAGE, _ => true
  | GatewayDispatchEvents.LOBBY_VOICE_SERVER_UPDATE, _ => true
  | GatewayDispatchEvents.LOBBY_VOICE_STATE_UPDATE, _ => true
  | GatewayDispatchEvents.MESSAGE_ACK, _ => true
  | GatewayDispatchEvents.MESSAGE_CREATE, D_Obj _ => true
  | GatewayDispatchEvents.MESSAGE_DELETE, D_Obj _ => true
  | GatewayDispatchEvents.MESSAGE_DELETE_BULK, D_MessageDeleteBulk _ => true
  | GatewayDispatchEvents.MESSAGE_REACTION_ADD, D_Reaction _ => true
  | GatewayDispatchEvents.MESSAGE_REACTION_REMOVE, D_Reaction _ => true
  | GatewayDispatchEvents.MESSAGE_REACTION_REMOVE_ALL, D_ReactionRemoveAll _ => true
  | GatewayDispatchEvents.MESSAGE_UPDATE, D_Obj _ => true
  | GatewayDispatchEvents.OAUTH2_TOKEN_REVOKE, _ => true
  | GatewayDispatchEvents.PRESENCE_UPDATE, D_Presence _ => true
  | GatewayDispatchEvents.PRESENCES_REPLACE, D_PresencesReplace _ => true
  | GatewayDispatchEvents.RECENT_MENTION_DELETE, _ => true
  | GatewayDispatchEvents.RELATIONSHIP_ADD, D_Obj _ => true
  | GatewayDispatchEvents.RELATIONSHIP_REMOVE, D_Obj _ => true
  | GatewayDispatchEvents.SESSIONS_UPDATE, _ => true
  | GatewayDispatchEvents.STREAM_CREATE, D_Other _ => true
  | GatewayDispatchEvents.STREAM_DELETE, D_Other _ => true
  | GatewayDispatchEvents.STREAM_SERVER_UPDATE, D_Other _ => true
  | GatewayDispatchEvents.STREAM_UPDATE, D_Other _ => true
  | GatewayDispatchEvents.TYPING_START, D_Typing _ => true
  | GatewayDispatchEvents.USER_ACHIEVEMENT_UPDATE, _ => true
  | GatewayDispatchEvents.USER_CONNECTIONS_UPDATE, _ => true
  | GatewayDispatchEvents.USER_FEED_SETTINGS_UPDATE, _ => true
  | GatewayDispatchEvents.USER_GUILD_SETTINGS_UPDATE, _ => true
  | GatewayDispatchEvents.USER_NOTE_UPDATE, D_Note _ => true
  | GatewayDispatchEvents.USER_PAYMENT_SOURCES_UPDATE, _ => true
  | GatewayDispatchEvents.USER_PAYMENTS_UPDATE, _ => true
  | GatewayDispatchEvents.USER_REQUIRED_ACTION_UPDATE, _ => true
  | GatewayDispatchEvents.USER_SETTINGS_UPDATE, _ => true
  | GatewayDispatchEvents.USER_UPDATE, D_Obj _ => true
  | GatewayDispatchEvents.VOICE_SERVER_UPDATE, D_Other _ => true
  | GatewayDispatchEvents.VOICE_STATE_UPDATE, D_VoiceState _ => true
  | GatewayDispatchEvents.WEBHOOKS_UPDATE, D_Other _ => true
  | _, _ => false
  end.

(** [handler.call(this.dispatchHandler, payload.data)] for a handler found
    by its name, on a payload of the shape the handler declares; what a
    handler does with a payload of another shape is not represented, and the
    client is left as it is. *)
Definition call (handler : GatewayDispatchEvents.t) (data : PacketData)
  (c : Client) : Client :=
  match handler, data with
  | GatewayDispatchEvents.READY, D_Ready data => READY data c
  | GatewayDispatchEvents.RESUMED, D_Resumed data => RESUMED data c
  | GatewayDispatchEvents.ACTIVITY_JOIN_INVITE, data =>
      ACTIVITY_JOIN_INVITE data c
  | GatewayDispatchEvents.ACTIVITY_JOIN_REQUEST, data =>
      ACTIVITY_JOIN_REQUEST data c
  | GatewayDispatchEvents.ACTIVITY_START, data => ACTIVITY_START data c
  | GatewayDispatchEvents.BRAINTREE_POPUP_BRIDGE_CALLBACK, data =>
      BRAINTREE_POPUP_BRIDGE_CALLBACK data c
  | GatewayDispatchEvents.CALL_CREATE, D_Obj data => CALL_CREATE data c
  | GatewayDispatchEvents.CALL_DELETE, D_Obj data => CALL_DELETE data c
  | GatewayDispatchEvents.CALL_UPDATE, D_Obj data => CALL_UPDATE data c
  | GatewayDispatchEvents.CHANNEL_CREATE, D_Obj data => CHANNEL_CREATE data c
  | GatewayDispatchEvents.CHANNEL_DELETE, D_Obj data => CHANNEL_DELETE data c
  | GatewayDispatchEvents.CHANNEL_PINS_ACK, data => CHANNEL_PINS_ACK data c
  | GatewayDispatchEvents.CHANNEL_PINS_UPDATE, D_ChannelPins data =>
      CHANNEL_PINS_UPDATE data c
  | GatewayDispatchEvents.CHANNEL_UPDATE, D_Obj data => CHANNEL_UPDATE data c
  | GatewayDispatchEvents.CHANNEL_RECIPIENT_ADD, D_ChannelRecipient data =>
      CHANNEL_RECIPIENT_ADD data c
  | GatewayDispatchEvents.CHANNEL_RECIPIENT_REMOVE, D_ChannelRecipient data =>
      CHANNEL_RECIPIENT_REMOVE data c
  | GatewayDispatchEvents.ENTITLEMENT_CREATE, data => ENTITLEMENT_CREATE data c
  | GatewayDispatchEvents.ENTITLEMENT_DELETE, data => ENTITLEMENT_DELETE data c
  | GatewayDispatchEvents.ENTITLEMENT_UPDATE, data => ENTITLEMENT_UPDATE data c
  | GatewayDispatchEvents.FRIEND_SUGGESTION_CREATE, D_FriendSuggestion data =>
      FRIEND_SUGGESTION_CREATE data c
  | GatewayDispatchEvents.FRIEND_SUGGESTION_DELETE, D_Other data =>
      FRIEND_SUGGESTION_DELETE data c
  | GatewayDispatchEvents.GIFT_CODE_UPDATE, D_Other data =>
      GIFT_CODE_UPDATE data c
  | GatewayDispatchEvents.GUILD_BAN_ADD, D_GuildBan data =>
      GUILD_BAN_ADD data c
  | GatewayDispatchEvents.GUILD_BAN_REMOVE, D_GuildBan data =>
      GUILD_BAN_REMOVE data c
  | GatewayDispatchEvents.GUILD_CREATE, D_Guild data => GUILD_CREATE data c
  | GatewayDispatchEvents.GUILD_DELETE, D_Guild data => GUILD_DELETE data c
  | GatewayDispatchEvents.GUILD_EMOJIS_UPDATE, D_EmojisUpdate data =>
      GUILD_EMOJIS_UPDATE data c
  | GatewayDispatchEvents.GUILD_INTEGRATIONS_UPDATE, D_Other data =>
      GUILD_INTEGRATIONS_UPDATE data c
  | GatewayDispatchEvents.GUILD_MEMBER_ADD, D_Member data =>
      GUILD_MEMBER_ADD data c
  | GatewayDispatchEvents.GUILD_MEMBER_LIST_UPDATE, data =>
      GUILD_MEMBER_LIST_UPDATE data c
  | GatewayDispatchEvents.GUILD_MEMBER_REMOVE, D_Member data =>
      GUILD_MEMBER_REMOVE data c
  | GatewayDispatchEvents.GUILD_MEMBER_UPDATE, D_Member data =>
      GUILD_MEMBER_UPDATE data c
  | GatewayDispatchEvents.GUILD_MEMBERS_CHUNK, D_MembersChunk data =>
      GUILD_MEMBERS_CHUNK data c
  | GatewayDispatchEvents.GUILD_ROLE_CREATE, D_Role data =>
      GUILD_ROLE_CREATE data c
  | GatewayDispatchEvents.GUILD_ROLE_DELETE, D_RoleDelete data =>
      GUILD_ROLE_DELETE data c
  | GatewayDispatchEvents.GUILD_ROLE_UPDATE, D_Role data =>
      GUILD_ROLE_UPDATE data c
  | GatewayDispatchEvents.GUILD_UPDATE, D_Guild data => GUILD_UPDATE data c
  | GatewayDispatchEvents.LIBRARY_APPLICATION_UPDATE, data =>
      LIBRARY_APPLICATION_UPDATE data c
  | GatewayDispatchEvents.LOBBY_CREATE, data => LOBBY_CREATE data c
  | GatewayDispatchEvents.LOBBY_DELETE, data => LOBBY_DELETE data c
  | GatewayDispatchEvents.LOBBY_UPDATE, data => LOBBY_UPDATE data c
  | GatewayDispatchEvents.LOBBY_MEMBER_CONNECT, data =>
      LOBBY_MEMBER_CONNECT data c
  | GatewayDispatchEvents.LOBBY_MEMBER_DISCONNECT, data =>
      LOBBY_MEMBER_DISCONNECT data c
  | GatewayDispatchEvents.LOBBY_MEMBER_UPDATE, data =>
      LOBBY_MEMBER_UPDATE data c
  | GatewayDispatchEvents.LOBBY_MESSAGE, data => LOBBY_MESSAGE data c
  | GatewayDispatchEvents.LOBBY_VOICE_SERVER_UPDATE, data =>
      LOBBY_VOICE_SERVER_UPDATE data c
  | GatewayDispatchEvents.LOBBY_VOICE_STATE_UPDATE, data =>
      LOBBY_VOICE_STATE_UPDATE data c
  | GatewayDispatchEvents.MESSAGE_ACK, data => MESSAGE_ACK data c
  | GatewayDispatchEvents.MESSAGE_CREATE, D_Obj data => MESSAGE_CREATE data c
  | GatewayDispatchEvents.MESSAGE_DELETE, D_Obj data => MESSAGE_DELETE data c
  | GatewayDispatchEvents.MESSAGE_DELETE_BULK, D_MessageDeleteBulk data =>
      MESSAGE_DELETE_BULK data c
  | GatewayDispatchEvents.MESSAGE_REACTION_ADD, D_Reaction data =>
      MESSAGE_REACTION_ADD data c
  | GatewayDispatchEvents.MESSAGE_REACTION_REMOVE, D_Reaction data =>
      MESSAGE_REACTION_REMOVE data c
  | GatewayDispatchEvents.MESSAGE_REACTION_REMOVE_ALL, D_ReactionRemoveAll data =>
      MESSAGE_REACTION_REMOVE_ALL data c
  | GatewayDispatchEvents.MESSAGE_UPDATE, D_Obj data => MESSAGE_UPDATE data c
  | GatewayDispatchEvents.OAUTH2_TOKEN_REVOKE, data =>
      OAUTH2_TOKEN_REVOKE data c
  | GatewayDispatchEvents.PRESENCE_UPDATE, D_Presence data =>
      PRESENCE_UPDATE data c
  | GatewayDispatchEvents.PRESENCES_REPLACE, D_PresencesReplace data =>
      PRESENCES_REPLACE data c
  | GatewayDispatchEvents.RECENT_MENTION_DELETE, data =>
      RECENT_MENTION_DELETE data c
  | GatewayDispatchEvents.RELATIONSHIP_ADD, D_Obj data =>
      RELATIONSHIP_ADD data c
  | GatewayDispatchEvents.RELATIONSHIP_REMOVE, D_Obj data =>
      RELATIONSHIP_REMOVE data c
  | GatewayDispatchEvents.SESSIONS_UPDATE, data => SESSIONS_UPDATE data c
  | GatewayDispatchEvents.STREAM_CREATE, D_Other data => STREAM_CREATE data c
  | GatewayDispatchEvents.STREAM_DELETE, D_Other data => STREAM_DELETE data c
  | GatewayDispatchEvents.STREAM_SERVER_UPDATE, D_Other data =>
      STREAM_SERVER_UPDATE data c
  | GatewayDispatchEvents.STREAM_UPDATE, D_Other data => STREAM_UPDATE data c
  | GatewayDispatchEvents.TYPING_START, D_Typing data => TYPING_START data c
  | GatewayDispatchEvents.USER_ACHIEVEMENT_UPDATE, data =>
      USER_ACHIEVEMENT_UPDATE data c
  | GatewayDispatchEvents.USER_CONNECTIONS_UPDATE, data =>
      USER_CONNECTIONS_UPDATE data c
  | GatewayDispatchEvents.USER_FEED_SETTINGS_UPDATE, data =>
      USER_FEED_SETTINGS_UPDATE data c
  | GatewayDispatchEvents.USER_GUILD_SETTINGS_UPDATE, data =>
      USER_GUILD_SETTINGS_UPDATE data c
  | GatewayDispatchEvents.USER_NOTE_UPDATE, D_Note data =>
      USER_NOTE_UPDATE data c
  | GatewayDispatchEvents.USER_PAYMENT_SOURCES_UPDATE, data =>
      USER_PAYMENT_SOURCES_UPDATE data c
  | GatewayDispatchEvents.USER_PAYMENTS_UPDATE, data =>
      USER_PAYMENTS_UPDATE data c
  | GatewayDispatchEvents.USER_REQUIRED_ACTION_UPDATE, data =>
      USER_REQUIRED_ACTION_UPDATE data c
  | GatewayDispatchEvents.USER_SETTINGS_UPDATE, data =>
      USER_SETTINGS_UPDATE data c
  | GatewayDispatchEvents.USER_UPDATE, D_Obj data => USER_UPDATE data c
  | GatewayDispatchEvents.VOICE_SERVER_UPDATE, D_Other data =>
      VOICE_SERVER_UPDATE data c
  | GatewayDispatchEvents.VOICE_STATE_UPDATE, D_VoiceState data =>
      VOICE_STATE_UPDATE data c
  | GatewayDispatchEvents.WEBHOOKS_UPDATE, D_Other data =>
      WEBHOOKS_UPDATE data c
  | _, _ => c
  end.

End GatewayDispatchHandler.

(** ** [GatewayHandler]: the packet router *)

Module GatewayHandlerOptions.
Record t := mk {
  disabledEvents : option (list string);
  emitRawEvent : option bool;
  loadAllMembers : option bool }.
End GatewayHandlerOptions.

Module GatewayPacket.
Record t := mk { op : Z; t_ : string; d : PacketData }.
End GatewayPacket.

(** Modelled from the spec: [GatewayOpCodes] comes from the socket package,
    which is not part of the repository; dispatch packets carry opcode 0. *)
Module GatewayOpCodes.
Definition DISPATCH : Z := 0.
End GatewayOpCodes.

Module GatewayHandler.

(** The constructor, on the fields of the handler (subscribing [onPacket]
    to the gateway is the caller's part here). *)
Definition new (options : GatewayHandlerOptions.t) (c : Client) : Client :=
  let c :=
    with_emitRawEvent
      (λ _, truthy_bool (GatewayHandlerOptions.emitRawEvent options)) c in
  let c :=
    with_disabledEvents
      (λ _, list_to_set
              (toUpperCase
                 <$> default [] (GatewayHandlerOptions.disabledEvents options)))
      c in
  let c :=
    with_loadAllMembers
      (λ _, truthy_bool (GatewayHandlerOptions.loadAllMembers options)) c in
  with_memberChunksLeft (λ _, ∅) c.

(** [getHandler(name)]: the handler method registered under [name], if
    any, among the dispatch handlers. *)
Definition getHandler (name : string) : option GatewayDispatchEvents.t :=
  List.find (λ e, String.eqb (GatewayDispatchEvents.name e) name)
            GatewayDispatchEvents.all.

Section OnPacket.

(** What calling a handler does to the client. *)
Variable call : GatewayDispatchEvents.t → PacketData → Client → Client.

Definition onPacket (packet : GatewayPacket.t) (c : Client) : Client :=
  if negb (GatewayPacket.op packet =? GatewayOpCodes.DISPATCH)%Z then c
  else
    let name := GatewayPacket.t_ packet in
    let data := GatewayPacket.d packet in
    let c :=
      if emitRawEvent c
      then emit (Named ClientEvents.RAW_EVENT) (P_Raw name data) c
      else c in
    if negb (bool_decide (name ∈ disabledEvents c)) then
      match getHandler name with
      | Some handler => call handler data c
      | None =>
          let c := emit (Named ClientEvents.UNKNOWN) (P_Raw name data) c in
          emit (Literal name) (P_Data data) c
      end
    else c.

End OnPacket.

End GatewayHandler.

(** * Sample states and observations *)

Import GatewayDispatchHandler.

Definition emptyTier : Tier.t := Tier.mk true false ∅.

Definition client0 : Client :=
  {| user := None; isBot := false; authType := USER;
     users := Repo.mk true ∅; channels := Repo.mk true ∅;
     guilds := Repo.mk true ∅; emojis := Repo.mk true ∅;
     messages := Repo.mk true ∅; relationships := Repo.mk true ∅;
     voiceCalls := Repo.mk true ∅; notes := Repo.mk true ∅;
     owners := ∅; members := emptyTier; presences := emptyTier;
     memberObjs := []; presenceObjs := [];
     largeThreshold := 250; guildSubscriptions := true; discordTrace := [];
     requestedGuildMembers := []; restCalls := [];
     emitRawEvent := false; disabledEvents := ∅; loadAllMembers := true;
     memberChunksLeft := ∅; listeners := []; emitted := [];
     differencesCalls := 0;
     typing := emptyTier; voiceStates := emptyTier;
     typingObjs := []; voiceStateObjs := [];
     recipients := ∅; nicks := ∅; roles := ∅ |}.

Definition userU : Obj.t := Obj.mk "U" ∅.

Definition guildG : Guild.t := Guild.mk "G" false 10 ∅.

Definition clientBan : Client :=
  with_guilds (Repo.set "G" guildG) client0.

Definition thumbs (count : Z) : Reaction.t := Reaction.mk count false.

Definition messageM (count : Z) : Message.t :=
  Message.mk "M" {[ "thumbsup" := thumbs count ]} ∅.

Definition clientReaction (count : Z) : Client :=
  with_messages (Repo.set "M" (messageM count)) client0.

Definition removeThumbs : RawReaction.t :=
  RawReaction.mk "C" None "M" "U" None "thumbsup".

(** The reaction of a notification of a removed reaction. *)
Definition reactionOf (n : Notification.t) : option Reaction.t :=
  match Notification.payload n with
  | P_MessageReactionRemove _ _ _ _ _ _ reaction _ _ _ => Some reaction
  | _ => None
  end.

(** The reactions of a cached message. *)
Definition reactionsOf (messageId : string) (c : Client)
  : gmap string Reaction.t :=
  from_option Message.reactions ∅ (Repo.get messageId (messages c)).

(** [c'] differs from [c] at most in the tiers and in the stored
    presences. *)
Definition sameOutsidePresences (c c' : Client) : Prop :=
  c' = with_presences (λ _, presences c')
         (with_members (λ _, members c')
            (with_presenceObjs (λ _, presenceObjs c') c)).

(** One notification, under the given name. *)
Definition emitsOne (name : ClientEvents.t) (c c' : Client) : Prop :=
  ∃ payload,
    emitted c' = emitted c ++ [Notification.mk (Named name) payload].

(** The notifications emitted, the guilds waiting for their roster and
    the roster requests sent. *)
Definition control (c : Client)
  : list Notification.t * gset string * list Request.t :=
  (emitted c, memberChunksLeft c, requestedGuildMembers c).

(** [c'] is [c] after one notification under [name], as far as [control]
    goes. *)
Definition emitsOnly (name : ClientEvents.t) (c c' : Client) : Prop :=
  ∃ payload, control c' = control (emit (Named name) payload c).

Definition guildLarge : RawGuild.t := RawGuild.mk "G" None (Some 5000%Z) ∅.

Definition denyLower : GatewayHandlerOptions.t :=
  GatewayHandlerOptions.mk (Some ["guild_create"]) None None.

Definition packetLower : GatewayPacket.t :=
  GatewayPacket.mk 0 "guild_create" (D_Guild guildLarge).

Definition packetUpper : GatewayPacket.t :=
  GatewayPacket.mk 0 "GUILD_CREATE" (D_Guild guildLarge).

(** The [differences] of a notification that carries one. *)
Definition differencesOf (n : Notification.t) : option Differences :=
  match Notification.payload n with
  | P_CallUpdate _ differences
  | P_ChannelUpdate _ differences
  | P_GuildMemberUpdate differences _ _
  | P_GuildUpdate differences _
  | P_MessageUpdate differences _
  | P_PresenceUpdate differences _ _ _ _
  | P_RelationshipAdd differences _ => Some differences
  | _ => None
  end.

(** The [differences] of the last notification. *)
Definition lastDifferences (c : Client) : option Differences :=
  last (emitted c) ≫= differencesOf.

Definition clientMessage : Client :=
  with_relationships (Repo.set "R" (Obj.mk "R" ∅))
    (with_messages (Repo.set "M" (messageM 1)) client0).

Definition editM : Obj.t := Obj.mk "M" {[ "content" := "edited" ]}.
Definition editR : Obj.t := Obj.mk "R" {[ "type" := "1" ]}.


Definition clientScope : Client :=
  with_emojis (Repo.set "E1" (Emoji.mk "E1" (Some "G") ∅))
  (with_emojis (Repo.set "E2" (Emoji.mk "E2" (Some "H") ∅))
  (with_presences (Tier.with_cache (insert "G" {[ "U" := 0 ]}))
  (with_presenceObjs (λ _, [Presence.mk (Some "G") "U" "online" ∅])
  (with_members (Tier.with_cache (insert "G" {[ "U" := 0 ]}))
  (with_memberObjs (λ _, [Member.mk "G" "U" None None []])
  (with_guilds (Repo.set "G" guildG) client0)))))).

Definition deleteG : RawGuild.t := RawGuild.mk "G" None None ∅.

(** The request [READY] and [GUILD_CREATE] send for a guild. *)
Definition rosterRequest (guildId : string) : Request.t :=
  Request.mk guildId 0 true "".

(** The fields the chunk coordination reads and writes. *)
Definition coordination (c : Client)
  : Repo.t Guild.t * gset string * list Request.t * bool * Z :=
  (guilds c, memberChunksLeft c, requestedGuildMembers c,
   shouldLoadAllMembers c, largeThreshold c).

Definition guildA : RawGuild.t := RawGuild.mk "A" (Some true) (Some 5000%Z) ∅.
Definition guildB : RawGuild.t := RawGuild.mk "B" None (Some 10%Z) ∅.

Definition readyTwo : RawReady.t :=
  RawReady.mk (Obj.mk "me" ∅) None [guildA; guildB] None None None [].

(** The guild a payload resolves to: the cached one merged, or a new
    one. *)
Definition resolvedGuild (data : RawGuild.t) (c : Client) : Guild.t :=
  from_option (Guild.merge data) (Guild.new data)
    (Repo.get (RawGuild.id data) (guilds c)).

(** Every cached guild is stored under its own id. *)
Definition guildsKeyed (c : Client) : Prop :=
  map_Forall (λ k g, Guild.id g = k) (Repo.cache (guilds c)).

Definition guildSmall : RawGuild.t := RawGuild.mk "G" None (Some 10%Z) ∅.

(** A client that does not cache guilds. *)
Definition clientNoGuilds : Client :=
  with_guilds (λ _, Repo.mk false ∅) client0.

Definition clientOnline : Client :=
  with_users (Repo.set "U" userU) clientScope.

Definition offlineU : RawPresence.t :=
  RawPresence.mk (Some "G") userU (Some "offline") None None None ∅.

Definition chunkOffline : RawMembersChunk.t :=
  RawMembersChunk.mk "G"
    (Some [RawMember.mk None None None None userU]) None
    (Some [RawPresence.mk None userU (Some "offline") None None None ∅]).

(** The presence [add] ends with for a payload: the cached one merged, or
    a new one. *)
Definition mergedPresence (data : RawPresence.t) (c : Client)
  : option Presence.t :=
  let cacheId := js_or (RawPresence.guild_id data) DEFAULT_PRESENCE_CACHE_KEY in
  match Presences.get (Some cacheId) (Some (Obj.id (RawPresence.user data)))
          (presences c) with
  | GotEntity presence => Presence.merge data <$> presenceObjs c !! presence
  | _ => Some (Presence.new data)
  end.


Definition onlineU : RawPresence.t :=
  RawPresence.mk (Some "G") userU (Some "online") None None None ∅.

(** The presence is kept by [add]: it is not offline, or offline
    presences are stored. *)
Definition retained (data : RawPresence.t) (c : Client) : Prop :=
  Tier.storeOffline (presences c) = true
  ∨ Presence.isOffline <$> mergedPresence data c = Some false.

(** The client of [clientScope] with its presence collection disabled. *)
Definition clientDisabled : Client :=
  with_presences (λ this, Tier.mk false false (Tier.cache this)) clientScope.

(** One turn of the loop of [delete] over the scopes, when no cache id is
    given. *)
Definition deleteStep (userId : string)
  : bool * Tier.t → string * gmap string ref → bool * Tier.t :=
  λ '(deleted, this) '(cacheId, cache),
    if bool_decide (is_Some (cache !! userId))
    then (true, Tier.with_cache (insert cacheId (delete userId cache)) this)
    else (deleted, this).

(** The state of the roster requests: the guilds waiting for one, and
    the requests sent. *)
Definition rosterState (c : Client) : gset string * list Request.t :=
  (memberChunksLeft c, requestedGuildMembers c).

(** Guild ["G"] going unavailable. *)
Definition unavailableG : RawGuild.t := RawGuild.mk "G" (Some true) None ∅.

(** The channel of a notification of changed pins. *)
Definition pinnedChannelOf (n : Notification.t) : option (option Obj.t) :=
  match Notification.payload n with
  | P_ChannelPinsUpdate channel _ _ _ => Some channel
  | _ => None
  end.

(** What [READY] settles about the local user. *)
Definition localUser (c : Client)
  : option Obj.t * bool * AuthTypes * gmap string Obj.t * list RestCall :=
  (user c, isBot c, authType c, owners c, restCalls c).

(** A chunk of guild ["G"] with user ["U"] as its only member. *)
Definition chunkUsers : RawMembersChunk.t :=
  RawMembersChunk.mk "G"
    (Some [RawMember.mk None None None None userU]) None None.

(** A client with the roster disabled. *)
Definition clientNoRoster : Client :=
  with_members (λ _, Tier.mk false false ∅) client0.


(** The flag of a notification of a created guild. *)
Definition fromUnavailableOf (n : Notification.t) : option bool :=
  match Notification.payload n with
  | P_GuildCreate fromUnavailable _ => Some fromUnavailable
  | _ => None
  end.















(** * Properties *)

(** C10.  In [GUILD_BAN_ADD] and [GUILD_BAN_REMOVE] the [guild] of the
    notification is the entry of the user repository under the guild id of
    the ban, whatever the guild repository holds: when no user is stored
    under that id the [guild] is undefined, also for a cached guild. *)
Theorem GUILD_BAN_guild_from_users (data : RawGuildBan.t) (c : Client) :
  let guildId := RawGuildBan.guild_id data in
  (∃ user,
     emitted (GUILD_BAN_ADD data c)
     = emitted c ++ [Notification.mk (Named ClientEvents.GUILD_BAN_ADD)
                       (P_GuildBan (Repo.get guildId (users c)) guildId user)])
  ∧ (∃ user,
       emitted (GUILD_BAN_REMOVE data c)
       = emitted c ++ [Notification.mk (Named ClientEvents.GUILD_BAN_REMOVE)
                         (P_GuildBan (Repo.get guildId (users c)) guildId user)])
  ∧ (Repo.get guildId (users c) = None →
     (∃ user,
        emitted (GUILD_BAN_ADD data c)
        = emitted c ++ [Notification.mk (Named ClientEvents.GUILD_BAN_ADD)
                          (P_GuildBan None guildId user)])
     ∧ (∃ user,
          emitted (GUILD_BAN_REMOVE data c)
          = emitted c ++ [Notification.mk (Named ClientEvents.GUILD_BAN_REMOVE)
                            (P_GuildBan None guildId user)])).
Proof.
  intros guildId.
  assert (Hadd : ∃ user,
     emitted (GUILD_BAN_ADD data c)
     = emitted c ++ [Notification.mk (Named ClientEvents.GUILD_BAN_ADD)
                       (P_GuildBan (Repo.get guildId (users c)) guildId user)]).
  { unfold GUILD_BAN_ADD.
    destruct (Repo.get (Obj.id (RawGuildBan.user data)) (users c));
      eexists; reflexivity. }
  assert (Hrem : ∃ user,
     emitted (GUILD_BAN_REMOVE data c)
     = emitted c ++ [Notification.mk (Named ClientEvents.GUILD_BAN_REMOVE)
                       (P_GuildBan (Repo.get guildId (users c)) guildId user)]).
  { unfold GUILD_BAN_REMOVE.
    destruct (Repo.get (Obj.id (RawGuildBan.user data)) (users c));
      eexists; reflexivity. }
  split; [exact Hadd|]. split; [exact Hrem|].
  intros Hnone. rewrite Hnone in Hadd, Hrem. split; assumption.
Qed.

(** C10 at a ban in guild ["G"], which is cached while no user has that
    id. *)
Lemma GUILD_BAN_guild_from_users_witness :
  Repo.has "G" (guilds clientBan) = true
  ∧ Repo.get "G" (users clientBan) = None
  ∧ (∃ user,
       emitted (GUILD_BAN_ADD (RawGuildBan.mk "G" userU) clientBan)
       = emitted clientBan
         ++ [Notification.mk (Named ClientEvents.GUILD_BAN_ADD)
               (P_GuildBan None "G" user)]).
Proof.
  split; [vm_compute; reflexivity|].
  split; [vm_compute; reflexivity|].
  apply (GUILD_BAN_guild_from_users (RawGuildBan.mk "G" userU) clientBan).
  vm_compute; reflexivity.
Defined.

(** Removing a reaction from a cached message that has it: the count
    becomes the minimum of the count less one and zero, and the entry is
    dropped whatever the count was. *)
Lemma MESSAGE_REACTION_REMOVE_count (data : RawReaction.t) (c : Client)
    (message : Message.t) (reaction : Reaction.t) :
  let emojiId :=
    js_or (RawReaction.emoji_id data) (RawReaction.emoji_name data) in
  let c' := MESSAGE_REACTION_REMOVE data c in
  Repo.get (RawReaction.message_id data) (messages c) = Some message →
  Message.reactions message !! emojiId = Some reaction →
  (reactionOf <$> last (emitted c'))
    = Some (Some (Reaction.mk (Z.min (Reaction.count reaction - 1) 0)
                    (Reaction.me reaction
                     && negb (bool_decide
                                (Some (RawReaction.user_id data)
                                 = Obj.id <$> user c)))))
  ∧ reactionsOf (RawReaction.message_id data) c' !! emojiId = None.
Proof.
  intros emojiId c' Hm Hr. subst c'. unfold MESSAGE_REACTION_REMOVE.
  rewrite Hm. fold emojiId. rewrite Hr. simpl.
  split.
  - unfold emit. simpl. rewrite last_snoc. reflexivity.
  - unfold reactionsOf, Repo.get, Repo.set. simpl.
    rewrite lookup_insert_eq. simpl.
    assert (Hle : (Z.min (Reaction.count reaction - 1) 0 <=? 0)%Z = true)
      by (apply Z.leb_le; lia).
    rewrite Hle. simpl. apply lookup_delete_eq.
Qed.

(** C2 (the code departs from it).  A reaction counted five times is
    left with count zero and dropped by one removal, where the claim has
    four and the entry kept; a reaction at count zero is left with the
    negative count minus one. *)
Theorem MESSAGE_REACTION_REMOVE_five_and_zero :
  let c5 := MESSAGE_REACTION_REMOVE removeThumbs (clientReaction 5) in
  let c0 := MESSAGE_REACTION_REMOVE removeThumbs (clientReaction 0) in
  (reactionOf <$> last (emitted c5)) = Some (Some (thumbs 0))
  ∧ reactionsOf "M" c5 !! "thumbsup" = None
  ∧ (reactionOf <$> last (emitted c0)) = Some (Some (thumbs (-1))).
Proof. vm_compute. auto. Qed.

(** ** What a method leaves alone *)

Lemma sameOutsidePresences_refl c : sameOutsidePresences c c.
Proof. destruct c; reflexivity. Qed.

Lemma sameOutsidePresences_trans c1 c2 c3 :
  sameOutsidePresences c1 c2 → sameOutsidePresences c2 c3 →
  sameOutsidePresences c1 c3.
Proof.
  unfold sameOutsidePresences. intros H12 H23.
  rewrite H23 at 1. rewrite H12 at 1. reflexivity.
Qed.

Lemma Presences_insert_frame presence c :
  sameOutsidePresences c (Presences.insert presence c).2.
Proof.
  unfold Presences.insert.
  repeat case_match; simpl; destruct c; reflexivity.
Qed.

Lemma Presences_add_frame value c :
  sameOutsidePresences c (Presences.add value c).2.
Proof.
  unfold Presences.add.
  destruct (Presences.get _ _ _).
  2: { repeat case_match; simpl; destruct c; reflexivity. }
  all: match goal with
       | |- context [Presences.insert ?r ?c0] =>
           pose proof (Presences_insert_frame r c0) as Hi;
           destruct (Presences.insert r c0) as [[newPresence|] ci]; simpl in *;
           (eapply sameOutsidePresences_trans; [|exact Hi]);
           destruct c; reflexivity
       end.
Qed.

Lemma foldl_preserves {A B} (f : Client → B) (step : Client → A → Client) :
  (∀ c x, f (step c x) = f c) → ∀ l c, f (foldl step c l) = f c.
Proof.
  intros Hstep l. induction l as [|x l IH]; intros c; simpl; [done|].
  rewrite IH. apply Hstep.
Qed.

Lemma Presences_add_field {B} (f : Client → B) value c :
  (∀ c p m o,
     f (with_presences (λ _, p) (with_members (λ _, m)
          (with_presenceObjs (λ _, o) c))) = f c) →
  f (Presences.add value c).2 = f c.
Proof.
  intros Hf. rewrite (Presences_add_frame value c). apply Hf.
Qed.

Ltac frame :=
  repeat first
    [ progress simpl
    | reflexivity
    | rewrite foldl_preserves; [|intros ? ?]
    | apply Presences_add_field; intros ? ? ? ?
    | case_match; simplify_eq ].

Lemma READY_guild_emitted raw c : emitted (READY_guild raw c) = emitted c.
Proof. unfold READY_guild. frame. Qed.

Lemma READY_private_channel_field {B} (f : Client → B) raw c :
  (∀ c g, f (with_channels g c) = f c) → f (READY_private_channel raw c) = f c.
Proof. intros Hf. unfold READY_private_channel. case_match; apply Hf. Qed.

Lemma READY_relationship_field {B} (f : Client → B) raw c :
  (∀ c g, f (with_relationships g c) = f c) →
  f (READY_relationship raw c) = f c.
Proof. intros Hf. unfold READY_relationship. case_match; apply Hf. Qed.

Lemma READY_channels_field {B} (f : Client → B) data c :
  (∀ c g, f (with_channels g c) = f c) → f (READY_channels data c) = f c.
Proof.
  intros Hf. unfold READY_channels. case_match; [|done].
  apply foldl_preserves. intros. by apply READY_private_channel_field.
Qed.

Lemma READY_notes_field {B} (f : Client → B) data c :
  (∀ c g, f (with_notes g c) = f c) → f (READY_notes data c) = f c.
Proof.
  intros Hf. unfold READY_notes. case_match; [|done].
  apply foldl_preserves. intros. apply Hf.
Qed.

Lemma READY_presences_field {B} (f : Client → B) data c :
  (∀ c p m o,
     f (with_presences (λ _, p) (with_members (λ _, m)
          (with_presenceObjs (λ _, o) c))) = f c) →
  f (READY_presences data c) = f c.
Proof.
  intros Hf. unfold READY_presences. case_match; [|done].
  apply foldl_preserves. intros. by apply Presences_add_field.
Qed.

Lemma READY_relationships_field {B} (f : Client → B) data c :
  (∀ c g, f (with_relationships g c) = f c) →
  f (READY_relationships data c) = f c.
Proof.
  intros Hf. unfold READY_relationships. case_match; [|done].
  apply foldl_preserves. intros. by apply READY_relationship_field.
Qed.

Lemma READY_user_field {B} (f : Client → B) data c :
  (∀ c g1 g2 g3 g4,
     f (with_authType g1 (with_isBot g2 (with_users g3 (with_user g4 c))))
     = f c) →
  (∀ c g1 g2 g4,
     f (with_authType g1 (with_isBot g2 (with_user g4 c))) = f c) →
  f (READY_user data c) = f c.
Proof.
  intros Hf Hf'. unfold READY_user. cbv zeta.
  destruct (user (with_user _ c)) eqn:E.
  - apply Hf.
  - apply Hf'.
Qed.

Lemma READY_guilds_emitted data c : emitted (READY_guilds data c) = emitted c.
Proof.
  unfold READY_guilds. case_match; [|done].
  apply foldl_preserves. intros. apply READY_guild_emitted.
Qed.

Lemma READY_emit_emitted data c :
  emitted (READY_emit data c)
  = emitted c
    ++ [Notification.mk (Named ClientEvents.GATEWAY_READY)
          (P_GatewayReady data)].
Proof. unfold READY_emit, emit. cbv zeta. repeat case_match; reflexivity. Qed.

Lemma READY_emitted data c :
  emitted (READY data c)
  = emitted c
    ++ [Notification.mk (Named ClientEvents.GATEWAY_READY)
          (P_GatewayReady data)].
Proof.
  unfold READY. cbv zeta. rewrite READY_emit_emitted. f_equal.
  rewrite (READY_relationships_field emitted) by reflexivity.
  rewrite (READY_presences_field emitted) by reflexivity.
  rewrite (READY_notes_field emitted) by reflexivity.
  rewrite READY_guilds_emitted.
  rewrite (READY_channels_field emitted) by reflexivity.
  rewrite (READY_user_field emitted) by reflexivity.
  reflexivity.
Qed.

Lemma emitted_emit name payload c :
  emitted (emit name payload c) = emitted c ++ [Notification.mk name payload].
Proof. reflexivity. Qed.

Lemma computed_field {B} (f : Client → B) keys c :
  (∀ c g, f (with_differencesCalls g c) = f c) → f (computed keys c).2 = f c.
Proof. intros Hf. apply Hf. Qed.

Lemma Members_insert_field {B} (f : Client → B) member c :
  (∀ c g, f (with_members g c) = f c) → f (Members.insert member c) = f c.
Proof. intros Hf. unfold Members.insert. repeat case_match; auto. Qed.

Ltac one_emit :=
  unfold emitsOne; rewrite emitted_emit; eexists; f_equal.

Lemma CALL_UPDATE_emitted data c :
  emitsOne ClientEvents.CALL_UPDATE c (CALL_UPDATE data c).
Proof.
  unfold CALL_UPDATE, computed.
  repeat (case_match; simplify_eq); one_emit.
Qed.

Lemma CHANNEL_UPDATE_emitted data c :
  emitsOne ClientEvents.CHANNEL_UPDATE c (CHANNEL_UPDATE data c).
Proof.
  unfold CHANNEL_UPDATE, computed.
  repeat (case_match; simplify_eq); one_emit.
Qed.

Lemma CHANNEL_PINS_UPDATE_emitted data c :
  emitsOne ClientEvents.CHANNEL_DELETE c (CHANNEL_PINS_UPDATE data c).
Proof.
  unfold CHANNEL_PINS_UPDATE.
  repeat (case_match; simplify_eq); one_emit.
Qed.

Lemma GUILD_BAN_ADD_emitted data c :
  emitsOne ClientEvents.GUILD_BAN_ADD c (GUILD_BAN_ADD data c).
Proof.
  unfold GUILD_BAN_ADD. repeat (case_match; simplify_eq); one_emit.
Qed.

Lemma GUILD_BAN_REMOVE_emitted data c :
  emitsOne ClientEvents.GUILD_BAN_REMOVE c (GUILD_BAN_REMOVE data c).
Proof.
  unfold GUILD_BAN_REMOVE. repeat (case_match; simplify_eq); one_emit.
Qed.

Lemma GUILD_CREATE_emitted data c :
  emitsOne ClientEvents.GUILD_CREATE c (GUILD_CREATE data c).
Proof.
  unfold GUILD_CREATE, requestGuildMembers.
  repeat (case_match; simplify_eq); one_emit.
Qed.

Lemma GUILD_DELETE_emojis_field {B} (f : Client → B) guildId c :
  (∀ c g, f (with_emojis g c) = f c) → f (GUILD_DELETE_emojis guildId c) = f c.
Proof.
  intros Hf. unfold GUILD_DELETE_emojis. apply foldl_preserves.
  intros. repeat case_match; auto.
Qed.

Lemma GUILD_DELETE_emitted data c :
  emitsOne ClientEvents.GUILD_DELETE c (GUILD_DELETE data c).
Proof.
  unfold GUILD_DELETE. cbv zeta.
  repeat (case_match; simplify_eq); one_emit;
    try rewrite (GUILD_DELETE_emojis_field emitted) by reflexivity;
    reflexivity.
Qed.

Lemma GUILD_MEMBER_UPDATE_emitted data c :
  emitsOne ClientEvents.GUILD_MEMBER_UPDATE c (GUILD_MEMBER_UPDATE data c).
Proof.
  unfold GUILD_MEMBER_UPDATE, computed. cbv zeta.
  repeat (case_match; simplify_eq); one_emit;
    try rewrite (Members_insert_field emitted) by reflexivity; reflexivity.
Qed.

Lemma GUILD_MEMBERS_CHUNK_member_field {B} (f : Client → B) guildId value c :
  (∀ c g, f (with_members g c) = f c) →
  (∀ c g, f (with_memberObjs g c) = f c) →
  f (GUILD_MEMBERS_CHUNK_member guildId value c) = f c.
Proof.
  intros Hm Ho. unfold GUILD_MEMBERS_CHUNK_member.
  repeat case_match; rewrite ?Members_insert_field by done; auto.
Qed.

Lemma GUILD_MEMBERS_CHUNK_emitted data c :
  emitsOne ClientEvents.GUILD_MEMBERS_CHUNK c (GUILD_MEMBERS_CHUNK data c).
Proof.
  unfold GUILD_MEMBERS_CHUNK. cbv zeta. one_emit.
  assert (Hp : ∀ c0 guildId l,
    emitted (foldl (λ c value,
               (Presences.add
                  (RawPresence.mk (Some guildId) (RawPresence.user value)
                     (RawPresence.status value) (RawPresence.nick value)
                     (RawPresence.premium_since value)
                     (RawPresence.roles value) (RawPresence.fields value))
                  c).2) c0 l) = emitted c0).
  { intros. apply foldl_preserves. intros.
    by apply (Presences_add_field emitted). }
  assert (Hm : ∀ c0 guildId l,
    emitted (foldl (λ c value, GUILD_MEMBERS_CHUNK_member guildId value c)
                   c0 l) = emitted c0).
  { intros. apply foldl_preserves. intros.
    by apply (GUILD_MEMBERS_CHUNK_member_field emitted). }
  assert (Hu : ∀ c0 l,
    emitted (foldl (λ c value, GUILD_MEMBERS_CHUNK_user value c) c0 l)
    = emitted c0).
  { intros. apply foldl_preserves. intros. unfold GUILD_MEMBERS_CHUNK_user.
    by case_match. }
  repeat case_match; rewrite ?Hp, ?Hm, ?Hu; reflexivity.
Qed.

Lemma GUILD_UPDATE_emitted data c :
  emitsOne ClientEvents.GUILD_UPDATE c (GUILD_UPDATE data c).
Proof.
  unfold GUILD_UPDATE, computed.
  repeat (case_match; simplify_eq); one_emit.
Qed.

Lemma MESSAGE_REACTION_REMOVE_emitted data c :
  emitsOne ClientEvents.MESSAGE_REACTION_REMOVE c
    (MESSAGE_REACTION_REMOVE data c).
Proof.
  unfold MESSAGE_REACTION_REMOVE. cbv zeta.
  repeat (case_match; simplify_eq); one_emit.
Qed.

Lemma MESSAGE_UPDATE_emitted data c :
  emitsOne ClientEvents.MESSAGE_UPDATE c (MESSAGE_UPDATE data c).
Proof.
  unfold MESSAGE_UPDATE, computed.
  repeat (case_match; simplify_eq); one_emit.
Qed.

Lemma RELATIONSHIP_ADD_emitted data c :
  emitsOne ClientEvents.RELATIONSHIP_ADD c (RELATIONSHIP_ADD data c).
Proof.
  unfold RELATIONSHIP_ADD, computed.
  repeat (case_match; simplify_eq); one_emit.
Qed.

Lemma PRESENCE_UPDATE_emitted data c :
  emitsOne ClientEvents.PRESENCE_UPDATE c (PRESENCE_UPDATE data c).
Proof.
  unfold PRESENCE_UPDATE. cbv zeta.
  set (d := if hasEventListener ClientEvents.PRESENCE_UPDATE c then _ else _).
  assert (Hd : emitted d.2 = emitted c).
  { subst d. unfold computed. repeat case_match; reflexivity. }
  destruct d as [differences c1]. simpl in Hd.
  pose proof (Presences_add_field emitted data c1
                (λ _ _ _ _, eq_refl)) as Ha.
  destruct (Presences.add data c1) as [presence c2]. simpl in Ha.
  repeat (case_match; simplify_eq); one_emit;
    rewrite ?(Members_insert_field emitted) by reflexivity; simpl; congruence.
Qed.

(** ** What the other handlers leave alone *)

Lemma foldl_pair_preserves {A B S} (f : Client → B)
    (step : S * Client → A → S * Client) :
  (∀ s c x, f (step (s, c) x).2 = f c) →
  ∀ l s c, f (foldl step (s, c) l).2 = f c.
Proof.
  intros Hstep l. induction l as [|x l IH]; intros s c; simpl; [done|].
  destruct (step (s, c) x) as [s' c'] eqn:E. rewrite IH.
  by rewrite <- (Hstep s c x), E.
Qed.

Lemma TypingCollection_insert_field {B} (f : Client → B) indicator c :
  (∀ c g, f (with_typing g c) = f c) →
  f (TypingCollection.insert indicator c) = f c.
Proof. intros Hf. unfold TypingCollection.insert. repeat case_match; auto. Qed.

Lemma VoiceStates_insert_field {B} (f : Client → B) voiceState c :
  (∀ c g, f (with_voiceStates g c) = f c) →
  f (VoiceStates.insert voiceState c) = f c.
Proof. intros Hf. unfold VoiceStates.insert. repeat case_match; auto. Qed.

Lemma adjustMemberCount_field {B} (f : Client → B) guildId change c :
  (∀ c g, f (with_guilds g c) = f c) →
  f (adjustMemberCount guildId change c) = f c.
Proof. intros Hf. unfold adjustMemberCount. repeat case_match; auto. Qed.

Lemma GUILD_EMOJIS_UPDATE_emojis_field {B} (f : Client → B) guildId raws c :
  (∀ c g, f (with_emojis g c) = f c) →
  f (GUILD_EMOJIS_UPDATE_emojis guildId raws c).2 = f c.
Proof.
  intros Hf. unfold GUILD_EMOJIS_UPDATE_emojis. cbv zeta.
  rewrite foldl_pair_preserves.
  - apply foldl_preserves. intros. case_match; auto.
  - intros s c0 raw. unfold GUILD_EMOJIS_UPDATE_emoji.
    repeat case_match; simplify_eq; simpl; auto.
Qed.

Lemma MESSAGE_DELETE_BULK_messages_field {B} (f : Client → B) ids s c :
  (∀ c g, f (with_messages g c) = f c) →
  f (foldl MESSAGE_DELETE_BULK_message (s, c) ids).2 = f c.
Proof.
  intros Hf. apply foldl_pair_preserves. intros s0 c0 messageId.
  unfold MESSAGE_DELETE_BULK_message. repeat case_match; simpl; auto.
Qed.

Lemma PRESENCES_REPLACE_presences_field {B} (f : Client → B) raws s c :
  (∀ c p m o,
     f (with_presences (λ _, p) (with_members (λ _, m)
          (with_presenceObjs (λ _, o) c))) = f c) →
  f (foldl PRESENCES_REPLACE_presence (s, c) raws).2 = f c.
Proof.
  intros Hf. apply foldl_pair_preserves. intros s0 c0 raw.
  unfold PRESENCES_REPLACE_presence.
  pose proof (Presences_add_field f raw c0 Hf) as Ha.
  by destruct (Presences.add raw c0) as [presence c1].
Qed.

Lemma control_emit name payload c c' :
  control c' = control c →
  control (emit name payload c') = control (emit name payload c).
Proof. unfold control, emit. simpl. congruence. Qed.

Ltac only_emit :=
  unfold emitsOnly; eexists; apply control_emit; try reflexivity.

Ltac plain_emit handler :=
  unfold handler, computed; cbv zeta;
  repeat (case_match; simplify_eq); only_emit.

Lemma RESUMED_control data c :
  emitsOnly ClientEvents.GATEWAY_RESUMED c (RESUMED data c).
Proof. plain_emit RESUMED. Qed.

Lemma CALL_CREATE_control data c :
  emitsOnly ClientEvents.CALL_CREATE c (CALL_CREATE data c).
Proof. plain_emit CALL_CREATE. Qed.

Lemma CALL_DELETE_control data c :
  emitsOnly ClientEvents.CALL_DELETE c (CALL_DELETE data c).
Proof. plain_emit CALL_DELETE. Qed.

Lemma CHANNEL_CREATE_control data c :
  emitsOnly ClientEvents.CHANNEL_CREATE c (CHANNEL_CREATE data c).
Proof. plain_emit CHANNEL_CREATE. Qed.

Lemma CHANNEL_DELETE_control data c :
  emitsOnly ClientEvents.CHANNEL_DELETE c (CHANNEL_DELETE data c).
Proof. plain_emit CHANNEL_DELETE. Qed.

Lemma CHANNEL_RECIPIENT_ADD_control data c :
  emitsOnly ClientEvents.CHANNEL_RECIPIENT_ADD c
    (CHANNEL_RECIPIENT_ADD data c).
Proof. plain_emit CHANNEL_RECIPIENT_ADD. Qed.

Lemma CHANNEL_RECIPIENT_REMOVE_control data c :
  emitsOnly ClientEvents.CHANNEL_RECIPIENT_REMOVE c
    (CHANNEL_RECIPIENT_REMOVE data c).
Proof. plain_emit CHANNEL_RECIPIENT_REMOVE. Qed.

Lemma FRIEND_SUGGESTION_CREATE_control data c :
  emitsOnly ClientEvents.FRIEND_SUGGESTION_CREATE c
    (FRIEND_SUGGESTION_CREATE data c).
Proof. plain_emit FRIEND_SUGGESTION_CREATE. Qed.

Lemma FRIEND_SUGGESTION_DELETE_control data c :
  emitsOnly ClientEvents.FRIEND_SUGGESTION_DELETE c
    (FRIEND_SUGGESTION_DELETE data c).
Proof. plain_emit FRIEND_SUGGESTION_DELETE. Qed.

Lemma GIFT_CODE_UPDATE_control data c :
  emitsOnly ClientEvents.GIFT_CODE_UPDATE c (GIFT_CODE_UPDATE data c).
Proof. plain_emit GIFT_CODE_UPDATE. Qed.

Lemma GUILD_EMOJIS_UPDATE_control data c :
  emitsOnly ClientEvents.GUILD_EMOJIS_UPDATE c (GUILD_EMOJIS_UPDATE data c).
Proof.
  unfold GUILD_EMOJIS_UPDATE. cbv zeta.
  pose proof (GUILD_EMOJIS_UPDATE_emojis_field control
                (RawEmojisUpdate.guild_id data) (RawEmojisUpdate.emojis data)
                c (λ _ _, eq_refl)) as He.
  destruct (GUILD_EMOJIS_UPDATE_emojis _ _ c) as [collected c1].
  cbn [snd] in He.
  repeat (case_match; simplify_eq); only_emit;
    unfold control in *; simpl; congruence.
Qed.

Lemma GUILD_INTEGRATIONS_UPDATE_control data c :
  emitsOnly ClientEvents.GUILD_INTEGRATIONS_UPDATE c
    (GUILD_INTEGRATIONS_UPDATE data c).
Proof. plain_emit GUILD_INTEGRATIONS_UPDATE. Qed.

Lemma GUILD_MEMBER_ADD_control data c :
  emitsOnly ClientEvents.GUILD_MEMBER_ADD c (GUILD_MEMBER_ADD data c).
Proof.
  unfold GUILD_MEMBER_ADD. cbv zeta.
  repeat (case_match; simplify_eq); only_emit;
    rewrite ?(adjustMemberCount_field control) by reflexivity;
    rewrite ?(Members_insert_field control) by reflexivity;
    reflexivity.
Qed.

Lemma GUILD_MEMBER_LIST_UPDATE_control data c :
  emitsOnly ClientEvents.GUILD_MEMBER_LIST_UPDATE c
    (GUILD_MEMBER_LIST_UPDATE data c).
Proof. plain_emit GUILD_MEMBER_LIST_UPDATE. Qed.

Lemma GUILD_MEMBER_REMOVE_control data c :
  emitsOnly ClientEvents.GUILD_MEMBER_REMOVE c (GUILD_MEMBER_REMOVE data c).
Proof.
  unfold GUILD_MEMBER_REMOVE. cbv zeta.
  repeat (case_match; simplify_eq); only_emit;
    rewrite ?(adjustMemberCount_field control) by reflexivity;
    reflexivity.
Qed.

Lemma GUILD_ROLE_CREATE_control data c :
  emitsOnly ClientEvents.GUILD_ROLE_CREATE c (GUILD_ROLE_CREATE data c).
Proof. plain_emit GUILD_ROLE_CREATE. Qed.

Lemma GUILD_ROLE_DELETE_control data c :
  emitsOnly ClientEvents.GUILD_ROLE_DELETE c (GUILD_ROLE_DELETE data c).
Proof. plain_emit GUILD_ROLE_DELETE. Qed.

Lemma GUILD_ROLE_UPDATE_control data c :
  emitsOnly ClientEvents.GUILD_ROLE_UPDATE c (GUILD_ROLE_UPDATE data c).
Proof. plain_emit GUILD_ROLE_UPDATE. Qed.

Lemma MESSAGE_CREATE_control data c :
  emitsOnly ClientEvents.MESSAGE_CREATE c (MESSAGE_CREATE data c).
Proof. plain_emit MESSAGE_CREATE. Qed.

Lemma MESSAGE_DELETE_control data c :
  emitsOnly ClientEvents.MESSAGE_DELETE c (MESSAGE_DELETE data c).
Proof. plain_emit MESSAGE_DELETE. Qed.

Lemma MESSAGE_DELETE_BULK_control data c :
  emitsOnly ClientEvents.MESSAGE_DELETE_BULK c (MESSAGE_DELETE_BULK data c).
Proof.
  unfold MESSAGE_DELETE_BULK. cbv zeta.
  pose proof (MESSAGE_DELETE_BULK_messages_field control
                (RawMessageDeleteBulk.ids data) ∅ c (λ _ _, eq_refl)) as Hm.
  destruct (foldl MESSAGE_DELETE_BULK_message _ _) as [collected c1].
  cbn [snd] in Hm. only_emit; unfold control in *; simpl; congruence.
Qed.

Lemma MESSAGE_REACTION_ADD_control data c :
  emitsOnly ClientEvents.MESSAGE_REACTION_ADD c (MESSAGE_REACTION_ADD data c).
Proof. plain_emit MESSAGE_REACTION_ADD. Qed.

Lemma MESSAGE_REACTION_REMOVE_ALL_control data c :
  emitsOnly ClientEvents.MESSAGE_REACTION_REMOVE_ALL c
    (MESSAGE_REACTION_REMOVE_ALL data c).
Proof. plain_emit MESSAGE_REACTION_REMOVE_ALL. Qed.

Lemma PRESENCES_REPLACE_control data c :
  emitsOnly ClientEvents.PRESENCES_REPLACE c (PRESENCES_REPLACE data c).
Proof.
  unfold PRESENCES_REPLACE. cbv zeta.
  destruct (RawPresencesReplace.presences data) as [raws|]; [|only_emit].
  pose proof (PRESENCES_REPLACE_presences_field control raws ∅ c
                (λ _ _ _ _, eq_refl)) as Hp.
  destruct (foldl PRESENCES_REPLACE_presence _ _) as [collected c1].
  cbn [snd] in Hp. only_emit; unfold control in *; simpl; congruence.
Qed.

Lemma RELATIONSHIP_REMOVE_control data c :
  emitsOnly ClientEvents.RELATIONSHIP_REMOVE c (RELATIONSHIP_REMOVE data c).
Proof. plain_emit RELATIONSHIP_REMOVE. Qed.

Lemma STREAM_CREATE_control data c :
  emitsOnly ClientEvents.STREAM_CREATE c (STREAM_CREATE data c).
Proof. plain_emit STREAM_CREATE. Qed.

Lemma STREAM_DELETE_control data c :
  emitsOnly ClientEvents.STREAM_DELETE c (STREAM_DELETE data c).
Proof. plain_emit STREAM_DELETE. Qed.

Lemma STREAM_SERVER_UPDATE_control data c :
  emitsOnly ClientEvents.STREAM_SERVER_UPDATE c (STREAM_SERVER_UPDATE data c).
Proof. plain_emit STREAM_SERVER_UPDATE. Qed.

Lemma STREAM_UPDATE_control data c :
  emitsOnly ClientEvents.STREAM_UPDATE c (STREAM_UPDATE data c).
Proof. plain_emit STREAM_UPDATE. Qed.

Lemma TYPING_START_control data c :
  emitsOnly ClientEvents.TYPING_START c (TYPING_START data c).
Proof.
  unfold TYPING_START. cbv zeta.
  repeat (case_match; simplify_eq); only_emit;
    rewrite ?(TypingCollection_insert_field control) by reflexivity;
    reflexivity.
Qed.

Lemma USER_NOTE_UPDATE_control data c :
  emitsOnly ClientEvents.USER_NOTE_UPDATE c (USER_NOTE_UPDATE data c).
Proof. plain_emit USER_NOTE_UPDATE. Qed.

Lemma USER_UPDATE_control data c :
  emitsOnly ClientEvents.USER_UPDATE c (USER_UPDATE data c).
Proof. plain_emit USER_UPDATE. Qed.

Lemma VOICE_SERVER_UPDATE_control data c :
  emitsOnly ClientEvents.VOICE_SERVER_UPDATE c (VOICE_SERVER_UPDATE data c).
Proof. plain_emit VOICE_SERVER_UPDATE. Qed.

Lemma VOICE_STATE_UPDATE_control data c :
  emitsOnly ClientEvents.VOICE_STATE_UPDATE c (VOICE_STATE_UPDATE data c).
Proof.
  unfold VOICE_STATE_UPDATE, computed. cbv zeta.
  repeat (case_match; simplify_eq); only_emit;
    rewrite ?(VoiceStates_insert_field control) by reflexivity;
    reflexivity.
Qed.

Lemma WEBHOOKS_UPDATE_control data c :
  emitsOnly ClientEvents.WEBHOOKS_UPDATE c (WEBHOOKS_UPDATE data c).
Proof. plain_emit WEBHOOKS_UPDATE. Qed.

Lemma emitsOnly_emitsOne name c c' : emitsOnly name c c' → emitsOne name c c'.
Proof.
  intros [payload H]. exists payload. unfold control in H. by simplify_eq/=.
Qed.

(** C7 as stated fails: [CHANNEL_PINS_ACK] has a registered handler and
    processing it emits no notification. *)
Lemma CHANNEL_PINS_ACK_emits_nothing :
  GatewayHandler.getHandler "CHANNEL_PINS_ACK"
  = Some GatewayDispatchEvents.CHANNEL_PINS_ACK
  ∧ emitted (call GatewayDispatchEvents.CHANNEL_PINS_ACK (D_Other ∅) client0)
    = emitted client0.
Proof. split; reflexivity. Qed.

(** C7, amended.  Processing an event on a payload of the shape its
    handler declares: a handler with an empty body leaves the client as it
    is, and so emits nothing; every other handler but
    [CHANNEL_PINS_UPDATE] adds exactly one notification to those emitted,
    named after the normalised identifier of the event. *)
Theorem call_emits_normalized (handler : GatewayDispatchEvents.t)
    (data : PacketData) (c : Client) :
  typed handler data = true →
  (emptyBody handler = true → call handler data c = c)
  ∧ (emptyBody handler = false →
     handler ≠ GatewayDispatchEvents.CHANNEL_PINS_UPDATE →
     ∃ payload,
       emitted (call handler data c)
       = emitted c
         ++ [Notification.mk (Named (ClientEvents.normalized handler))
               payload]).
Proof.
  intros Htyped. split.
  - intros Hempty. by destruct handler.
  - intros Hbody Hpins.
    change (emitsOne (ClientEvents.normalized handler) c
              (call handler data c)).
    destruct handler; try discriminate Hbody; try congruence;
      destruct data; try discriminate Htyped;
      cbn [call ClientEvents.normalized];
      first
        [ eexists; apply READY_emitted
        | apply CALL_UPDATE_emitted | apply CHANNEL_UPDATE_emitted
        | apply GUILD_BAN_ADD_emitted
        | apply GUILD_BAN_REMOVE_emitted | apply GUILD_CREATE_emitted
        | apply GUILD_DELETE_emitted | apply GUILD_MEMBER_UPDATE_emitted
        | apply GUILD_MEMBERS_CHUNK_emitted | apply GUILD_UPDATE_emitted
        | apply MESSAGE_REACTION_REMOVE_emitted
        | apply MESSAGE_UPDATE_emitted | apply PRESENCE_UPDATE_emitted
        | apply RELATIONSHIP_ADD_emitted
        | apply emitsOnly_emitsOne;
          first
            [ apply RESUMED_control | apply CALL_CREATE_control
            | apply CALL_DELETE_control | apply CHANNEL_CREATE_control
            | apply CHANNEL_DELETE_control
            | apply CHANNEL_RECIPIENT_ADD_control
            | apply CHANNEL_RECIPIENT_REMOVE_control
            | apply FRIEND_SUGGESTION_CREATE_control
            | apply FRIEND_SUGGESTION_DELETE_control
            | apply GIFT_CODE_UPDATE_control
            | apply GUILD_EMOJIS_UPDATE_control
            | apply GUILD_INTEGRATIONS_UPDATE_control
            | apply GUILD_MEMBER_ADD_control
            | apply GUILD_MEMBER_LIST_UPDATE_control
            | apply GUILD_MEMBER_REMOVE_control
            | apply GUILD_ROLE_CREATE_control
            | apply GUILD_ROLE_DELETE_control
            | apply GUILD_ROLE_UPDATE_control | apply MESSAGE_CREATE_control
            | apply MESSAGE_DELETE_control
            | apply MESSAGE_DELETE_BULK_control
            | apply MESSAGE_REACTION_ADD_control
            | apply MESSAGE_REACTION_REMOVE_ALL_control
            | apply PRESENCES_REPLACE_control
            | apply RELATIONSHIP_REMOVE_control | apply STREAM_CREATE_control
            | apply STREAM_DELETE_control
            | apply STREAM_SERVER_UPDATE_control | apply STREAM_UPDATE_control
            | apply TYPING_START_control | apply USER_NOTE_UPDATE_control
            | apply USER_UPDATE_control | apply VOICE_SERVER_UPDATE_control
            | apply VOICE_STATE_UPDATE_control
            | apply WEBHOOKS_UPDATE_control ] ].
Qed.

(** C7, amended, at [GUILD_CREATE]. *)
Lemma call_emits_normalized_witness :
  ∃ payload,
    emitted (call GatewayDispatchEvents.GUILD_CREATE (D_Guild guildLarge)
               client0)
    = emitted client0
      ++ [Notification.mk (Named ClientEvents.GUILD_CREATE) payload].
Proof.
  apply (call_emits_normalized GatewayDispatchEvents.GUILD_CREATE
           (D_Guild guildLarge) client0); [reflexivity|reflexivity|].
  discriminate.
Defined.

(** C8 as stated fails: with ["guild_create"] on the deny-list, a packet
    named ["guild_create"] matches it whatever the case and yet reaches the
    unknown-event notification, the set holding ["GUILD_CREATE"] only. *)
Lemma onPacket_lowercase_name_reaches_unknown :
  let c := GatewayHandler.new denyLower client0 in
  toUpperCase (GatewayPacket.t_ packetLower) = toUpperCase "guild_create"
  ∧ Notification.name <$> emitted (GatewayHandler.onPacket call packetLower c)
    = [Named ClientEvents.UNKNOWN; Literal "guild_create"].
Proof. vm_compute. split; reflexivity. Qed.

(** A dispatch packet whose name is in [disabledEvents] only gets the raw
    passthrough, whatever the handlers do. *)
Lemma onPacket_in_disabledEvents
    (call : GatewayDispatchEvents.t → PacketData → Client → Client)
    (c : Client) (packet : GatewayPacket.t) :
  GatewayPacket.op packet = GatewayOpCodes.DISPATCH →
  GatewayPacket.t_ packet ∈ disabledEvents c →
  GatewayHandler.onPacket call packet c
  = if emitRawEvent c
    then emit (Named ClientEvents.RAW_EVENT)
           (P_Raw (GatewayPacket.t_ packet) (GatewayPacket.d packet)) c
    else c.
Proof.
  intros Hop Hd. unfold GatewayHandler.onPacket.
  rewrite Hop. simpl.
  destruct (emitRawEvent c).
  - change (disabledEvents (emit _ _ c)) with (disabledEvents c).
    rewrite bool_decide_eq_true_2 by exact Hd. reflexivity.
  - rewrite bool_decide_eq_true_2 by exact Hd. reflexivity.
Qed.

(** C8, amended.  The deny-list is upper-cased when the handler is
    built and the name of a packet is compared as it is: for a dispatch
    packet whose name is the upper-cased form of an entry, the router
    stops after the optional raw passthrough; whatever the handlers do,
    none is called and no unknown-event notification is emitted. *)
Theorem onPacket_disabled
    (call : GatewayDispatchEvents.t → PacketData → Client → Client)
    (options : GatewayHandlerOptions.t) (c0 : Client)
    (packet : GatewayPacket.t) :
  let c := GatewayHandler.new options c0 in
  GatewayPacket.op packet = GatewayOpCodes.DISPATCH →
  GatewayPacket.t_ packet
    ∈ toUpperCase <$> default [] (GatewayHandlerOptions.disabledEvents options) →
  GatewayHandler.onPacket call packet c
  = if emitRawEvent c
    then emit (Named ClientEvents.RAW_EVENT)
           (P_Raw (GatewayPacket.t_ packet) (GatewayPacket.d packet)) c
    else c.
Proof.
  intros c Hop Hin. apply onPacket_in_disabledEvents; [exact Hop|].
  subst c. unfold GatewayHandler.new. simpl.
  apply elem_of_list_to_set. exact Hin.
Qed.

(** C8, amended, at a packet named ["GUILD_CREATE"] with ["guild_create"]
    on the deny-list. *)
Lemma onPacket_disabled_witness :
  Notification.name
    <$> emitted (GatewayHandler.onPacket call packetUpper
                   (GatewayHandler.new denyLower client0)) = [].
Proof.
  rewrite (onPacket_disabled call denyLower client0 packetUpper).
  - reflexivity.
  - reflexivity.
  - vm_compute. apply list_elem_of_here.
Defined.

(** C6 (the code departs from it).  With no observer registered,
    [MESSAGE_UPDATE] of a cached message and [RELATIONSHIP_ADD] of a cached
    relationship emit [undefined] differences, not [null]: their
    [differences] variable has no initial value, unlike that of the other
    update handlers. *)
Theorem MESSAGE_UPDATE_unobserved_differences_undefined :
  hasEventListener ClientEvents.MESSAGE_UPDATE clientMessage = false
  ∧ Repo.has "M" (messages clientMessage) = true
  ∧ lastDifferences (MESSAGE_UPDATE editM clientMessage) = Some undefined
  ∧ hasEventListener ClientEvents.RELATIONSHIP_ADD clientMessage = false
  ∧ lastDifferences (RELATIONSHIP_ADD editR clientMessage) = Some undefined.
Proof. vm_compute. repeat split; reflexivity. Qed.

Lemma lastDifferences_emit name payload c :
  lastDifferences (emit name payload c)
  = differencesOf (Notification.mk name payload).
Proof. unfold lastDifferences, emit. simpl. by rewrite last_snoc. Qed.

(** [GUILD_UPDATE] with no observer emits [null] differences and calls no
    [differences] method; with an observer and a cached guild it emits
    the differences of the guild as it was before the merge. *)
Lemma GUILD_UPDATE_differences data c :
  let c' := GUILD_UPDATE data c in
  (hasEventListener ClientEvents.GUILD_UPDATE c = false →
   lastDifferences c' = Some null
   ∧ differencesCalls c' = differencesCalls c)
  ∧ (∀ guild,
       hasEventListener ClientEvents.GUILD_UPDATE c = true →
       Repo.get (RawGuild.id data) (guilds c) = Some guild →
       lastDifferences c' = Some (changed (Guild.differences guild data))
       ∧ differencesCalls c' = S (differencesCalls c)).
Proof.
  unfold GUILD_UPDATE, computed. cbv zeta. split.
  - intros ->. destruct (Repo.get (RawGuild.id data) (guilds c)); simpl;
      rewrite lastDifferences_emit; done.
  - intros guild -> ->. simpl. rewrite lastDifferences_emit. done.
Qed.

(** The same for [CALL_UPDATE]. *)
Lemma CALL_UPDATE_differences data c :
  let c' := CALL_UPDATE data c in
  (hasEventListener ClientEvents.CALL_UPDATE c = false →
   lastDifferences c' = Some null
   ∧ differencesCalls c' = differencesCalls c)
  ∧ (∀ call,
       hasEventListener ClientEvents.CALL_UPDATE c = true →
       Repo.get (Obj.id data) (voiceCalls c) = Some call →
       lastDifferences c' = Some (changed (Obj.differences call data))
       ∧ differencesCalls c' = S (differencesCalls c)).
Proof.
  unfold CALL_UPDATE, computed. cbv zeta. split.
  - intros ->. destruct (Repo.get (Obj.id data) (voiceCalls c)); simpl;
      rewrite lastDifferences_emit; done.
  - intros call -> ->. simpl. rewrite lastDifferences_emit. done.
Qed.

(** The same for [CHANNEL_UPDATE]. *)
Lemma CHANNEL_UPDATE_differences data c :
  let c' := CHANNEL_UPDATE data c in
  (hasEventListener ClientEvents.CHANNEL_UPDATE c = false →
   lastDifferences c' = Some null
   ∧ differencesCalls c' = differencesCalls c)
  ∧ (∀ channel,
       hasEventListener ClientEvents.CHANNEL_UPDATE c = true →
       Repo.get (Obj.id data) (channels c) = Some channel →
       lastDifferences c' = Some (changed (Obj.differences channel data))
       ∧ differencesCalls c' = S (differencesCalls c)).
Proof.
  unfold CHANNEL_UPDATE, computed. cbv zeta. split.
  - intros ->. destruct (Repo.get (Obj.id data) (channels c)); simpl;
      rewrite lastDifferences_emit; done.
  - intros channel -> ->. simpl. rewrite lastDifferences_emit. done.
Qed.

Lemma Members_insert_differencesCalls member c :
  differencesCalls (Members.insert member c) = differencesCalls c.
Proof. by apply (Members_insert_field differencesCalls). Qed.

Lemma PRESENCE_UPDATE_tail data c :
  let '(presence, c1) := Presences.add data c in
  ∀ c2 member,
    (if truthy (RawPresence.guild_id data) then
       let rawMember :=
         {| RawMember.guild_id := RawPresence.guild_id data;
            RawMember.nick := RawPresence.nick data;
            RawMember.premium_since := RawPresence.premium_since data;
            RawMember.roles := Some (default [] (RawPresence.roles data));
            RawMember.user := RawPresence.user data |} in
       match Members.get (RawPresence.guild_id data)
               (Some (Obj.id (RawPresence.user data))) (members c1) with
       | GotEntity member =>
           (Some member,
            with_memberObjs (alter (Member.merge rawMember) member) c1)
       | _ =>
           let member := length (memberObjs c1) in
           let c := with_memberObjs (λ objs, objs ++ [Member.new rawMember]) c1 in
           (Some member, Members.insert member c)
       end
     else (None, c1)) = (member, c2) →
    differencesCalls c2 = differencesCalls c.
Proof.
  pose proof (Presences_add_field differencesCalls data c
                (λ _ _ _ _, eq_refl)) as Ha.
  destruct (Presences.add data c) as [presence c1]. simpl in Ha.
  intros c2 member H.
  repeat (case_match; simplify_eq); cbv zeta in *; simplify_eq;
    rewrite ?Members_insert_differencesCalls; simpl; congruence.
Qed.

(** The same for [PRESENCE_UPDATE], on the presence cached under the key
    of the payload. *)
Lemma PRESENCE_UPDATE_differences data c :
  let c' := PRESENCE_UPDATE data c in
  let cacheId := js_or (RawPresence.guild_id data) DEFAULT_PRESENCE_CACHE_KEY in
  let userId := Obj.id (RawPresence.user data) in
  (hasEventListener ClientEvents.PRESENCE_UPDATE c = false →
   lastDifferences c' = Some null
   ∧ differencesCalls c' = differencesCalls c)
  ∧ (∀ presence p,
       hasEventListener ClientEvents.PRESENCE_UPDATE c = true →
       Presences.get (Some cacheId) (Some userId) (presences c)
       = GotEntity presence →
       presenceObjs c !! presence = Some p →
       lastDifferences c' = Some (changed (Presence.differences p data))
       ∧ differencesCalls c' = S (differencesCalls c)).
Proof.
  unfold PRESENCE_UPDATE. cbv zeta. split.
  - intros ->.
    pose proof (PRESENCE_UPDATE_tail data c) as Ht.
    destruct (Presences.add data c) as [presence c1].
    match goal with
    | |- context [let '(m, c) := ?X in _] => destruct X as [member c2] eqn:E
    end.
    rewrite lastDifferences_emit. split; [done|].
    change (differencesCalls (emit _ _ c2)) with (differencesCalls c2).
    by eapply Ht.
  - intros presence p -> -> ->. unfold computed.
    pose proof (PRESENCE_UPDATE_tail data (with_differencesCalls S c)) as Ht.
    destruct (Presences.add data (with_differencesCalls S c))
      as [presence' c1].
    match goal with
    | |- context [let '(m, c) := ?X in _] => destruct X as [member c2] eqn:E
    end.
    rewrite lastDifferences_emit. split; [done|].
    change (differencesCalls (emit _ _ c2)) with (differencesCalls c2).
    by erewrite Ht.
Qed.

(** ** Tiered caches *)

Lemma Members_delete_eq : Members.delete = Presences.delete.
Proof. reflexivity. Qed.
Lemma Members_get_eq : Members.get = Presences.get.
Proof. reflexivity. Qed.
Lemma Members_has_eq : Members.has = Presences.has.
Proof. reflexivity. Qed.
Lemma Members_insertCache_eq : Members.insertCache = Presences.insertCache.
Proof. reflexivity. Qed.

Lemma Presences_has_get cacheId userId this :
  Presences.has (Some cacheId) (Some userId) this = true
  ↔ ∃ entity, Presences.get (Some cacheId) (Some userId) this = GotEntity entity.
Proof.
  unfold Presences.has, Presences.get.
  destruct (Tier.enabled this); [|split; [done|by intros [? ?]]].
  destruct (Tier.cache this !! cacheId) as [cache|];
    [|split; [done|by intros [? ?]]].
  destruct (cache !! userId) as [entity|]; simpl.
  - split; [eauto|done].
  - split; [done|by intros [? ?]].
Qed.

Lemma Presences_delete_tier_enabled cacheId userId this :
  Tier.enabled (Presences.delete cacheId userId this).2 = Tier.enabled this.
Proof.
  unfold Presences.delete. repeat case_match; try done.
  simplify_eq.
  match goal with
  | |- context [foldl ?f _ _] =>
      assert (Hfold : ∀ xs acc, Tier.enabled (foldl f acc xs).2
                            = Tier.enabled acc.2)
  end.
  { induction xs as [|[k v] xs IH]; intros [d acc]; simpl; [done|].
    rewrite IH. by case_match. }
  by rewrite Hfold.
Qed.

Lemma Presences_delete_tier_gone cacheId this :
  let this' := (Presences.delete (Some cacheId) None this).2 in
  Presences.has (Some cacheId) None this' = false
  ∧ Presences.get (Some cacheId) None this' = GotUndefined
  ∧ (∀ userId,
       Presences.has (Some cacheId) (Some userId) this' = false
       ∧ Presences.get (Some cacheId) (Some userId) this' = GotUndefined)
  ∧ (Tier.enabled this = true → Tier.cache this' !! cacheId = None).
Proof.
  unfold Presences.delete, Presences.has, Presences.get.
  destruct (Tier.enabled this) eqn:He; simpl; [|rewrite He; done].
  destruct (Tier.cache this !! cacheId) as [cache|] eqn:Hc; simpl;
    rewrite He, ?lookup_delete_eq, ?Hc; done.
Qed.

(** ** The emoji walk of [GUILD_DELETE] *)







(** ** The chunk coordination of [READY] *)

Lemma Guild_new_id raw : Guild.id (Guild.new raw) = RawGuild.id raw.
Proof. reflexivity. Qed.

Lemma Guild_merge_id raw g : Guild.id (Guild.merge raw g) = Guild.id g.
Proof. reflexivity. Qed.

(** One turn of the guild loop of [READY] on a guild that is not cached
    yet. *)
Lemma READY_guild_new raw c :
  let guildId := RawGuild.id raw in
  let guild := Guild.new raw in
  let c' := READY_guild raw c in
  Repo.get guildId (guilds c) = None →
  Repo.enabled (guilds c) = true →
  shouldLoadAllMembers c = true →
  Repo.enabled (guilds c') = true
  ∧ shouldLoadAllMembers c' = true
  ∧ largeThreshold c' = largeThreshold c
  ∧ Repo.get guildId (guilds c') = Some guild
  ∧ (∀ k, k ≠ guildId → Repo.get k (guilds c') = Repo.get k (guilds c))
  ∧ (∀ k, k ≠ guildId → k ∈ memberChunksLeft c' ↔ k ∈ memberChunksLeft c)
  ∧ (guildId ∈ memberChunksLeft c' ↔ Guild.unavailable guild = true)
  ∧ requestedGuildMembers c'
    = requestedGuildMembers c
      ++ (if negb (Guild.unavailable guild)
             && bool_decide (guildId ∈ memberChunksLeft c)
             && (largeThreshold c <? Guild.memberCount guild)%Z
          then [rosterRequest guildId] else []).
Proof.
  intros guildId guild c' Hnone Hen Hload. subst c'. unfold READY_guild.
  fold guildId. rewrite Hnone. fold guild.
  change (Guild.id guild) with guildId. clearbody guild guildId.
  assert (Hins : with_guilds (Repo.insert guildId guild) c
                 = with_guilds (Repo.set guildId guild) c).
  { unfold with_guilds, Repo.insert. by rewrite Hen. }
  rewrite Hins. clear Hins.
  change (shouldLoadAllMembers (with_guilds _ c)) with (shouldLoadAllMembers c).
  rewrite Hload.
  assert (Hsame : Repo.get guildId (Repo.set guildId guild (guilds c))
                  = Some guild).
  { apply lookup_insert_eq. }
  assert (Hother : ∀ k, k ≠ guildId →
            Repo.get k (Repo.set guildId guild (guilds c))
            = Repo.get k (guilds c)).
  { intros k Hk. by apply lookup_insert_ne. }
  assert (Hnin : bool_decide (guildId ∈ memberChunksLeft c) = false →
                 guildId ∉ memberChunksLeft c)
    by apply bool_decide_eq_false_1.
  destruct (Guild.unavailable guild) eqn:Hun;
    [|destruct (bool_decide (guildId ∈ memberChunksLeft c)) eqn:Hin;
      [destruct (largeThreshold c <? Guild.memberCount guild)%Z eqn:Hlt|]];
    split_and!; simpl; rewrite ?Hin, ?Hlt; simpl; rewrite ?app_nil_r;
    try done; try (intros k Hk);
    rewrite ?elem_of_union, ?elem_of_difference, ?elem_of_singleton;
    try (by apply Hother); intuition congruence.
Qed.

(** The guild loop of [READY] on guilds with distinct ids, none cached:
    every guild is cached as built from its payload, the unavailable ones
    are exactly those left pending, and requests go only to available
    guilds that were pending before and are above the threshold. *)
Lemma READY_guild_fold l : ∀ c,
  NoDup (RawGuild.id <$> l) →
  (∀ raw, raw ∈ l → Repo.get (RawGuild.id raw) (guilds c) = None) →
  Repo.enabled (guilds c) = true →
  shouldLoadAllMembers c = true →
  let c' := foldl (λ c raw, READY_guild raw c) c l in
  shouldLoadAllMembers c' = true
  ∧ largeThreshold c' = largeThreshold c
  ∧ (∀ raw, raw ∈ l →
       Repo.get (RawGuild.id raw) (guilds c') = Some (Guild.new raw))
  ∧ (∀ raw, raw ∈ l →
       RawGuild.id raw ∈ memberChunksLeft c'
       ↔ Guild.unavailable (Guild.new raw) = true)
  ∧ (∀ k, k ∉ (RawGuild.id <$> l) →
       (k ∈ memberChunksLeft c' ↔ k ∈ memberChunksLeft c)
       ∧ Repo.get k (guilds c') = Repo.get k (guilds c))
  ∧ ∃ new,
      requestedGuildMembers c' = requestedGuildMembers c ++ new
      ∧ ∀ r, r ∈ new →
          ∃ raw, raw ∈ l
                 ∧ r = rosterRequest (RawGuild.id raw)
                 ∧ Guild.unavailable (Guild.new raw) = false
                 ∧ RawGuild.id raw ∈ memberChunksLeft c
                 ∧ (largeThreshold c < Guild.memberCount (Guild.new raw))%Z.
Proof.
  induction l as [|x l IH]; intros c Hnd Hnone Hen Hload; cbn [foldl].
  - split_and!; try done.
    + intros raw Hin. by apply elem_of_nil in Hin.
    + intros raw Hin. by apply elem_of_nil in Hin.
    + exists []. split; [by rewrite app_nil_r|].
      intros r Hin. by apply elem_of_nil in Hin.
  - rewrite fmap_cons in Hnd. apply NoDup_cons in Hnd as [Hx Hnd].
    destruct (READY_guild_new x c) as (Hen1 & Hload1 & Hth1 & Hget1 & Hoth1
                                       & Hpoth1 & Hp1 & Hreq1);
      [apply Hnone; left|done|done|].
    assert (Hne : ∀ raw, raw ∈ l → RawGuild.id raw ≠ RawGuild.id x).
    { intros raw Hin Heq. apply Hx. rewrite <- Heq.
      apply list_elem_of_fmap. eauto. }
    destruct (IH (READY_guild x c)) as (Hload' & Hth' & Hget' & Hp' & Hoth'
                                        & new & Hreq' & Hnew');
      [done| |done|done|].
    { intros raw Hin. rewrite Hoth1 by (by apply Hne).
      apply Hnone. by right. }
    split; [done|]. split; [congruence|].
    split; [|split; [|split]].
    + intros raw [->|Hin]%elem_of_cons; [|by apply Hget'].
      destruct (Hoth' (RawGuild.id x) Hx) as [_ ->]. exact Hget1.
    + intros raw [->|Hin]%elem_of_cons; [|by apply Hp'].
      destruct (Hoth' (RawGuild.id x) Hx) as [-> _]. exact Hp1.
    + intros k Hk. rewrite fmap_cons in Hk.
      apply not_elem_of_cons in Hk as [Hkx Hk].
      destruct (Hoth' k Hk) as [-> ->].
      split; [by apply Hpoth1|by apply Hoth1].
    + eexists. split.
      { rewrite Hreq', Hreq1, <- app_assoc. reflexivity. }
      intros r [Hin|Hin]%elem_of_app.
      * exists x. split; [by left|].
        revert Hin. generalize (Guild.new x) as g. intros g Hin.
        destruct (Guild.unavailable g); cbn [negb andb] in Hin;
          [by apply elem_of_nil in Hin|].
        destruct (bool_decide (RawGuild.id x ∈ memberChunksLeft c)) eqn:Hb;
          cbn [negb andb] in Hin; [|by apply elem_of_nil in Hin].
        destruct (largeThreshold c <? Guild.memberCount g)%Z
          eqn:Hlt; [|by apply elem_of_nil in Hin].
        apply list_elem_of_singleton in Hin.
        apply bool_decide_eq_true_1 in Hb. apply Z.ltb_lt in Hlt.
        by split_and!.
      * destruct (Hnew' r Hin) as (raw & Hraw & -> & Hun & Hpen & Hlt).
        exists raw. split; [by right|]. split; [done|]. split; [done|].
        split; [|by rewrite <- Hth1].
        by apply Hpoth1; [apply Hne|].
Qed.

Lemma READY_emit_field {B} (f : Client → B) data c :
  (∀ c g1 g2 g3,
     f (with_restCalls g1 (with_emitted g2 (with_discordTrace g3 c))) = f c) →
  (∀ c g1 g2 g3,
     f (with_owners g1 (with_emitted g2 (with_discordTrace g3 c))) = f c) →
  (∀ c g2 g3, f (with_emitted g2 (with_discordTrace g3 c)) = f c) →
  f (READY_emit data c) = f c.
Proof.
  intros H1 H2 H3. unfold READY_emit, emit. cbv zeta.
  repeat case_match; auto.
Qed.

Lemma READY_coordination data c :
  let c1 := READY_channels data (READY_user data (reset c)) in
  coordination c1 = coordination (with_guilds Repo.clear c)
  ∧ coordination (READY data c) = coordination (READY_guilds data c1).
Proof.
  intros c1. split.
  - subst c1.
    rewrite (READY_channels_field coordination) by reflexivity.
    rewrite (READY_user_field coordination) by reflexivity.
    reflexivity.
  - unfold READY. cbv zeta.
    rewrite (READY_emit_field coordination) by reflexivity.
    rewrite (READY_relationships_field coordination) by reflexivity.
    rewrite (READY_presences_field coordination) by reflexivity.
    rewrite (READY_notes_field coordination) by reflexivity.
    reflexivity.
Qed.

(** C3, amended.  [READY] with bulk member loading and the guild
    repository enabled, on guilds with distinct ids: an unavailable guild
    is left pending and [READY] sends no request for it (the request
    waits for the guild to become available); an available guild at or
    below the threshold gets no request and is cached as built from its
    payload. *)
Theorem READY_pending_without_request (data : RawReady.t) (c : Client)
    (raw : RawGuild.t) :
  let c' := READY data c in
  let guildId := RawGuild.id raw in
  shouldLoadAllMembers c = true →
  Repo.enabled (guilds c) = true →
  NoDup (RawGuild.id <$> RawReady.guilds data) →
  raw ∈ RawReady.guilds data →
  ∃ new,
    requestedGuildMembers c' = requestedGuildMembers c ++ new
    ∧ (Guild.unavailable (Guild.new raw) = true →
       (guildId ∈ memberChunksLeft c')
       ∧ guildId ∉ (Request.guildId <$> new))
    ∧ (Guild.unavailable (Guild.new raw) = false →
       (Guild.memberCount (Guild.new raw) ≤ largeThreshold c)%Z →
       (guildId ∉ (Request.guildId <$> new))
       ∧ Repo.get guildId (guilds c') = Some (Guild.new raw)).
Proof.
  intros c' guildId Hload Hen Hnd Hin. subst c'.
  destruct (READY_coordination data c) as [H1 H2].
  set (c1 := READY_channels data (READY_user data (reset c))) in *.
  unfold coordination in H1, H2. simpl in H1.
  injection H1 as Hg1 Hp1 Hr1 Hl1 Ht1.
  injection H2 as Hg2 Hp2 Hr2 Hl2 Ht2.
  rewrite Hg2, Hp2, Hr2. clear Hg2 Hp2 Hr2 Hl2 Ht2.
  unfold READY_guilds. rewrite Hg1. simpl. rewrite Hen.
  destruct (READY_guild_fold (RawReady.guilds data) c1)
    as (_ & _ & Hget & Hpen & _ & new & Hreq & Hnew).
  { exact Hnd. }
  { intros raw' _. rewrite Hg1. apply lookup_empty. }
  { rewrite Hg1. exact Hen. }
  { rewrite Hl1. exact Hload. }
  exists new. split; [by rewrite Hreq, Hr1|].
  assert (Hunique : ∀ raw', raw' ∈ RawReady.guilds data →
                      RawGuild.id raw' = guildId → raw' = raw).
  { intros raw' Hin' Heq.
    apply list_elem_of_lookup in Hin as [i Hi].
    apply list_elem_of_lookup in Hin' as [j Hj].
    assert (i = j) as ->; [|congruence].
    eapply NoDup_lookup; [exact Hnd| |];
      rewrite list_lookup_fmap; [by rewrite Hi|].
    rewrite Hj. simpl. f_equal. exact Heq. }
  assert (Hreqs : guildId ∈ (Request.guildId <$> new) →
                  Guild.unavailable (Guild.new raw) = false
                  ∧ (largeThreshold c < Guild.memberCount (Guild.new raw))%Z).
  { intros (r & Hr & Hrin)%list_elem_of_fmap.
    destruct (Hnew r Hrin) as (raw' & Hin' & -> & Hun & _ & Hlt).
    simpl in Hr. rewrite (Hunique raw' Hin' (eq_sym Hr)) in Hun, Hlt.
    rewrite <- Ht1. done. }
  split.
  - intros Hun. split; [by apply Hpen|].
    intros [Hav _]%Hreqs. simpl in *. congruence.
  - intros Hav Hle. split; [|by apply Hget].
    intros [_ Hlt]%Hreqs. simpl in *. lia.
Qed.

(** C3 as stated fails: on the snapshot of the scenario (threshold 250,
    guild ["A"] unavailable with 5000 members, guild ["B"] available with
    10) guild ["A"] is pending after [READY] and no request has been
    sent. *)
Lemma READY_unavailable_scope_not_requested :
  let c' := READY readyTwo client0 in
  shouldLoadAllMembers client0 = true
  ∧ largeThreshold client0 = 250%Z
  ∧ bool_decide ("A" ∈ memberChunksLeft c') = true
  ∧ requestedGuildMembers c' = [].
Proof. vm_compute. repeat split; reflexivity. Qed.

(** C3, amended, at guild ["A"] of the scenario. *)
Lemma READY_pending_without_request_witness :
  ∃ new,
    requestedGuildMembers (READY readyTwo client0)
    = requestedGuildMembers client0 ++ new
    ∧ "A" ∈ memberChunksLeft (READY readyTwo client0)
    ∧ "A" ∉ (Request.guildId <$> new).
Proof.
  destruct (READY_pending_without_request readyTwo client0 guildA)
    as (new & Hreq & Hun & _).
  - reflexivity.
  - reflexivity.
  - apply (bool_decide_unpack _). vm_compute. exact I.
  - simpl. left.
  - exists new. split; [exact Hreq|]. apply Hun. reflexivity.
Defined.

(** ** The chunk coordination of [GUILD_CREATE] *)

Lemma resolvedGuild_id data c :
  guildsKeyed c → Guild.id (resolvedGuild data c) = RawGuild.id data.
Proof.
  intros Hk. unfold resolvedGuild.
  destruct (Repo.get _ _) as [g|] eqn:Hg; simpl; [|done].
  by apply Hk in Hg.
Qed.

Lemma shouldLoadAllMembers_loadAllMembers c :
  shouldLoadAllMembers c = true → loadAllMembers c = true.
Proof. unfold shouldLoadAllMembers. by intros [? ?]%andb_prop. Qed.

(** [GUILD_CREATE] with bulk member loading: a request goes out exactly
    when the guild was pending or is new, and is above the threshold; the
    guild is not pending afterwards. *)
Lemma GUILD_CREATE_coordination data c :
  let guildId := RawGuild.id data in
  let guild := resolvedGuild data c in
  let c' := GUILD_CREATE data c in
  shouldLoadAllMembers c = true →
  guildsKeyed c →
  requestedGuildMembers c'
  = requestedGuildMembers c
    ++ (if (bool_decide (guildId ∈ memberChunksLeft c)
            || bool_decide (Repo.get guildId (guilds c) = None))
           && (largeThreshold c <? Guild.memberCount guild)%Z
        then [rosterRequest guildId] else [])
  ∧ (guildId ∉ memberChunksLeft c')
  ∧ (∀ k, k ≠ guildId → k ∈ memberChunksLeft c' ↔ k ∈ memberChunksLeft c)
  ∧ shouldLoadAllMembers c' = true
  ∧ largeThreshold c' = largeThreshold c
  ∧ guildsKeyed c'
  ∧ (Repo.enabled (guilds c) = true ∨ is_Some (Repo.get guildId (guilds c)) →
     Repo.get guildId (guilds c') = Some guild).
Proof.
  intros guildId guild c' Hload Hkeyed.
  pose proof (shouldLoadAllMembers_loadAllMembers c Hload) as Hla.
  pose proof (resolvedGuild_id data c Hkeyed) as Hid.
  fold guild guildId in Hid.
  subst c'. unfold GUILD_CREATE. fold guildId.
  unfold resolvedGuild in guild. fold guildId in guild.
  destruct (Repo.get guildId (guilds c)) as [g|] eqn:Hg; simpl in guild;
    fold guild; clearbody guild guildId; rewrite Hid.
  - change (memberChunksLeft (with_guilds _ c)) with (memberChunksLeft c).
    rewrite (bool_decide_eq_false_2 (Some g = None)) by done.
    rewrite orb_false_r.
    assert (Hk' : guildsKeyed (with_guilds (Repo.set guildId guild) c)).
    { unfold guildsKeyed, Repo.set. simpl. by apply map_Forall_insert_2. }
    destruct (bool_decide (guildId ∈ memberChunksLeft c)) eqn:Hin.
    + change (loadAllMembers (with_guilds _ c)) with (loadAllMembers c).
      rewrite Hla.
      change (largeThreshold (with_guilds _ c)) with (largeThreshold c).
      destruct (largeThreshold c <? Guild.memberCount guild)%Z; simpl;
        rewrite ?app_nil_r; (split_and!; [done| | |done|done|done|]);
        try (intros k Hk);
        rewrite ?elem_of_difference, ?elem_of_singleton;
        try (intuition congruence);
        intros _; apply lookup_insert_eq.
    + apply bool_decide_eq_false_1 in Hin. simpl. rewrite app_nil_r.
      split_and!; try done. intros _. apply lookup_insert_eq.
  - change (shouldLoadAllMembers (with_guilds _ c))
      with (shouldLoadAllMembers c).
    rewrite Hload. rewrite orb_true_r.
    set (c1 := with_guilds (Repo.insert guildId guild) c).
    rewrite (bool_decide_eq_true_2
               (guildId ∈ memberChunksLeft
                  (with_memberChunksLeft (λ left, {[guildId]} ∪ left) c1)))
      by (simpl; set_solver).
    change (loadAllMembers (with_memberChunksLeft _ c1))
      with (loadAllMembers c).
    rewrite Hla.
    change (largeThreshold (with_memberChunksLeft _ c1))
      with (largeThreshold c).
    assert (Hk' : guildsKeyed c1).
    { unfold guildsKeyed, c1, Repo.insert, Repo.set. simpl.
      destruct (Repo.enabled (guilds c)); simpl; [|done].
      by apply map_Forall_insert_2. }
    assert (Hget : Repo.enabled (guilds c) = true ∨ is_Some (@None Guild.t) →
                   Repo.get guildId (guilds c1) = Some guild).
    { intros [Hen|[? ?]]; [|done]. unfold c1, Repo.insert. simpl.
      rewrite Hen. apply lookup_insert_eq. }
    destruct (largeThreshold c <? Guild.memberCount guild)%Z; simpl;
      rewrite ?app_nil_r; (split_and!; [done| | |done|done|done|done]);
      try (intros k Hk);
      rewrite ?elem_of_difference, ?elem_of_union, ?elem_of_singleton;
      intuition congruence.
Qed.

(** One turn of the guild loop of [READY] on a guild that ends
    available. *)
Lemma READY_guild_available data c :
  let guildId := RawGuild.id data in
  let guild := resolvedGuild data c in
  let c' := READY_guild data c in
  shouldLoadAllMembers c = true →
  guildsKeyed c →
  Guild.unavailable guild = false →
  requestedGuildMembers c'
  = requestedGuildMembers c
    ++ (if bool_decide (guildId ∈ memberChunksLeft c)
           && (largeThreshold c <? Guild.memberCount guild)%Z
        then [rosterRequest guildId] else [])
  ∧ (guildId ∉ memberChunksLeft c')
  ∧ shouldLoadAllMembers c' = true
  ∧ guildsKeyed c'
  ∧ (Repo.enabled (guilds c) = true ∨ is_Some (Repo.get guildId (guilds c)) →
     Repo.get guildId (guilds c') = Some guild).
Proof.
  intros guildId guild c' Hload Hkeyed.
  pose proof (resolvedGuild_id data c Hkeyed) as Hid.
  fold guild guildId in Hid.
  subst c'. unfold READY_guild. fold guildId.
  unfold resolvedGuild in guild. fold guildId in guild.
  destruct (Repo.get guildId (guilds c)) as [g|] eqn:Hg; simpl in guild;
    fold guild; clearbody guild guildId; rewrite Hid; intros Hav;
    match goal with
    | |- context [shouldLoadAllMembers ?c1] =>
        change (shouldLoadAllMembers c1) with (shouldLoadAllMembers c);
        change (memberChunksLeft c1) with (memberChunksLeft c);
        change (largeThreshold c1) with (largeThreshold c);
        assert (Hk' : guildsKeyed c1);
        [|assert (Hget : Repo.enabled (guilds c) = true
                         ∨ is_Some (Repo.get guildId (guilds c)) →
                         Repo.get guildId (guilds c1) = Some guild)]
    end.
  - unfold guildsKeyed, Repo.set. simpl. by apply map_Forall_insert_2.
  - intros _. apply lookup_insert_eq.
  - rewrite Hg in Hget. rewrite Hload, Hav.
    destruct (bool_decide (guildId ∈ memberChunksLeft c)) eqn:Hin;
      [destruct (largeThreshold c <? Guild.memberCount guild)%Z|
       apply bool_decide_eq_false_1 in Hin];
      simpl; rewrite ?app_nil_r; split_and!; try done;
      rewrite ?elem_of_difference, ?elem_of_singleton; intuition congruence.
  - unfold guildsKeyed, Repo.insert, Repo.set. simpl.
    destruct (Repo.enabled (guilds c)); simpl; [|done].
    by apply map_Forall_insert_2.
  - intros [Hen|Hsome]; [|by rewrite Hg in Hsome; destruct Hsome].
    unfold Repo.insert. simpl. rewrite Hen. apply lookup_insert_eq.
  - rewrite Hg in Hget. rewrite Hload, Hav.
    destruct (bool_decide (guildId ∈ memberChunksLeft c)) eqn:Hin;
      [destruct (largeThreshold c <? Guild.memberCount guild)%Z|
       apply bool_decide_eq_false_1 in Hin];
      simpl; rewrite ?app_nil_r; split_and!; try done;
      rewrite ?elem_of_difference, ?elem_of_singleton; intuition congruence.
Qed.

(** [GUILD_CREATE] of a cached guild that is not pending sends no
    request. *)
Lemma GUILD_CREATE_cached_not_pending data c guild :
  shouldLoadAllMembers c = true →
  guildsKeyed c →
  Repo.get (RawGuild.id data) (guilds c) = Some guild →
  RawGuild.id data ∉ memberChunksLeft c →
  requestedGuildMembers (GUILD_CREATE data c) = requestedGuildMembers c.
Proof.
  intros Hload Hkeyed Hget Hnin.
  destruct (GUILD_CREATE_coordination data c Hload Hkeyed) as [-> _].
  rewrite (bool_decide_eq_false_2 _ Hnin), Hget.
  rewrite (bool_decide_eq_false_2 (Some guild = None)) by done.
  simpl. by rewrite app_nil_r.
Qed.

(** C4, amended.  With bulk member loading enabled and the guild
    repository keyed by guild id: [GUILD_CREATE] of a guild that is
    pending, or new and hence made pending, sends exactly one roster
    request when the member count exceeds the threshold and none
    otherwise; so does the guild loop of [READY] for a pending guild that
    is available; the guild is not pending afterwards; and, the guild
    repository being enabled, a second [GUILD_CREATE] of the same guild,
    cached by the first signal, sends no request. *)
Theorem chunk_coordination (data data2 : RawGuild.t) (c : Client) :
  let guildId := RawGuild.id data in
  let guild := resolvedGuild data c in
  let created := GUILD_CREATE data c in
  let booted := READY_guild data c in
  let requests :=
    if (largeThreshold c <? Guild.memberCount guild)%Z
    then [rosterRequest guildId] else [] in
  shouldLoadAllMembers c = true →
  guildsKeyed c →
  RawGuild.id data2 = guildId →
  (guildId ∈ memberChunksLeft c ∨ Repo.get guildId (guilds c) = None →
   requestedGuildMembers created = requestedGuildMembers c ++ requests)
  ∧ (guildId ∉ memberChunksLeft created)
  ∧ (Guild.unavailable guild = false →
     guildId ∈ memberChunksLeft c →
     requestedGuildMembers booted = requestedGuildMembers c ++ requests
     ∧ guildId ∉ memberChunksLeft booted)
  ∧ (Repo.enabled (guilds c) = true →
     requestedGuildMembers (GUILD_CREATE data2 created)
     = requestedGuildMembers created
     ∧ (Guild.unavailable guild = false →
        requestedGuildMembers (GUILD_CREATE data2 booted)
        = requestedGuildMembers booted)).
Proof.
  intros guildId guild created booted requests Hload Hkeyed Hid2.
  destruct (GUILD_CREATE_coordination data c Hload Hkeyed)
    as (Hreq & Hnin & _ & Hload' & _ & Hkeyed' & Hget).
  fold guildId guild created in Hreq, Hnin, Hload', Hkeyed', Hget.
  split_and!.
  - intros Hpending. rewrite Hreq. f_equal. subst requests.
    destruct Hpending as [Hin|Hnone].
    + by rewrite (bool_decide_eq_true_2 _ Hin).
    + by rewrite (bool_decide_eq_true_2 _ Hnone), orb_true_r.
  - exact Hnin.
  - intros Hav Hin.
    destruct (READY_guild_available data c Hload Hkeyed Hav)
      as (Hreq' & Hnin' & _).
    fold guildId guild booted in Hreq', Hnin'.
    split; [|exact Hnin']. rewrite Hreq'.
    by rewrite (bool_decide_eq_true_2 _ Hin).
  - intros Hen. split.
    + eapply GUILD_CREATE_cached_not_pending; [done|done| |];
        rewrite Hid2; [apply Hget; by left|exact Hnin].
    + intros Hav.
      destruct (READY_guild_available data c Hload Hkeyed Hav)
        as (_ & Hnin' & Hload'' & Hkeyed'' & Hget').
      fold guildId guild booted in Hnin', Hload'', Hkeyed'', Hget'.
      eapply GUILD_CREATE_cached_not_pending; [done|done| |];
        rewrite Hid2; [apply Hget'; by left|exact Hnin'].
Qed.

(** C4 at a new guild of 5000 members, created twice. *)
Lemma chunk_coordination_witness :
  requestedGuildMembers (GUILD_CREATE guildLarge client0)
  = [rosterRequest "G"]
  ∧ requestedGuildMembers
      (GUILD_CREATE guildSmall (GUILD_CREATE guildLarge client0))
    = [rosterRequest "G"].
Proof.
  destruct (chunk_coordination guildLarge guildSmall client0)
    as (Hreq & _ & _ & Hsecond).
  - reflexivity.
  - apply (bool_decide_unpack _). vm_compute. exact I.
  - reflexivity.
  - assert (Hfirst : requestedGuildMembers (GUILD_CREATE guildLarge client0)
                     = [rosterRequest "G"]).
    { rewrite Hreq; [reflexivity|]. right. reflexivity. }
    split; [exact Hfirst|].
    destruct Hsecond as [-> _]; [reflexivity|exact Hfirst].
Defined.

(** C4 as stated fails: with the guild repository disabled, a guild of
    5000 members created twice gets two roster requests, though the first
    [GUILD_CREATE] left it out of the pending set; the second one finds no
    cached guild and makes it pending again. *)
Lemma GUILD_CREATE_twice_requests_twice :
  let created := GUILD_CREATE guildLarge clientNoGuilds in
  shouldLoadAllMembers clientNoGuilds = true
  ∧ requestedGuildMembers created = [rosterRequest "G"]
  ∧ ("G" ∉ memberChunksLeft created)
  ∧ requestedGuildMembers (GUILD_CREATE guildLarge created)
    = [rosterRequest "G"; rosterRequest "G"].
Proof.
  cbv zeta. split_and!.
  - reflexivity.
  - vm_compute. reflexivity.
  - apply (bool_decide_unpack _). vm_compute. exact I.
  - vm_compute. reflexivity.
Qed.

(** ** Offline presences *)

(** C1 (the code departs from it).  User ["U"] of guild ["G"] goes
    offline while neither cache stores offline entries: after
    [PRESENCE_UPDATE] the presence is gone and the user repository is
    unchanged, but the member, evicted by [Presences.add], is cached again,
    the handler having created it anew; [GUILD_MEMBERS_CHUNK], which merges
    the members before the presences, leaves it evicted. *)
Theorem PRESENCE_UPDATE_offline_member_kept :
  let c' := PRESENCE_UPDATE offlineU clientOnline in
  Tier.storeOffline (presences clientOnline) = false
  ∧ Tier.storeOffline (members clientOnline) = false
  ∧ Presences.has (Some "G") (Some "U") (presences clientOnline) = true
  ∧ Members.has (Some "G") (Some "U") (members clientOnline) = true
  ∧ Presence.isOffline <$> (presenceObjs c' !! 0) = Some true
  ∧ Presences.has (Some "G") (Some "U") (presences c') = false
  ∧ Members.has (Some "G") (Some "U") (members c') = true
  ∧ users c' = users clientOnline
  ∧ Members.has (Some "G") (Some "U")
      (members (GUILD_MEMBERS_CHUNK chunkOffline clientOnline)) = false.
Proof. vm_compute. repeat split; reflexivity. Qed.

Lemma Presences_get_insertCache cacheId cacheId' userId this :
  Presences.get (Some cacheId) (Some userId)
    (Presences.insertCache cacheId' this)
  = Presences.get (Some cacheId) (Some userId) this.
Proof.
  unfold Presences.get, Presences.insertCache.
  case_bool_decide as Hs; [done|]. simpl.
  destruct (Tier.enabled this); [|done].
  destruct (decide (cacheId' = cacheId)) as [->|Hne].
  - rewrite lookup_insert_eq.
    destruct (Tier.cache this !! cacheId) eqn:E; [|done].
    exfalso. apply Hs. eauto.
  - by rewrite lookup_insert_ne.
Qed.

Lemma Presences_delete_entry_gone cacheId userId this :
  let this' := (Presences.delete (Some cacheId) (Some userId) this).2 in
  Presences.has (Some cacheId) (Some userId) this' = false
  ∧ Presences.get (Some cacheId) (Some userId) this' = GotUndefined.
Proof.
  unfold Presences.delete, Presences.has, Presences.get.
  destruct (Tier.enabled this) eqn:He; simpl; [|by rewrite He].
  destruct (Tier.cache this !! cacheId) as [cache|] eqn:Hc; simpl;
    rewrite He, ?lookup_insert_eq, ?Hc, ?lookup_delete_eq; done.
Qed.

Lemma Presences_delete_storeOffline cacheId userId this :
  Tier.storeOffline (Presences.delete cacheId userId this).2
  = Tier.storeOffline this.
Proof.
  unfold Presences.delete. repeat case_match; try done.
  simplify_eq.
  match goal with
  | |- context [foldl ?f _ _] =>
      assert (Hfold : ∀ xs acc, Tier.storeOffline (foldl f acc xs).2
                                = Tier.storeOffline acc.2)
  end.
  { induction xs as [|[k v] xs IH]; intros [d acc]; simpl; [done|].
    rewrite IH. by case_match. }
  by rewrite Hfold.
Qed.

Lemma Presences_insertCache_enabled cacheId this :
  Tier.enabled (Presences.insertCache cacheId this) = Tier.enabled this.
Proof. unfold Presences.insertCache. by case_match. Qed.

Lemma Presences_insertCache_storeOffline cacheId this :
  Tier.storeOffline (Presences.insertCache cacheId this)
  = Tier.storeOffline this.
Proof. unfold Presences.insertCache. by case_match. Qed.

Lemma Members_insert_has guildId userId member m c :
  memberObjs c !! member = Some m →
  Member.guildId m = guildId → Member.id m = userId →
  Members.has (Some guildId) (Some userId) (members (Members.insert member c))
  = Tier.enabled (members c).
Proof.
  intros Hm <- <-. unfold Members.insert. rewrite Hm.
  destruct (Tier.enabled (members c)) eqn:He; simpl.
  - unfold Members.has, Members.insertCache. simpl.
    case_bool_decide as Hs; simpl; rewrite He.
    + destruct Hs as [cache Hc]. rewrite lookup_alter_eq, Hc. simpl.
      by rewrite lookup_insert_eq.
    + rewrite lookup_alter_eq, lookup_insert_eq. simpl.
      by rewrite lookup_insert_eq.
  - unfold Members.has. by rewrite He.
Qed.

Lemma truthy_js_or value fallback :
  truthy value = true → value = Some (js_or value fallback).
Proof.
  unfold truthy, js_or. destruct value as [s|]; [|done].
  destruct (String.eqb s ""); [done|]. done.
Qed.

Lemma js_or_truthy s fallback :
  truthy (Some s) = true → js_or (Some s) fallback = s.
Proof. unfold truthy, js_or. by destruct (String.eqb s ""). Qed.

Lemma Presences_insert_offline presence p guildId c :
  presenceObjs c !! presence = Some p →
  Presence.isOffline p = true →
  Presence.guildId p = Some guildId →
  truthy (Some guildId) = true →
  Tier.storeOffline (presences c) = false →
  Presences.has (Some guildId) (Some (Presence.userId p))
    (presences (Presences.insert presence c).2) = false.
Proof.
  intros Hp Hoff Hgid Hg Hsp. unfold Presences.insert.
  rewrite Hp, Hoff.
  assert (Hcid : Presence.cacheId p = guildId).
  { unfold Presence.cacheId. rewrite Hgid. by apply js_or_truthy. }
  rewrite Hcid. cbv zeta.
  change (presences (with_presences ?f ?c0)) with (f (presences c0)).
  rewrite Presences_insertCache_enabled.
  destruct (Tier.enabled (presences c)) eqn:Hen; simpl.
  - match goal with
    | |- context [if ?b then with_members ?f ?c1 else ?c1] => destruct b
    end;
      match goal with
      | |- context [Tier.storeOffline (presences ?c0)] =>
          change (Tier.storeOffline (presences c0))
            with (Tier.storeOffline
                    (Presences.insertCache guildId (presences c)))
      end;
      rewrite Presences_insertCache_storeOffline, Hsp; simpl;
      apply Presences_delete_entry_gone.
  - unfold Presences.has. by rewrite Presences_insertCache_enabled, Hen.
Qed.

Lemma Presences_add_snd_new presence c :
  (match Presences.insert presence c with
   | (Some newPresence, c') => (newPresence, c')
   | (None, c') => (presence, c')
   end).2 = (Presences.insert presence c).2.
Proof. by destruct (Presences.insert presence c) as [[?|] ?]. Qed.

Lemma Presences_add_offline data c :
  let guildId := js_or (RawPresence.guild_id data) DEFAULT_PRESENCE_CACHE_KEY in
  let userId := Obj.id (RawPresence.user data) in
  truthy (RawPresence.guild_id data) = true →
  Tier.storeOffline (presences c) = false →
  Presence.isOffline <$> mergedPresence data c = Some true →
  Presences.has (Some guildId) (Some userId) (presences (Presences.add data c).2)
  = false.
Proof.
  intros guildId userId Hg Hsp Hoff.
  pose proof (truthy_js_or _ DEFAULT_PRESENCE_CACHE_KEY Hg) as Hgid.
  fold guildId in Hgid.
  unfold mergedPresence in Hoff. fold guildId userId in Hoff.
  unfold Presences.add. fold guildId userId. cbv zeta.
  clearbody guildId. rewrite Hgid in Hg.
  change (presences (with_presences (Presences.insertCache guildId) c))
    with (Presences.insertCache guildId (presences c)).
  rewrite Presences_get_insertCache.
  destruct (Presences.get (Some guildId) (Some userId) (presences c))
    as [cache|presence|] eqn:Hget.
  2: { (* the key exists *)
    destruct (presenceObjs c !! presence) as [p|] eqn:Hp; [|done].
    simpl in Hoff. injection Hoff as Hoff.
    change (presenceObjs (with_presenceObjs ?f ?c0)) with (f (presenceObjs c0)).
    change (presenceObjs (with_presences ?f ?c0)) with (presenceObjs c0).
    rewrite list_lookup_alter_eq, Hp. simpl. rewrite Hoff.
    match goal with
    | |- context [if ?b then with_members ?f ?c1 else ?c1] => destruct b
    end;
      match goal with
      | |- context [negb (Tier.storeOffline (presences ?c0))] =>
          change (Tier.storeOffline (presences c0))
            with (Tier.storeOffline
                    (Presences.insertCache guildId (presences c)))
      end;
      rewrite Presences_insertCache_storeOffline, Hsp; simpl;
      apply Presences_delete_entry_gone. }
  all: (* a new presence *)
    rewrite Presences_add_snd_new;
    simpl in Hoff; injection Hoff as Hoff;
    apply (Presences_insert_offline _ (Presence.new data));
    [ simpl; rewrite lookup_app_r by lia; by rewrite Nat.sub_diag
    | exact Hoff
    | simpl; by rewrite Hgid
    | exact Hg
    | simpl; by rewrite Presences_insertCache_storeOffline ].
Qed.

Lemma Presences_add_members_enabled data c :
  Tier.enabled (members (Presences.add data c).2) = Tier.enabled (members c).
Proof.
  assert (Hi : ∀ presence c0,
            Tier.enabled (members (Presences.insert presence c0).2)
            = Tier.enabled (members c0)).
  { intros presence c0. unfold Presences.insert.
    repeat case_match; simpl; rewrite ?Members_delete_eq,
      ?Presences_delete_tier_enabled; done. }
  unfold Presences.add. cbv zeta.
  destruct (Presences.get _ _ _); rewrite ?Presences_add_snd_new, ?Hi;
    try done.
  repeat case_match; simpl; rewrite ?Members_delete_eq,
    ?Presences_delete_tier_enabled; done.
Qed.

(** After [PRESENCE_UPDATE] with a guild id the member of the user is
    cached whenever the roster cache is enabled. *)
Lemma PRESENCE_UPDATE_member_present data c :
  let userId := Obj.id (RawPresence.user data) in
  truthy (RawPresence.guild_id data) = true →
  Members.has (RawPresence.guild_id data) (Some userId)
    (members (PRESENCE_UPDATE data c))
  = Tier.enabled (members c).
Proof.
  intros userId Hg.
  pose proof (truthy_js_or _ DEFAULT_PRESENCE_CACHE_KEY Hg) as Hgid.
  unfold PRESENCE_UPDATE. cbv zeta. fold userId. rewrite Hg.
  set (d := if hasEventListener ClientEvents.PRESENCE_UPDATE c then _ else _).
  assert (Hd : Tier.enabled (members d.2) = Tier.enabled (members c)).
  { subst d. unfold computed. repeat case_match; reflexivity. }
  destruct d as [differences c1]. simpl in Hd.
  pose proof (Presences_add_members_enabled data c1) as Ha.
  destruct (Presences.add data c1) as [presence c2]. simpl in Ha.
  rewrite <- Hd, <- Ha. clear Hd Ha.
  rewrite Hgid.
  destruct (Members.get _ _ (members c2)) as [cache|member|] eqn:Hget; simpl.
  2: { rewrite Members_has_eq. rewrite Members_get_eq in Hget.
       assert (Hh : Presences.has
                      (Some (js_or (RawPresence.guild_id data)
                               DEFAULT_PRESENCE_CACHE_KEY))
                      (Some userId) (members c2) = true)
         by (apply Presences_has_get; eauto).
       rewrite Hh. unfold Presences.has in Hh.
       by destruct (Tier.enabled (members c2)). }
  all: etrans;
    [|exact (eq_refl : Tier.enabled
                         (members (with_memberObjs
                                     (λ objs, objs ++ [Member.new
                   {| RawMember.guild_id :=
                        Some (js_or (RawPresence.guild_id data)
                                DEFAULT_PRESENCE_CACHE_KEY);
                      RawMember.nick := RawPresence.nick data;
                      RawMember.premium_since := RawPresence.premium_since data;
                      RawMember.roles :=
                        Some (default [] (RawPresence.roles data));
                      RawMember.user := RawPresence.user data |}]) c2))
                       = Tier.enabled (members c2))];
    apply (Members_insert_has _ _ _
                (Member.new
                   {| RawMember.guild_id :=
                        Some (js_or (RawPresence.guild_id data)
                                DEFAULT_PRESENCE_CACHE_KEY);
                      RawMember.nick := RawPresence.nick data;
                      RawMember.premium_since := RawPresence.premium_since data;
                      RawMember.roles :=
                        Some (default [] (RawPresence.roles data));
                      RawMember.user := RawPresence.user data |}));
    [simpl; rewrite lookup_app_r by lia; by rewrite Nat.sub_diag|done|done].
Qed.

(** [PRESENCE_UPDATE] with a guild id of a presence that ends offline,
    offline presences not being stored: the presence is gone, the user
    repository is unchanged, and the member is cached whenever the roster
    cache is enabled. *)
Lemma PRESENCE_UPDATE_offline data c :
  let guildId := js_or (RawPresence.guild_id data) DEFAULT_PRESENCE_CACHE_KEY in
  let userId := Obj.id (RawPresence.user data) in
  let c' := PRESENCE_UPDATE data c in
  truthy (RawPresence.guild_id data) = true →
  Tier.storeOffline (presences c) = false →
  Presence.isOffline <$> mergedPresence data c = Some true →
  Presences.has (Some guildId) (Some userId) (presences c') = false
  ∧ Members.has (Some guildId) (Some userId) (members c')
    = Tier.enabled (members c)
  ∧ users c' = users c.
Proof.
  intros guildId userId c' Hg Hsp Hoff.
  pose proof (truthy_js_or _ DEFAULT_PRESENCE_CACHE_KEY Hg) as Hgid.
  fold guildId in Hgid. split; [|split].
  - subst c'. unfold PRESENCE_UPDATE. cbv zeta.
    set (d := if hasEventListener ClientEvents.PRESENCE_UPDATE c then _ else _).
    assert (Hd : d.2 = c ∨ d.2 = with_differencesCalls S c).
    { subst d. unfold computed. repeat case_match; auto. }
    destruct d as [differences c1]. simpl in Hd.
    assert (Hadd : Presences.has (Some guildId) (Some userId)
                     (presences (Presences.add data c1).2) = false).
    { destruct Hd as [->| ->]; by apply Presences_add_offline. }
    destruct (Presences.add data c1) as [presence c2]. simpl in Hadd.
    repeat (case_match; simplify_eq); simpl;
      rewrite ?(Members_insert_field presences) by reflexivity; exact Hadd.
  - rewrite <- Hgid. by apply PRESENCE_UPDATE_member_present.
  - subst c'. unfold PRESENCE_UPDATE. cbv zeta.
    set (d := if hasEventListener ClientEvents.PRESENCE_UPDATE c then _ else _).
    assert (Hd : users d.2 = users c).
    { subst d. unfold computed. repeat case_match; reflexivity. }
    destruct d as [differences c1]. simpl in Hd.
    pose proof (Presences_add_field users data c1 (λ _ _ _ _, eq_refl)) as Ha.
    destruct (Presences.add data c1) as [presence c2]. simpl in Ha.
    repeat (case_match; simplify_eq); simpl;
      rewrite ?(Members_insert_field users) by reflexivity; simpl; congruence.
Qed.

(** ** Identity of the cached instances *)



Lemma Presences_get_entry cacheId userId this entity :
  Presences.get (Some cacheId) (Some userId) this = GotEntity entity
  ↔ Tier.enabled this = true
    ∧ ∃ cache, Tier.cache this !! cacheId = Some cache
               ∧ cache !! userId = Some entity.
Proof.
  unfold Presences.get. destruct (Tier.enabled this); [|naive_solver].
  destruct (Tier.cache this !! cacheId) as [cache|]; [|naive_solver].
  destruct (cache !! userId) eqn:E; simpl; naive_solver.
Qed.


Lemma Presences_get_delete_other cacheId userId cacheId' userId' this :
  Presences.get (Some cacheId) (Some userId)
    (Presences.delete (Some cacheId') (Some userId') this).2
  = if decide (cacheId = cacheId' ∧ userId = userId')
    then GotUndefined
    else Presences.get (Some cacheId) (Some userId) this.
Proof.
  case_decide as Hd.
  - destruct Hd as [-> ->]. apply Presences_delete_entry_gone.
  - unfold Presences.delete, Presences.get.
    destruct (Tier.enabled this) eqn:He; simpl; [|by rewrite He].
    destruct (Tier.cache this !! cacheId') as [cache'|] eqn:Hc'; simpl;
      rewrite He; [|done].
    destruct (decide (cacheId = cacheId')) as [->|Hne].
    + rewrite lookup_insert_eq, Hc'.
      rewrite lookup_delete_ne by (intros <-; by apply Hd). done.
    + by rewrite lookup_insert_ne.
Qed.

Lemma Presences_insert_absent presence p c :
  let cacheId := Presence.cacheId p in
  presenceObjs c !! presence = Some p →
  Tier.enabled (presences c) = true →
  (∀ cache, Tier.cache (presences c) !! cacheId = Some cache →
            cache !! Presence.userId p = None) →
  Presence.isOffline p && negb (Tier.storeOffline (presences c)) = false →
  (Presences.insert presence c).1 = Some presence
  ∧ Presences.get (Some cacheId) (Some (Presence.userId p))
      (presences (Presences.insert presence c).2) = GotEntity presence.
Proof.
  intros cacheId Hp Hen Hnone Hkeep. unfold Presences.insert.
  rewrite Hp. fold cacheId. cbv zeta.
  change (presences (with_presences ?f ?c0)) with (f (presences c0)).
  rewrite Presences_insertCache_enabled, Hen. cbn [negb].
  match goal with
  | |- context [if ?b then with_members ?f ?c1 else ?c1] => destruct b
  end;
    change (presences (with_members ?f ?c0)) with (presences c0);
    change (presences (with_presences ?f ?c0)) with (f (presences c0));
    rewrite Presences_insertCache_storeOffline, Hkeep;
    (assert (Hu : default ∅ (Tier.cache
                               (Presences.insertCache cacheId (presences c))
                               !! cacheId) !! Presence.userId p = None);
     [unfold Presences.insertCache; case_bool_decide as Hs; simpl;
      [destruct Hs as [cache Hc]; rewrite Hc; simpl; by eapply Hnone
      |by rewrite lookup_insert_eq]
     |]);
    rewrite Hu; simpl; (split; [done|]);
    apply Presences_get_entry; simpl;
    rewrite Presences_insertCache_enabled;
    (split; [done|]); eexists;
    (split; [apply lookup_insert_eq|apply lookup_insert_eq]).
Qed.

Lemma Presences_add_then_get data c :
  let cacheId := js_or (RawPresence.guild_id data) DEFAULT_PRESENCE_CACHE_KEY in
  let userId := Obj.id (RawPresence.user data) in
  Tier.enabled (presences c) = true →
  retained data c →
  Presences.get (Some cacheId) (Some userId) (presences (Presences.add data c).2)
  = GotEntity (Presences.add data c).1.
Proof.
  intros cacheId userId Hen Hkeep.
  unfold retained, mergedPresence in Hkeep. fold cacheId userId in Hkeep.
  unfold Presences.add. fold cacheId userId. cbv zeta.
  change (presences (with_presences (Presences.insertCache cacheId) c))
    with (Presences.insertCache cacheId (presences c)).
  rewrite Presences_get_insertCache.
  destruct (Presences.get (Some cacheId) (Some userId) (presences c))
    as [cache|presence|] eqn:Hget.
  2: { (* the key exists *)
    change (presenceObjs (with_presenceObjs ?f ?c0)) with (f (presenceObjs c0)).
    change (presenceObjs (with_presences ?f ?c0)) with (presenceObjs c0).
    rewrite list_lookup_alter_eq.
    destruct (presenceObjs c !! presence) as [p|] eqn:Hp; simpl.
    2: { by rewrite Presences_get_insertCache. }
    destruct (Presence.isOffline (Presence.merge data p)) eqn:Hoff.
    2: { simpl. by rewrite Presences_get_insertCache. }
    destruct Hkeep as [Hso|Hno];
      [|cbn [fmap option_fmap option_map] in Hno; injection Hno as Hno;
        rewrite Hoff in Hno; done].
    match goal with
    | |- context [if ?b then with_members ?f ?c1 else ?c1] => destruct b
    end;
      match goal with
      | |- context [negb (Tier.storeOffline (presences ?c0))] =>
          change (Tier.storeOffline (presences c0))
            with (Tier.storeOffline
                    (Presences.insertCache cacheId (presences c)))
      end;
      rewrite Presences_insertCache_storeOffline, Hso; simpl;
      by rewrite Presences_get_insertCache. }
  all: (* a new presence *)
    set (c2 := with_presenceObjs (λ objs, objs ++ [Presence.new data])
                 (with_presences (Presences.insertCache cacheId) c));
    assert (Hcid : Presence.cacheId (Presence.new data) = cacheId)
      by (unfold Presence.cacheId, cacheId; simpl;
          by destruct (RawPresence.guild_id data));
    destruct (Presences_insert_absent (length (presenceObjs c))
                (Presence.new data) c2) as [H1 H2];
    [ simpl; rewrite lookup_app_r by lia; by rewrite Nat.sub_diag
    | simpl; by rewrite Presences_insertCache_enabled
    | rewrite Hcid; intros cache0 Hc0;
      destruct (cache0 !! Presence.userId (Presence.new data))
        as [entity|] eqn:Hu; [|done];
      assert (Hg : Presences.get (Some cacheId) (Some userId)
                     (Presences.insertCache cacheId (presences c))
                   = GotEntity entity)
        by (apply Presences_get_entry;
            rewrite Presences_insertCache_enabled; eauto);
      rewrite Presences_get_insertCache, Hget in Hg; done
    | change (presences c2)
        with (Presences.insertCache cacheId (presences c));
      rewrite Presences_insertCache_storeOffline;
      destruct Hkeep as [->|Hno];
      [by rewrite andb_false_r
      |cbn [fmap option_fmap option_map] in Hno; injection Hno as Hno;
       by rewrite Hno]
    | rewrite Hcid in H2;
      change (length (presenceObjs
                        (with_presences (Presences.insertCache cacheId) c)))
        with (length (presenceObjs c));
      destruct (Presences.insert (length (presenceObjs c)) c2)
        as [[newPresence|] c3]; simpl in H1, H2 |- *; [|done];
      by simplify_eq ].
Qed.

Lemma Presences_add_enabled data c :
  Tier.enabled (presences (Presences.add data c).2)
  = Tier.enabled (presences c).
Proof.
  assert (Hi : ∀ presence c0,
            Tier.enabled (presences (Presences.insert presence c0).2)
            = Tier.enabled (presences c0)).
  { intros presence c0. unfold Presences.insert.
    repeat case_match; simpl;
      rewrite ?Presences_delete_tier_enabled, ?Presences_insertCache_enabled;
      done. }
  unfold Presences.add. cbv zeta.
  destruct (Presences.get _ _ _); rewrite ?Presences_add_snd_new, ?Hi;
    simpl; rewrite ?Presences_insertCache_enabled; try done.
  repeat case_match; simpl;
    rewrite ?Presences_delete_tier_enabled, ?Presences_insertCache_enabled;
    done.
Qed.






(** ** The lookups of [Presences] *)

(** A list has an element on which [f] is defined exactly when the first
    defined value exists. *)
Lemma existsb_omap_head {A B} (f : A → option B) (l : list A) :
  existsb (λ x, bool_decide (is_Some (f x))) l = true
  ↔ is_Some (head (omap f l)).
Proof.
  induction l as [|x l IH]; simpl.
  - split; [done|by intros [? ?]].
  - destruct (f x) as [y|] eqn:E; simpl.
    + split; [eauto|done].
    + exact IH.
Qed.

(** X1.  For every combination of cache id and user id, given or not,
    [has] answers true exactly when [get] with the same arguments returns
    something other than [undefined]. *)
Theorem Presences_has_iff_get (cacheId userId : option string)
    (this : Tier.t) :
  Presences.has cacheId userId this = true
  ↔ Presences.get cacheId userId this ≠ GotUndefined.
Proof.
  unfold Presences.has, Presences.get.
  destruct (Tier.enabled this); [|done].
  destruct cacheId as [cacheId|], userId as [userId|]; try done.
  - destruct (Tier.cache this !! cacheId) as [cache|]; [|done].
    destruct (cache !! userId); simpl; done.
  - destruct (Tier.cache this !! cacheId) as [cache|]; done.
  - rewrite (existsb_omap_head (λ kv, kv.2 !! userId)).
    destruct (head _); simpl; split; try done; by intros [? ?].
Qed.

(** X2.  A disabled presence collection: [has] is false, [get] is
    undefined and [delete] deletes nothing and reports false, whatever the
    arguments; [add] still builds a fresh presence from the payload and
    returns it, and afterwards no lookup finds anything. *)
Theorem Presences_disabled (cacheId userId : option string)
    (data : RawPresence.t) (c : Client) :
  Tier.enabled (presences c) = false →
  Presences.has cacheId userId (presences c) = false
  ∧ Presences.get cacheId userId (presences c) = GotUndefined
  ∧ Presences.delete cacheId userId (presences c) = (false, presences c)
  ∧ (Presences.add data c).1 = length (presenceObjs c)
  ∧ presenceObjs (Presences.add data c).2
    = presenceObjs c ++ [Presence.new data]
  ∧ (∀ cacheId' userId',
       Presences.has cacheId' userId' (presences (Presences.add data c).2)
       = false).
Proof.
  intros Hdis.
  unfold Presences.has, Presences.get, Presences.delete. rewrite Hdis.
  do 3 (split; [done|]).
  assert (Hget : ∀ k u, Presences.get k u
                          (Presences.insertCache
                             (js_or (RawPresence.guild_id data)
                                DEFAULT_PRESENCE_CACHE_KEY) (presences c))
                        = GotUndefined).
  { intros k u. unfold Presences.get.
    by rewrite Presences_insertCache_enabled, Hdis. }
  assert (Hadd : Presences.add data c
                 = (length (presenceObjs c),
                    with_presences
                      (Presences.insertCache
                         (Presence.cacheId (Presence.new data)))
                      (with_presenceObjs (λ objs, objs ++ [Presence.new data])
                         (with_presences
                            (Presences.insertCache
                               (js_or (RawPresence.guild_id data)
                                  DEFAULT_PRESENCE_CACHE_KEY)) c)))).
  { unfold Presences.add. cbv zeta.
    change (presences (with_presences ?f ?c0)) with (f (presences c0)).
    rewrite Hget. unfold Presences.insert.
    change (presenceObjs (with_presenceObjs ?f ?c0)) with (f (presenceObjs c0)).
    change (presenceObjs (with_presences ?f ?c0)) with (presenceObjs c0).
    cbv beta. rewrite lookup_app_r by lia. rewrite Nat.sub_diag.
    cbn [lookup list_lookup]. cbv zeta.
    change (presences (with_presences ?f ?c0)) with (f (presences c0)).
    change (presences (with_presenceObjs ?f ?c0)) with (presences c0).
    change (presences (with_presences ?f ?c0)) with (f (presences c0)).
    by rewrite !Presences_insertCache_enabled, Hdis. }
  rewrite Hadd. simpl. do 2 (split; [done|]).
  intros k u. by rewrite !Presences_insertCache_enabled, Hdis.
Qed.

(** X2 at a disabled collection that still holds an entry for user ["U"]
    of guild ["G"]. *)
Lemma Presences_disabled_witness :
  Presences.has (Some "G") (Some "U") (presences clientDisabled) = false
  ∧ (Presences.add onlineU clientDisabled).1 = 1.
Proof.
  destruct (Presences_disabled (Some "G") (Some "U") onlineU clientDisabled)
    as (Hhas & _ & _ & Hadd & _).
  - reflexivity.
  - split; [exact Hhas|exact Hadd].
Defined.

(** ** The deletions of [Presences] *)

(** X3.  [delete(cacheId, userId)] reports whether the entry was there;
    afterwards the entry is gone, the scope itself is still there when it
    was (also when it is left empty), and the lookup of every other entry
    answers as before. *)
Theorem Presences_delete_entry (cacheId userId : string) (this : Tier.t) :
  let deleted := (Presences.delete (Some cacheId) (Some userId) this).1 in
  let this' := (Presences.delete (Some cacheId) (Some userId) this).2 in
  deleted = Presences.has (Some cacheId) (Some userId) this
  ∧ Presences.has (Some cacheId) (Some userId) this' = false
  ∧ Presences.has (Some cacheId) None this'
    = Presences.has (Some cacheId) None this
  ∧ (∀ cacheId' userId',
       (cacheId', userId') ≠ (cacheId, userId) →
       Presences.get (Some cacheId') (Some userId') this'
       = Presences.get (Some cacheId') (Some userId') this).
Proof.
  intros deleted this'. split_and!.
  - subst deleted. unfold Presences.delete, Presences.has.
    destruct (Tier.enabled this); [|done].
    by destruct (Tier.cache this !! cacheId).
  - apply Presences_delete_entry_gone.
  - subst this'. unfold Presences.delete, Presences.has.
    destruct (Tier.enabled this) eqn:He; simpl; [|by rewrite He].
    destruct (Tier.cache this !! cacheId) as [cache|] eqn:Hc; simpl;
      rewrite He, ?lookup_insert_eq, ?Hc; done.
  - intros cacheId' userId' Hne. subst this'.
    rewrite Presences_get_delete_other.
    case_decide as Hd; [|done]. destruct Hd as [-> ->]. done.
Qed.

(** X4.  [delete(cacheId)] reports whether the scope was there;
    afterwards the scope and all its entries are gone and the lookups in
    every other scope answer as before. *)
Theorem Presences_delete_tier (cacheId : string) (this : Tier.t) :
  let deleted := (Presences.delete (Some cacheId) None this).1 in
  let this' := (Presences.delete (Some cacheId) None this).2 in
  deleted = Presences.has (Some cacheId) None this
  ∧ Presences.has (Some cacheId) None this' = false
  ∧ (∀ userId, Presences.has (Some cacheId) (Some userId) this' = false)
  ∧ (∀ cacheId' userId',
       cacheId' ≠ cacheId →
       Presences.get (Some cacheId') userId' this'
       = Presences.get (Some cacheId') userId' this).
Proof.
  intros deleted this'. split_and!.
  - subst deleted. unfold Presences.delete, Presences.has.
    destruct (Tier.enabled this); [|done].
    by destruct (Tier.cache this !! cacheId).
  - apply Presences_delete_tier_gone.
  - intros userId. apply Presences_delete_tier_gone.
  - intros cacheId' userId' Hne. subst this'.
    unfold Presences.delete, Presences.get.
    destruct (Tier.enabled this) eqn:He; simpl; [|by rewrite He].
    destruct (Tier.cache this !! cacheId) as [cache|] eqn:Hc; simpl;
      rewrite He; [|done].
    by rewrite lookup_delete_ne.
Qed.

(** The loop of [delete] over a list of distinct scopes of the
    collection: the switches are kept, the flag records whether some scope
    had the user, and each scope walked loses the user. *)
Lemma deleteWalk userId (l : list (string * gmap string ref)) :
  ∀ deleted this,
    NoDup l.*1 →
    (∀ k cache, (k, cache) ∈ l → Tier.cache this !! k = Some cache) →
    let result := foldl (deleteStep userId) (deleted, this) l in
    Tier.enabled result.2 = Tier.enabled this
    ∧ Tier.storeOffline result.2 = Tier.storeOffline this
    ∧ result.1
      = deleted || existsb (λ kv, bool_decide (is_Some (kv.2 !! userId))) l
    ∧ ∀ k, Tier.cache result.2 !! k
           = if bool_decide (k ∈ l.*1)
             then delete userId <$> Tier.cache this !! k
             else Tier.cache this !! k.
Proof.
  induction l as [|[k0 cache0] l IH]; intros deleted this Hnd Hsub; simpl.
  - split_and!; try done. by rewrite orb_false_r.
  - apply NoDup_cons in Hnd as [Hk0 Hnd]. simpl in Hk0.
    pose proof (Hsub k0 cache0 (list_elem_of_here _ _)) as H0.
    assert (Hcase : ∀ k, bool_decide (k ∈ k0 :: l.*1)
                         = bool_decide (k = k0) || bool_decide (k ∈ l.*1)).
    { intros k. rewrite <- bool_decide_or. apply bool_decide_ext.
      apply elem_of_cons. }
    destruct (bool_decide (is_Some (cache0 !! userId))) eqn:Hb.
    + destruct (IH true
                  (Tier.with_cache (insert k0 (delete userId cache0)) this)
                  Hnd) as (He & Hs & Hd & Hc).
      { intros k cache Hin. simpl. rewrite lookup_insert_ne; [|intros <-].
        - apply Hsub. by right.
        - apply Hk0. apply list_elem_of_fmap. by exists (k0, cache). }
      split_and!; try done.
      * rewrite Hd. by rewrite orb_true_r.
      * intros k. rewrite Hc, Hcase. simpl.
        destruct (decide (k = k0)) as [->|Hne].
        -- rewrite (bool_decide_eq_true_2 (k0 = k0)) by done.
           rewrite (bool_decide_eq_false_2 (k0 ∈ l.*1)) by done. simpl.
           by rewrite lookup_insert_eq, H0.
        -- rewrite (bool_decide_eq_false_2 (k = k0)) by done. simpl.
           by rewrite lookup_insert_ne.
    + destruct (IH deleted this Hnd) as (He & Hs & Hd & Hc).
      { intros k cache Hin. apply Hsub. by right. }
      split_and!; try done.
      intros k. rewrite Hc, Hcase.
      destruct (decide (k = k0)) as [->|Hne].
      * rewrite (bool_decide_eq_true_2 (k0 = k0)) by done.
        rewrite (bool_decide_eq_false_2 (k0 ∈ l.*1)) by done. simpl.
        rewrite H0. simpl. f_equal. symmetry. apply delete_id.
        apply bool_decide_eq_false_1 in Hb.
        destruct (cache0 !! userId) eqn:E; [|done]. exfalso. apply Hb. eauto.
      * by rewrite (bool_decide_eq_false_2 (k = k0)) by done.
Qed.

(** [delete(null, userId)] on an enabled collection removes the user from
    every scope and reports whether some scope had the user. *)
Lemma Presences_delete_user_cache userId this :
  Tier.enabled this = true →
  let result := Presences.delete None (Some userId) this in
  Tier.enabled result.2 = true
  ∧ result.1 = Presences.has None (Some userId) this
  ∧ ∀ k, Tier.cache result.2 !! k = delete userId <$> Tier.cache this !! k.
Proof.
  intros Hen result. subst result.
  assert (Hdel : Presences.delete None (Some userId) this
                 = foldl (deleteStep userId) (false, this)
                     (map_to_list (Tier.cache this))).
  { unfold Presences.delete. by rewrite Hen. }
  rewrite Hdel. unfold Presences.has. rewrite Hen.
  destruct (deleteWalk userId (map_to_list (Tier.cache this)) false this)
    as (He & _ & Hd & Hc).
  { apply NoDup_fst_map_to_list. }
  { intros k cache Hin. by apply elem_of_map_to_list. }
  split; [by rewrite He|]. split; [exact Hd|].
  intros k. rewrite Hc.
  case_bool_decide as Hin; [done|].
  destruct (Tier.cache this !! k) as [cache|] eqn:E; [|done].
  exfalso. apply Hin. apply list_elem_of_fmap. exists (k, cache).
  split; [done|]. by apply elem_of_map_to_list.
Qed.

(** X5.  [delete(null, userId)] reports whether some scope had the user;
    afterwards no scope has the user, every scope is still there, and the
    entries of the other users are as before. *)
Theorem Presences_delete_user (userId : string) (this : Tier.t) :
  let deleted := (Presences.delete None (Some userId) this).1 in
  let this' := (Presences.delete None (Some userId) this).2 in
  deleted = Presences.has None (Some userId) this
  ∧ Presences.has None (Some userId) this' = false
  ∧ (∀ cacheId, Presences.has (Some cacheId) (Some userId) this' = false)
  ∧ (∀ cacheId,
       Presences.has (Some cacheId) None this'
       = Presences.has (Some cacheId) None this)
  ∧ (∀ cacheId userId',
       userId' ≠ userId →
       Presences.get (Some cacheId) (Some userId') this'
       = Presences.get (Some cacheId) (Some userId') this).
Proof.
  intros deleted this'. subst deleted this'.
  destruct (Tier.enabled this) eqn:Hen.
  2: { unfold Presences.delete, Presences.has, Presences.get.
       rewrite Hen. simpl. by rewrite Hen. }
  destruct (Presences_delete_user_cache userId this Hen) as (He & Hd & Hc).
  assert (Hentry : ∀ cacheId,
            Presences.has (Some cacheId) (Some userId)
              (Presences.delete None (Some userId) this).2 = false).
  { intros cacheId. unfold Presences.has at 1. rewrite He, Hc.
    destruct (Tier.cache this !! cacheId) as [cache|]; simpl; [|done].
    by rewrite lookup_delete_eq. }
  split_and!.
  - exact Hd.
  - destruct (Presences.has None (Some userId)
                (Presences.delete None (Some userId) this).2) eqn:Hh; [|done].
    unfold Presences.has in Hh. rewrite He in Hh.
    apply existsb_exists in Hh as ([k cache] & Hin & Hb).
    apply list_elem_of_In, elem_of_map_to_list in Hin.
    apply bool_decide_eq_true_1 in Hb. simpl in Hb.
    rewrite Hc in Hin.
    destruct (Tier.cache this !! k) as [cache'|]; simpl in Hin; [|done].
    simplify_eq. rewrite lookup_delete_eq in Hb. by destruct Hb.
  - exact Hentry.
  - intros cacheId. unfold Presences.has. rewrite He, Hen, Hc.
    by destruct (Tier.cache this !! cacheId).
  - intros cacheId userId' Hne. unfold Presences.get. rewrite He, Hen, Hc.
    destruct (Tier.cache this !! cacheId) as [cache|]; simpl; [|done].
    by rewrite lookup_delete_ne.
Qed.

(** ** What [Presences.add] returns and evicts *)

(** The cache id of a presence built from a payload is the key [add]
    computes from the payload. *)
Lemma Presence_new_cacheId data :
  Presence.cacheId (Presence.new data)
  = js_or (RawPresence.guild_id data) DEFAULT_PRESENCE_CACHE_KEY.
Proof.
  unfold Presence.cacheId. simpl. by destruct (RawPresence.guild_id data).
Qed.

(** When the lookup of an entry of an enabled collection finds no
    presence, the scope has no entry for the user. *)
Lemma Presences_get_not_entity_lookup cacheId userId this cache :
  Tier.enabled this = true →
  (∀ entity, Presences.get (Some cacheId) (Some userId) this
             ≠ GotEntity entity) →
  Tier.cache this !! cacheId = Some cache →
  cache !! userId = None.
Proof.
  intros Hen Hget Hc. destruct (cache !! userId) as [entity|] eqn:Hu; [|done].
  exfalso. apply (Hget entity). apply Presences_get_entry. eauto.
Qed.

(** [insert] of a presence whose key is not cached returns that presence,
    changes no stored presence, and touches the roster only for an offline
    presence. *)
Lemma Presences_insert_new presence p c :
  presenceObjs c !! presence = Some p →
  (∀ entity,
     Presences.get (Some (Presence.cacheId p)) (Some (Presence.userId p))
       (presences c) ≠ GotEntity entity) →
  let result := Presences.insert presence c in
  default presence result.1 = presence
  ∧ presenceObjs result.2 = presenceObjs c
  ∧ (Presence.isOffline p = false → members result.2 = members c).
Proof.
  intros Hp Hget result. subst result. unfold Presences.insert.
  rewrite Hp. cbv zeta.
  change (presences (with_presences ?f ?c0)) with (f (presences c0)).
  rewrite Presences_insertCache_enabled.
  destruct (Tier.enabled (presences c)) eqn:Hen; [|done]. cbn [negb].
  destruct (Presence.isOffline p) eqn:Hoff; cbn [andb].
  - match goal with
    | |- context [if ?b then with_members ?f ?c1 else ?c1] => destruct b
    end;
      change (presences (with_members ?f ?c0)) with (presences c0);
      change (presences (with_presences ?f ?c0)) with (f (presences c0));
      rewrite Presences_insertCache_storeOffline;
      destruct (Tier.storeOffline (presences c)); cbn [negb];
      try done;
      (assert (Hu : default ∅ (Tier.cache
                                 (Presences.insertCache (Presence.cacheId p)
                                    (presences c))
                                 !! Presence.cacheId p)
                      !! Presence.userId p = None);
       [destruct (Tier.cache (Presences.insertCache (Presence.cacheId p)
                                (presences c)) !! Presence.cacheId p)
          as [cache|] eqn:Hc; [|done]; simpl;
        eapply (Presences_get_not_entity_lookup _ _
                  (Presences.insertCache (Presence.cacheId p) (presences c)));
        [by rewrite Presences_insertCache_enabled
        |intros entity; by rewrite Presences_get_insertCache
        |exact Hc]
       |]);
      rewrite Hu; done.
  - change (presences (with_presences ?f ?c0)) with (f (presences c0)).
    assert (Hu : default ∅ (Tier.cache
                               (Presences.insertCache (Presence.cacheId p)
                                  (presences c))
                               !! Presence.cacheId p)
                    !! Presence.userId p = None).
    { destruct (Tier.cache (Presences.insertCache (Presence.cacheId p)
                              (presences c)) !! Presence.cacheId p)
        as [cache|] eqn:Hc; [|done]. simpl.
      eapply (Presences_get_not_entity_lookup _ _
                (Presences.insertCache (Presence.cacheId p) (presences c))).
      - by rewrite Presences_insertCache_enabled.
      - intros entity. by rewrite Presences_get_insertCache.
      - exact Hc. }
    rewrite Hu. done.
Qed.

(** X6.  [add] returns the presence the payload is merged into: the
    cached presence of the key after the merge, or a presence built from
    the payload; and when that presence is not offline, the roster is left
    as it was. *)
Theorem Presences_add_returns_merged (data : RawPresence.t) (c : Client)
    (p : Presence.t) :
  mergedPresence data c = Some p →
  presenceObjs (Presences.add data c).2 !! (Presences.add data c).1 = Some p
  ∧ (Presence.isOffline p = false →
     members (Presences.add data c).2 = members c).
Proof.
  unfold mergedPresence, Presences.add. cbv zeta.
  set (cacheId := js_or (RawPresence.guild_id data) DEFAULT_PRESENCE_CACHE_KEY).
  set (userId := Obj.id (RawPresence.user data)).
  change (presences (with_presences (Presences.insertCache cacheId) c))
    with (Presences.insertCache cacheId (presences c)).
  rewrite Presences_get_insertCache.
  destruct (Presences.get (Some cacheId) (Some userId) (presences c))
    as [cache|presence|] eqn:Hget.
  2: { (* the key exists *)
    destruct (presenceObjs c !! presence) as [p0|] eqn:Hp; [|done].
    intros [= <-].
    change (presenceObjs (with_presenceObjs ?f ?c0)) with (f (presenceObjs c0)).
    change (presenceObjs (with_presences ?f ?c0)) with (presenceObjs c0).
    rewrite list_lookup_alter_eq, Hp. simpl.
    destruct (Presence.isOffline (Presence.merge data p0)) eqn:Hoff.
    - split; [|done]. simpl.
      repeat case_match; simpl; by rewrite list_lookup_alter_eq, Hp.
    - split; [|done]. simpl. by rewrite list_lookup_alter_eq, Hp. }
  all: intros [= <-];
    set (c2 := with_presenceObjs (λ objs, objs ++ [Presence.new data])
                 (with_presences (Presences.insertCache cacheId) c));
    change (length (presenceObjs
                      (with_presences (Presences.insertCache cacheId) c)))
      with (length (presenceObjs c));
    assert (Hn : presenceObjs c2 !! length (presenceObjs c)
                 = Some (Presence.new data))
      by (simpl; rewrite lookup_app_r by lia; by rewrite Nat.sub_diag);
    destruct (Presences_insert_new (length (presenceObjs c))
                (Presence.new data) c2 Hn) as (H1 & H2 & H3);
    [ rewrite Presence_new_cacheId; fold cacheId;
      change (presences c2)
        with (Presences.insertCache cacheId (presences c));
      intros entity; rewrite Presences_get_insertCache;
      change (Presence.userId (Presence.new data)) with userId;
      by rewrite Hget
    | destruct (Presences.insert (length (presenceObjs c)) c2)
        as [[newPresence|] c3]; simpl in H1, H2, H3 |- *; subst;
      rewrite H2; (split; [exact Hn|]); intros Hoff; by rewrite H3 ].
Qed.

(** X6 at an online update of the cached presence of user ["U"] in guild
    ["G"]. *)
Lemma Presences_add_returns_merged_witness :
  Presence.status
    <$> presenceObjs (Presences.add onlineU clientScope).2
          !! (Presences.add onlineU clientScope).1 = Some "online"
  ∧ members (Presences.add onlineU clientScope).2 = members clientScope.
Proof.
  destruct (Presences_add_returns_merged onlineU clientScope
              (Presence.mk (Some "G") "U" "online" ∅)) as [H1 H2].
  - reflexivity.
  - split; [by rewrite H1|]. by apply H2.
Defined.

(** ** The roster requests *)

(** [GUILD_MEMBERS_CHUNK] changes nothing but the roster, the users, the
    presences and the notifications. *)
Lemma GUILD_MEMBERS_CHUNK_field {B} (f : Client → B) data c :
  (∀ c g, f (with_members g c) = f c) →
  (∀ c g, f (with_memberObjs g c) = f c) →
  (∀ c g, f (with_users g c) = f c) →
  (∀ c p m o,
     f (with_presences (λ _, p) (with_members (λ _, m)
          (with_presenceObjs (λ _, o) c))) = f c) →
  (∀ c name payload, f (emit name payload c) = f c) →
  f (GUILD_MEMBERS_CHUNK data c) = f c.
Proof.
  intros Hm Ho Hu Hp He. unfold GUILD_MEMBERS_CHUNK. cbv zeta. rewrite He.
  assert (Hfp : ∀ c0 guildId l,
    f (foldl (λ c value,
               (Presences.add
                  (RawPresence.mk (Some guildId) (RawPresence.user value)
                     (RawPresence.status value) (RawPresence.nick value)
                     (RawPresence.premium_since value)
                     (RawPresence.roles value) (RawPresence.fields value))
                  c).2) c0 l) = f c0).
  { intros. apply foldl_preserves. intros. by apply Presences_add_field. }
  assert (Hfm : ∀ c0 guildId l,
    f (foldl (λ c value, GUILD_MEMBERS_CHUNK_member guildId value c) c0 l)
    = f c0).
  { intros. apply foldl_preserves. intros.
    by apply GUILD_MEMBERS_CHUNK_member_field. }
  assert (Hfu : ∀ c0 l,
    f (foldl (λ c value, GUILD_MEMBERS_CHUNK_user value c) c0 l) = f c0).
  { intros. apply foldl_preserves. intros. unfold GUILD_MEMBERS_CHUNK_user.
    by case_match. }
  repeat case_match; rewrite ?Hfp, ?Hfm, ?Hfu; reflexivity.
Qed.

(** [PRESENCE_UPDATE] leaves the roster requests alone. *)
Lemma PRESENCE_UPDATE_rosterState data c :
  rosterState (PRESENCE_UPDATE data c) = rosterState c.
Proof.
  unfold PRESENCE_UPDATE. cbv zeta.
  set (d := if hasEventListener ClientEvents.PRESENCE_UPDATE c then _ else _).
  assert (Hd : rosterState d.2 = rosterState c).
  { subst d. unfold computed. repeat case_match; reflexivity. }
  destruct d as [differences c1]. cbn [snd] in Hd.
  pose proof (Presences_add_field rosterState data c1
                (λ _ _ _ _, eq_refl)) as Ha.
  destruct (Presences.add data c1) as [presence c2]. cbn [snd] in Ha.
  repeat (case_match; simplify_eq);
    change (rosterState (emit ?n ?p ?c0)) with (rosterState c0);
    rewrite ?(Members_insert_field rosterState) by reflexivity;
    change (rosterState (with_memberObjs ?g ?c0)) with (rosterState c0);
    unfold rosterState in *; congruence.
Qed.

(** [GUILD_DELETE] leaves the roster requests alone. *)
Lemma GUILD_DELETE_rosterState data c :
  rosterState (GUILD_DELETE data c) = rosterState c.
Proof.
  unfold GUILD_DELETE. cbv zeta.
  repeat (case_match; simplify_eq);
    change (rosterState (emit ?n ?p ?c0)) with (rosterState c0);
    try rewrite (GUILD_DELETE_emojis_field rosterState) by reflexivity;
    reflexivity.
Qed.

(** [GUILD_MEMBER_UPDATE] leaves the roster requests alone. *)
Lemma GUILD_MEMBER_UPDATE_rosterState data c :
  rosterState (GUILD_MEMBER_UPDATE data c) = rosterState c.
Proof.
  unfold GUILD_MEMBER_UPDATE, computed. cbv zeta.
  repeat (case_match; simplify_eq);
    change (rosterState (emit ?n ?p ?c0)) with (rosterState c0);
    try rewrite (Members_insert_field rosterState) by reflexivity;
    reflexivity.
Qed.

Lemma emitsOnly_rosterState name c c' :
  emitsOnly name c c' → rosterState c' = rosterState c.
Proof.
  intros [payload H]. unfold control in H. unfold rosterState.
  injection H as _ Hleft Hsent. simpl in Hleft, Hsent. by rewrite Hleft, Hsent.
Qed.

(** X9.  No handler other than [READY] and [GUILD_CREATE], called on a
    payload of the shape it declares, changes the set of guilds waiting for
    their roster or sends a roster request; in particular a chunk that
    arrives, and the deletion of a guild, leave the set as it was. *)
Theorem roster_requests_only_READY_GUILD_CREATE
    (handler : GatewayDispatchEvents.t) (data : PacketData) (c : Client) :
  typed handler data = true →
  handler ≠ GatewayDispatchEvents.READY →
  handler ≠ GatewayDispatchEvents.GUILD_CREATE →
  memberChunksLeft (call handler data c) = memberChunksLeft c
  ∧ requestedGuildMembers (call handler data c) = requestedGuildMembers c.
Proof.
  intros Htyped Hready Hcreate.
  enough (H : rosterState (call handler data c) = rosterState c)
    by (by injection H).
  destruct handler; try congruence; destruct data;
    try discriminate Htyped; cbn [call];
    first
      [ reflexivity
      | apply PRESENCE_UPDATE_rosterState
      | apply GUILD_DELETE_rosterState
      | apply GUILD_MEMBER_UPDATE_rosterState
      | by apply GUILD_MEMBERS_CHUNK_field
      | eapply emitsOnly_rosterState;
        first
          [ apply RESUMED_control | apply CALL_CREATE_control
          | apply CALL_DELETE_control | apply CHANNEL_CREATE_control
          | apply CHANNEL_DELETE_control
          | apply CHANNEL_RECIPIENT_ADD_control
          | apply CHANNEL_RECIPIENT_REMOVE_control
          | apply FRIEND_SUGGESTION_CREATE_control
          | apply FRIEND_SUGGESTION_DELETE_control
          | apply GIFT_CODE_UPDATE_control
          | apply GUILD_EMOJIS_UPDATE_control
          | apply GUILD_INTEGRATIONS_UPDATE_control
          | apply GUILD_MEMBER_ADD_control
          | apply GUILD_MEMBER_LIST_UPDATE_control
          | apply GUILD_MEMBER_REMOVE_control
          | apply GUILD_ROLE_CREATE_control
          | apply GUILD_ROLE_DELETE_control
          | apply GUILD_ROLE_UPDATE_control | apply MESSAGE_CREATE_control
          | apply MESSAGE_DELETE_control
          | apply MESSAGE_DELETE_BULK_control
          | apply MESSAGE_REACTION_ADD_control
          | apply MESSAGE_REACTION_REMOVE_ALL_control
          | apply PRESENCES_REPLACE_control
          | apply RELATIONSHIP_REMOVE_control | apply STREAM_CREATE_control
          | apply STREAM_DELETE_control
          | apply STREAM_SERVER_UPDATE_control | apply STREAM_UPDATE_control
          | apply TYPING_START_control | apply USER_NOTE_UPDATE_control
          | apply USER_UPDATE_control | apply VOICE_SERVER_UPDATE_control
          | apply VOICE_STATE_UPDATE_control
          | apply WEBHOOKS_UPDATE_control ]
      | unfold CALL_UPDATE, CHANNEL_UPDATE, CHANNEL_PINS_UPDATE,
          GUILD_BAN_ADD, GUILD_BAN_REMOVE, GUILD_UPDATE,
          MESSAGE_REACTION_REMOVE, MESSAGE_UPDATE, RELATIONSHIP_ADD, computed;
        cbv zeta; repeat (case_match; simplify_eq); reflexivity ].
Qed.

(** X9 at the deletion of guild ["G"]. *)
Lemma roster_requests_only_READY_GUILD_CREATE_witness :
  memberChunksLeft
    (call GatewayDispatchEvents.GUILD_DELETE (D_Guild deleteG) clientScope)
  = memberChunksLeft clientScope
  ∧ requestedGuildMembers
      (call GatewayDispatchEvents.GUILD_DELETE (D_Guild deleteG) clientScope)
    = requestedGuildMembers clientScope.
Proof.
  apply roster_requests_only_READY_GUILD_CREATE;
    [reflexivity|discriminate|discriminate].
Defined.

(** ** Handlers that only look up *)

(** Storing under a key that is present adds no key. *)
Lemma Repo_has_set {V} (key key' : string) (value : V) (r : Repo.t V) :
  is_Some (Repo.get key r) →
  Repo.has key' (Repo.set key value r) = Repo.has key' r.
Proof.
  unfold Repo.has, Repo.get, Repo.set. simpl. intros Hin.
  apply bool_decide_ext. rewrite lookup_insert_is_Some.
  destruct (decide (key = key')) as [->|]; naive_solver.
Qed.

(** X10.  [GUILD_DELETE] of a guild marked unavailable deletes nothing:
    the roster, the presences and the emojis are as before, and the
    notification carries the guild, marked unavailable, which is also what
    the guild repository holds under the id when the guild was cached or
    the repository is enabled. *)
Theorem GUILD_DELETE_unavailable (data : RawGuild.t) (c : Client) :
  truthy_bool (RawGuild.unavailable data) = true →
  let c' := GUILD_DELETE data c in
  members c' = members c ∧ presences c' = presences c
  ∧ emojis c' = emojis c
  ∧ ∃ guild,
      last (emitted c')
      = Some (Notification.mk (Named ClientEvents.GUILD_DELETE)
                (P_GuildDelete (Some guild) (RawGuild.id data) true))
      ∧ Guild.unavailable guild = true
      ∧ (Repo.enabled (guilds c) = true
         ∨ is_Some (Repo.get (RawGuild.id data) (guilds c)) →
         Repo.get (RawGuild.id data) (guilds c') = Some guild).
Proof.
  intros Hun c'. subst c'. unfold GUILD_DELETE. cbv zeta. rewrite Hun.
  assert (Hraw : RawGuild.unavailable data = Some true).
  { destruct (RawGuild.unavailable data) as [[]|]; by simplify_eq/=. }
  destruct (Repo.get (RawGuild.id data) (guilds c)) as [guild|] eqn:Hget.
  - split_and!; try reflexivity.
    exists (Guild.merge data guild). split_and!.
    + unfold emit. simpl. by rewrite last_snoc.
    + unfold Guild.merge. simpl. by rewrite Hraw.
    + intros _. unfold Repo.get, Repo.set. simpl. apply lookup_insert_eq.
  - split_and!; try reflexivity.
    exists (Guild.new data). split_and!.
    + unfold emit. simpl. by rewrite last_snoc.
    + unfold Guild.new, Guild.merge. simpl. by rewrite Hraw.
    + intros [Hen|[? [=]]]. unfold emit, Repo.insert. simpl. rewrite Hen.
      unfold Repo.get, Repo.set. simpl. apply lookup_insert_eq.
Qed.

(** X10 at guild ["G"] with a member, a presence and an emoji. *)
Lemma GUILD_DELETE_unavailable_witness :
  let c' := GUILD_DELETE unavailableG clientScope in
  members c' = members clientScope ∧ presences c' = presences clientScope
  ∧ emojis c' = emojis clientScope
  ∧ ∃ guild,
      last (emitted c')
      = Some (Notification.mk (Named ClientEvents.GUILD_DELETE)
                (P_GuildDelete (Some guild) "G" true))
      ∧ Guild.unavailable guild = true
      ∧ (Repo.enabled (guilds clientScope) = true
         ∨ is_Some (Repo.get "G" (guilds clientScope)) →
         Repo.get "G" (guilds c') = Some guild).
Proof. apply (GUILD_DELETE_unavailable unavailableG clientScope). reflexivity. Defined.

(** X11.  [GUILD_BAN_ADD] and [GUILD_BAN_REMOVE] store no new user: the
    user repository has the same keys as before (a cached user is merged
    in place, a user built from the payload is not inserted), both
    handlers leave the same user repository, and neither touches the
    roster or the guilds. *)
Theorem GUILD_BAN_caches_no_user (data : RawGuildBan.t) (c : Client)
    (key : string) :
  let added := GUILD_BAN_ADD data c in
  let removed := GUILD_BAN_REMOVE data c in
  Repo.has key (users added) = Repo.has key (users c)
  ∧ users removed = users added
  ∧ members added = members c ∧ members removed = members c
  ∧ guilds added = guilds c ∧ guilds removed = guilds c.
Proof.
  intros added removed. subst added removed.
  unfold GUILD_BAN_ADD, GUILD_BAN_REMOVE. cbv zeta.
  destruct (Repo.get (Obj.id (RawGuildBan.user data)) (users c))
    as [user|] eqn:Hget; split_and!; try reflexivity.
  unfold emit. simpl. apply Repo_has_set. by rewrite Hget.
Qed.

(** X12.  [CHANNEL_PINS_UPDATE] stores no new channel: the channel
    repository has the same keys as before, every other channel is as
    before, the channel of the notification is the cached one after the
    merge, or [null] when there is none, and the merge keeps the id. *)
Theorem CHANNEL_PINS_UPDATE_caches_no_channel (data : RawChannelPins.t)
    (c : Client) (key : string) :
  let c' := CHANNEL_PINS_UPDATE data c in
  let channelId := RawChannelPins.channel_id data in
  Repo.has key (channels c') = Repo.has key (channels c)
  ∧ (key ≠ channelId → Repo.get key (channels c') = Repo.get key (channels c))
  ∧ (last (emitted c') ≫= pinnedChannelOf)
    = Some (Repo.get channelId (channels c'))
  ∧ (Obj.id <$> Repo.get channelId (channels c'))
    = (Obj.id <$> Repo.get channelId (channels c)).
Proof.
  intros c' channelId. subst c' channelId. unfold CHANNEL_PINS_UPDATE.
  destruct (Repo.get (RawChannelPins.channel_id data) (channels c))
    as [channel|] eqn:Hget; unfold emit; simpl.
  - split_and!.
    + apply Repo_has_set. by rewrite Hget.
    + intros Hne. unfold Repo.get, Repo.set. simpl.
      by apply lookup_insert_ne.
    + rewrite last_snoc. simpl. unfold Repo.get, Repo.set. simpl.
      by rewrite lookup_insert_eq.
    + unfold Repo.get, Repo.set. simpl. by rewrite lookup_insert_eq.
  - split_and!; try done.
    + rewrite last_snoc. simpl. by rewrite Hget.
    + by rewrite Hget.
Qed.

(** X12 at a pin update of channel ["C"], seen from channel ["D"]. *)
Lemma CHANNEL_PINS_UPDATE_caches_no_channel_witness :
  Repo.get "D" (channels (CHANNEL_PINS_UPDATE
                            (RawChannelPins.mk "C" None (Some "now")) client0))
  = Repo.get "D" (channels client0).
Proof.
  apply (CHANNEL_PINS_UPDATE_caches_no_channel
           (RawChannelPins.mk "C" None (Some "now")) client0 "D").
  discriminate.
Defined.

(** X13.  After [MESSAGE_REACTION_REMOVE] the cached message has no
    reaction under the emoji of the payload, whatever the count was; its
    other reactions, the other messages, and the keys of the message
    repository are as before. *)
Theorem MESSAGE_REACTION_REMOVE_drops_reaction (data : RawReaction.t)
    (c : Client) (messageId' emojiId' : string) :
  let c' := MESSAGE_REACTION_REMOVE data c in
  let messageId := RawReaction.message_id data in
  let emojiId :=
    js_or (RawReaction.emoji_id data) (RawReaction.emoji_name data) in
  reactionsOf messageId c' !! emojiId = None
  ∧ (emojiId' ≠ emojiId →
     reactionsOf messageId c' !! emojiId'
     = reactionsOf messageId c !! emojiId')
  ∧ (messageId' ≠ messageId →
     Repo.get messageId' (messages c') = Repo.get messageId' (messages c))
  ∧ Repo.has messageId' (messages c') = Repo.has messageId' (messages c).
Proof.
  intros c' messageId emojiId. subst c'.
  unfold MESSAGE_REACTION_REMOVE. cbv zeta. fold messageId emojiId.
  unfold reactionsOf.
  destruct (Repo.get messageId (messages c)) as [message|] eqn:Hget.
  2: { unfold emit. simpl. rewrite Hget. simpl. by split_and!. }
  destruct (Message.reactions message !! emojiId) as [reaction|] eqn:Hr.
  2: { unfold emit. simpl. rewrite Hget. simpl. by split_and!. }
  unfold Reaction.merge.
  cbn [Reaction.count].
  assert (Hle : (Z.min (Reaction.count reaction - 1) 0 <=? 0)%Z = true)
    by (apply Z.leb_le, Z.le_min_r).
  rewrite Hle. unfold emit, Repo.get, Repo.set. simpl.
  rewrite lookup_insert_eq. simpl. split_and!.
  - apply lookup_delete_eq.
  - intros Hne. rewrite lookup_delete_ne by done.
    by rewrite lookup_insert_ne.
  - intros Hne. by rewrite lookup_insert_ne.
  - unfold Repo.has. simpl. apply bool_decide_ext.
    rewrite lookup_insert_is_Some. unfold Repo.get in Hget.
    destruct (decide (messageId = messageId')) as [<-|]; [|naive_solver].
    rewrite Hget. naive_solver.
Qed.

(** X13 at a reaction counted five times. *)
Lemma MESSAGE_REACTION_REMOVE_drops_reaction_witness :
  reactionsOf "M" (MESSAGE_REACTION_REMOVE removeThumbs (clientReaction 5))
    !! "thumbsup" = None.
Proof.
  apply (MESSAGE_REACTION_REMOVE_drops_reaction removeThumbs
           (clientReaction 5) "M" "thumbsup").
Defined.

(** ** Whether [Presences.add] keeps the presence *)

(** [insert] of an offline presence, when offline presences are not
    stored, leaves no entry under its key. *)
Lemma Presences_insert_offline_dropped presence p c :
  presenceObjs c !! presence = Some p →
  Presence.isOffline p = true →
  Tier.storeOffline (presences c) = false →
  Presences.has (Some (Presence.cacheId p)) (Some (Presence.userId p))
    (presences (Presences.insert presence c).2) = false.
Proof.
  intros Hp Hoff Hsp. unfold Presences.insert.
  rewrite Hp, Hoff. cbv zeta.
  change (presences (with_presences ?f ?c0)) with (f (presences c0)).
  rewrite Presences_insertCache_enabled.
  destruct (Tier.enabled (presences c)) eqn:Hen; simpl.
  - match goal with
    | |- context [if ?b then with_members ?f ?c1 else ?c1] => destruct b
    end;
      match goal with
      | |- context [Tier.storeOffline (presences ?c0)] =>
          change (Tier.storeOffline (presences c0))
            with (Tier.storeOffline
                    (Presences.insertCache (Presence.cacheId p) (presences c)))
      end;
      rewrite Presences_insertCache_storeOffline, Hsp; simpl;
      apply Presences_delete_entry_gone.
  - unfold Presences.has. by rewrite Presences_insertCache_enabled, Hen.
Qed.

(** X14.  After [add] on an enabled collection, the key of the payload
    is cached exactly when offline presences are stored or the resulting
    presence is not offline. *)
Theorem Presences_add_cached (data : RawPresence.t) (c : Client)
    (p : Presence.t) :
  let cacheId := js_or (RawPresence.guild_id data) DEFAULT_PRESENCE_CACHE_KEY in
  let userId := Obj.id (RawPresence.user data) in
  Tier.enabled (presences c) = true →
  mergedPresence data c = Some p →
  Presences.has (Some cacheId) (Some userId)
    (presences (Presences.add data c).2)
  = Tier.storeOffline (presences c) || negb (Presence.isOffline p).
Proof.
  intros cacheId userId Hen Hp.
  destruct (Tier.storeOffline (presences c) || negb (Presence.isOffline p))
    eqn:Hkeep.
  { apply Presences_has_get. eexists. apply Presences_add_then_get; [done|].
    unfold retained. rewrite Hp. simpl.
    destruct (Tier.storeOffline (presences c)); [by left|right].
    simpl in Hkeep. by destruct (Presence.isOffline p). }
  apply orb_false_iff in Hkeep as [Hsp Hoff].
  apply negb_false_iff in Hoff.
  unfold mergedPresence in Hp. fold cacheId userId in Hp.
  unfold Presences.add. fold cacheId userId. cbv zeta.
  change (presences (with_presences (Presences.insertCache cacheId) c))
    with (Presences.insertCache cacheId (presences c)).
  rewrite Presences_get_insertCache.
  destruct (Presences.get (Some cacheId) (Some userId) (presences c))
    as [cache|presence|] eqn:Hget.
  2: { (* the key exists *)
    destruct (presenceObjs c !! presence) as [p0|] eqn:Hp0; [|done].
    simpl in Hp. injection Hp as <-.
    change (presenceObjs (with_presenceObjs ?f ?c0)) with (f (presenceObjs c0)).
    change (presenceObjs (with_presences ?f ?c0)) with (presenceObjs c0).
    rewrite list_lookup_alter_eq, Hp0. simpl. rewrite Hoff.
    match goal with
    | |- context [if ?b then with_members ?f ?c1 else ?c1] => destruct b
    end;
      match goal with
      | |- context [negb (Tier.storeOffline (presences ?c0))] =>
          change (Tier.storeOffline (presences c0))
            with (Tier.storeOffline
                    (Presences.insertCache cacheId (presences c)))
      end;
      rewrite Presences_insertCache_storeOffline, Hsp; simpl;
      apply Presences_delete_entry_gone. }
  all: (* a new presence *)
    rewrite Presences_add_snd_new;
    injection Hp as <-;
    pose proof (Presences_insert_offline_dropped (length (presenceObjs c))
                  (Presence.new data)
                  (with_presenceObjs (λ objs, objs ++ [Presence.new data])
                     (with_presences (Presences.insertCache cacheId) c)))
      as Hdrop;
    rewrite Presence_new_cacheId in Hdrop; apply Hdrop;
    [ simpl; rewrite lookup_app_r by lia; by rewrite Nat.sub_diag
    | exact Hoff
    | simpl; by rewrite Presences_insertCache_storeOffline ].
Qed.

(** X14 at an offline update of the cached presence of user ["U"] in
    guild ["G"], offline presences not being stored. *)
Lemma Presences_add_cached_witness :
  Presences.has (Some "G") (Some "U")
    (presences (Presences.add offlineU clientOnline).2) = false.
Proof.
  apply (Presences_add_cached offlineU clientOnline
           (Presence.merge offlineU (Presence.mk (Some "G") "U" "online" ∅)));
    reflexivity.
Defined.

(** ** Lookups in any scope *)

(** X15.  What [get(null, userId)] returns is the entry of the user in
    some scope, and [has(null, userId)] is true exactly when [has] is true
    for some scope. *)
Theorem Presences_any_scope (userId : string) (this : Tier.t) :
  (∀ entity,
     Presences.get None (Some userId) this = GotEntity entity →
     ∃ cacheId,
       Presences.get (Some cacheId) (Some userId) this = GotEntity entity)
  ∧ (Presences.has None (Some userId) this = true
     ↔ ∃ cacheId, Presences.has (Some cacheId) (Some userId) this = true).
Proof.
  split.
  - intros entity. unfold Presences.get at 1.
    destruct (Tier.enabled this) eqn:Hen; [|done].
    destruct (head _) as [entity'|] eqn:Hhead; [|done]. simpl.
    intros [= ->]. apply head_Some_elem_of in Hhead.
    apply list_elem_of_omap in Hhead as ([cacheId cache] & Hin & Hu).
    apply elem_of_map_to_list in Hin. exists cacheId.
    apply Presences_get_entry. eauto.
  - unfold Presences.has. destruct (Tier.enabled this); [|naive_solver].
    rewrite existsb_exists. split.
    + intros ([cacheId cache] & Hin & Hu). exists cacheId.
      apply list_elem_of_In, elem_of_map_to_list in Hin. by rewrite Hin.
    + intros [cacheId Hhas].
      destruct (Tier.cache this !! cacheId) as [cache|] eqn:Hc; [|done].
      exists (cacheId, cache). split; [|done].
      by apply list_elem_of_In, elem_of_map_to_list.
Qed.

(** X15 at user ["U"], cached in guild ["G"]. *)
Lemma Presences_any_scope_witness :
  ∃ cacheId,
    Presences.get (Some cacheId) (Some "U") (presences clientScope)
    = GotEntity 0.
Proof.
  apply (Presences_any_scope "U" (presences clientScope)).
  vm_compute. reflexivity.
Defined.

(** ** [READY]: the local user *)

(** One turn of the guild loop of [READY] changes nothing but the guilds
    and the roster requests. *)
Lemma READY_guild_field {B} (f : Client → B) raw c :
  (∀ c g, f (with_guilds g c) = f c) →
  (∀ c g, f (with_memberChunksLeft g c) = f c) →
  (∀ c g, f (with_requestedGuildMembers g c) = f c) →
  f (READY_guild raw c) = f c.
Proof.
  intros Hg Hl Hr. unfold READY_guild, requestGuildMembers.
  repeat (case_match; simplify_eq); rewrite ?Hl, ?Hr, ?Hg; reflexivity.
Qed.

(** The same for the whole loop. *)
Lemma READY_guilds_field {B} (f : Client → B) data c :
  (∀ c g, f (with_guilds g c) = f c) →
  (∀ c g, f (with_memberChunksLeft g c) = f c) →
  (∀ c g, f (with_requestedGuildMembers g c) = f c) →
  f (READY_guilds data c) = f c.
Proof.
  intros Hg Hl Hr. unfold READY_guilds. case_match; [|done].
  apply foldl_preserves. intros. by apply READY_guild_field.
Qed.

(** The cache blocks of [READY] leave the local user alone. *)
Lemma READY_caches_localUser data c :
  localUser
    (READY_relationships data
       (READY_presences data
          (READY_notes data (READY_guilds data (READY_channels data c)))))
  = localUser c.
Proof.
  rewrite (READY_relationships_field localUser) by reflexivity.
  rewrite (READY_presences_field localUser) by reflexivity.
  rewrite (READY_notes_field localUser) by reflexivity.
  rewrite (READY_guilds_field localUser) by reflexivity.
  by rewrite (READY_channels_field localUser) by reflexivity.
Qed.

(** The last block of [READY]: a bot asks for its OAuth2 application, any
    other user becomes an owner. *)
Lemma READY_emit_localUser data c :
  localUser (READY_emit data c)
  = (user c, isBot c, authType c,
     (if isBot c then owners c
      else match user c with
           | Some me => <[Obj.id me := me]> (owners c)
           | None => owners c
           end),
     restCalls c ++ (if isBot c then [fetchOauth2Application] else []))
  ∧ discordTrace (READY_emit data c) = RawReady.trace data.
Proof.
  unfold READY_emit, emit, localUser. cbv zeta. simpl.
  destruct (isBot c) eqn:Hb; simpl; rewrite ?Hb; [done|].
  destruct (user c) eqn:Hu; simpl; by rewrite ?Hb, ?Hu, app_nil_r.
Qed.

(** The first block of [READY]: the local user is built or merged, and
    the bot flag and the authentication type follow the payload. *)
Lemma READY_user_localUser data c :
  localUser (READY_user data c)
  = (Some match user c with
          | None => Obj.new (RawReady.user data)
          | Some me => Obj.merge (RawReady.user data) me
          end,
     bool_decide (Obj.fields (RawReady.user data) !! "bot" = Some "true"),
     (if bool_decide (Obj.fields (RawReady.user data) !! "bot" = Some "true")
      then BOT else USER),
     owners c, restCalls c).
Proof.
  unfold READY_user, localUser. cbv zeta. simpl.
  destruct (user c); reflexivity.
Qed.

(** [READY] after the reset, from any state. *)
Lemma READY_localUser data c0 :
  let c' :=
    READY_emit data
      (READY_relationships data
         (READY_presences data
            (READY_notes data
               (READY_guilds data
                  (READY_channels data (READY_user data c0)))))) in
  let me :=
    match user c0 with
    | None => Obj.new (RawReady.user data)
    | Some me => Obj.merge (RawReady.user data) me
    end in
  user c' = Some me
  ∧ authType c' = (if isBot c' then BOT else USER)
  ∧ restCalls c'
    = restCalls c0 ++ (if isBot c' then [fetchOauth2Application] else [])
  ∧ owners c'
    = (if isBot c' then owners c0 else <[Obj.id me := me]> (owners c0))
  ∧ discordTrace c' = RawReady.trace data.
Proof.
  intros c' me.
  pose proof (READY_emit_localUser data
                (READY_relationships data
                   (READY_presences data
                      (READY_notes data
                         (READY_guilds data
                            (READY_channels data (READY_user data c0)))))))
    as [He Ht].
  fold c' in He, Ht.
  pose proof (READY_caches_localUser data (READY_user data c0)) as Hc.
  rewrite READY_user_localUser in Hc. fold me in Hc.
  revert He Ht Hc. generalize c'. clear c'. intros c'.
  generalize (READY_relationships data
                (READY_presences data
                   (READY_notes data
                      (READY_guilds data
                         (READY_channels data (READY_user data c0)))))).
  intros c2 He Ht Hc. unfold localUser in He, Hc.
  injection Hc as Hu Hb Ha Ho Hr.
  injection He as Hu' Hb' Ha' Ho' Hr'.
  rewrite Hu', Hb', Ha', Ho', Hr', Hu, Ha, Ho, Hr.
  split_and!; try done.
  - by destruct (isBot c2); rewrite <- Hb.
Qed.

(** X16.  After [READY] the local user is the one left by the reset
    merged with the payload, or built from the payload; the
    authentication type follows the bot flag; a bot sends exactly one
    request for its OAuth2 application and the owners are left alone,
    any other user sends none and is stored among the owners; and the
    trace is that of the payload. *)
Theorem READY_local_user (data : RawReady.t) (c : Client) :
  let c0 := reset c in
  let c' := READY data c in
  let me :=
    match user c0 with
    | None => Obj.new (RawReady.user data)
    | Some me => Obj.merge (RawReady.user data) me
    end in
  user c' = Some me
  ∧ authType c' = (if isBot c' then BOT else USER)
  ∧ restCalls c'
    = restCalls c0 ++ (if isBot c' then [fetchOauth2Application] else [])
  ∧ owners c'
    = (if isBot c' then owners c0 else <[Obj.id me := me]> (owners c0))
  ∧ discordTrace c' = RawReady.trace data.
Proof. exact (READY_localUser data (reset c)). Qed.

(** ** [GUILD_MEMBERS_CHUNK]: the users of a chunk *)

(** One turn of the user loop of [GUILD_MEMBERS_CHUNK]: the user of the
    member is cached, and no cached user is lost. *)
Lemma GUILD_MEMBERS_CHUNK_user_users value c :
  Repo.enabled (users c) = true →
  let c' := GUILD_MEMBERS_CHUNK_user value c in
  Repo.enabled (users c') = true
  ∧ Repo.has (Obj.id (RawMember.user value)) (users c') = true
  ∧ (∀ key, Repo.has key (users c) = true → Repo.has key (users c') = true).
Proof.
  intros Hen c'. subst c'. unfold GUILD_MEMBERS_CHUNK_user. cbv zeta.
  destruct (Repo.get (Obj.id (RawMember.user value)) (users c)) eqn:Hget;
    simpl; unfold Repo.insert; rewrite ?Hen; unfold Repo.has, Repo.set; simpl;
    (split_and!; [done| |]);
    try (apply bool_decide_eq_true_2; rewrite lookup_insert_eq; eauto);
    intros key Hkey; apply bool_decide_eq_true_1 in Hkey;
    apply bool_decide_eq_true_2; rewrite lookup_insert_is_Some;
    destruct (decide (Obj.id (RawMember.user value) = key)); auto.
Qed.

(** The same for the whole loop. *)
Lemma GUILD_MEMBERS_CHUNK_users_fold values : ∀ c,
  Repo.enabled (users c) = true →
  let c' := foldl (λ c value, GUILD_MEMBERS_CHUNK_user value c) c values in
  Repo.enabled (users c') = true
  ∧ (∀ value, value ∈ values →
       Repo.has (Obj.id (RawMember.user value)) (users c') = true)
  ∧ (∀ key, Repo.has key (users c) = true → Repo.has key (users c') = true).
Proof.
  induction values as [|value values IH]; intros c Hen; simpl.
  - split_and!; [done| |done]. intros value Hin. by apply elem_of_nil in Hin.
  - destruct (GUILD_MEMBERS_CHUNK_user_users value c Hen) as (Hen1 & Hv & Hk).
    destruct (IH _ Hen1) as (Hen2 & Hvs & Hks). split_and!; [done| |].
    + intros value' Hin. apply elem_of_cons in Hin as [->|Hin]; auto.
    + auto.
Qed.

(** X17.  [GUILD_MEMBERS_CHUNK] with the roster disabled: when the user
    repository is enabled, the user of every member of the chunk is cached
    afterwards and no cached user is lost; when it is disabled too, the
    user repository is left as it was. *)
Theorem GUILD_MEMBERS_CHUNK_users (data : RawMembersChunk.t) (c : Client)
    (values : list RawMember.t) :
  RawMembersChunk.members data = Some values →
  Tier.enabled (members c) = false →
  let c' := GUILD_MEMBERS_CHUNK data c in
  (Repo.enabled (users c) = true →
   (∀ value, value ∈ values →
      Repo.has (Obj.id (RawMember.user value)) (users c') = true)
   ∧ (∀ key, Repo.has key (users c) = true → Repo.has key (users c') = true))
  ∧ (Repo.enabled (users c) = false → users c' = users c).
Proof.
  intros Hvalues Hdis c'. subst c'. unfold GUILD_MEMBERS_CHUNK. cbv zeta.
  rewrite Hvalues, Hdis.
  assert (Hp : ∀ {B} (f : Client → B) c0 guildId l,
    (∀ c p m o,
       f (with_presences (λ _, p) (with_members (λ _, m)
            (with_presenceObjs (λ _, o) c))) = f c) →
    f (foldl (λ c value,
               (Presences.add
                  (RawPresence.mk (Some guildId) (RawPresence.user value)
                     (RawPresence.status value) (RawPresence.nick value)
                     (RawPresence.premium_since value)
                     (RawPresence.roles value) (RawPresence.fields value))
                  c).2) c0 l) = f c0).
  { intros B f c0 guildId l Hf. apply foldl_preserves. intros.
    by apply Presences_add_field. }
  assert (Htail : ∀ {B} (f : Client → B) c0,
    (∀ c p m o,
       f (with_presences (λ _, p) (with_members (λ _, m)
            (with_presenceObjs (λ _, o) c))) = f c) →
    f match RawMembersChunk.presences data with
      | Some values0 =>
          if Tier.enabled (presences c0)
          then foldl (λ c value,
                 (Presences.add
                    (RawPresence.mk (Some (RawMembersChunk.guild_id data))
                       (RawPresence.user value)
                       (RawPresence.status value) (RawPresence.nick value)
                       (RawPresence.premium_since value)
                       (RawPresence.roles value) (RawPresence.fields value))
                    c).2) c0 values0
          else c0
      | None => c0
      end = f c0).
  { intros B f c0 Hf. repeat case_match; rewrite ?Hp; done. }
  change (users (emit ?n ?p ?c0)) with (users c0).
  rewrite (Htail _ users) by reflexivity.
  split.
  - intros Hen. rewrite Hen.
    destruct (GUILD_MEMBERS_CHUNK_users_fold values c Hen) as (_ & Hv & Hk).
    done.
  - by intros ->.
Qed.

(** X17 at a chunk with user ["U"], nothing being cached. *)
Lemma GUILD_MEMBERS_CHUNK_users_witness :
  Repo.has "U" (users (GUILD_MEMBERS_CHUNK chunkUsers clientNoRoster)) = true.
Proof.
  destruct (GUILD_MEMBERS_CHUNK_users chunkUsers clientNoRoster
              [RawMember.mk None None None None userU] eq_refl eq_refl)
    as [Hhas _].
  destruct (Hhas eq_refl) as [Hv _].
  apply (Hv (RawMember.mk None None None None userU)).
  apply list_elem_of_here.
Defined.

(** ** [Presences.size] *)






(** ** A guild going away and coming back *)

(** After [GUILD_DELETE] of a guild marked unavailable, the guild
    repository holds the guild, marked unavailable, when the guild was
    cached or the repository is enabled. *)
Lemma GUILD_DELETE_unavailable_guild data c :
  truthy_bool (RawGuild.unavailable data) = true →
  Repo.enabled (guilds c) = true
  ∨ is_Some (Repo.get (RawGuild.id data) (guilds c)) →
  ∃ guild,
    Repo.get (RawGuild.id data) (guilds (GUILD_DELETE data c)) = Some guild
    ∧ Guild.unavailable guild = true.
Proof.
  intros Hun Hcached. unfold GUILD_DELETE. cbv zeta. rewrite Hun.
  assert (Hraw : RawGuild.unavailable data = Some true).
  { destruct (RawGuild.unavailable data) as [[]|]; by simplify_eq/=. }
  destruct (Repo.get (RawGuild.id data) (guilds c)) as [guild|] eqn:Hget.
  - exists (Guild.merge data guild). split.
    + unfold emit, Repo.get, Repo.set. simpl. apply lookup_insert_eq.
    + unfold Guild.merge. simpl. by rewrite Hraw.
  - destruct Hcached as [Hen|[? [=]]].
    exists (Guild.new data). split.
    + unfold emit, Repo.insert. simpl. rewrite Hen.
      unfold Repo.get, Repo.set. simpl. apply lookup_insert_eq.
    + unfold Guild.new, Guild.merge. simpl. by rewrite Hraw.
Qed.

(** The [fromUnavailable] of [GUILD_CREATE] is the [unavailable] of the
    cached guild before the merge, and false for a guild not cached. *)
Lemma GUILD_CREATE_fromUnavailable data c :
  (last (emitted (GUILD_CREATE data c)) ≫= fromUnavailableOf)
  = Some (from_option Guild.unavailable false
            (Repo.get (RawGuild.id data) (guilds c))).
Proof.
  unfold GUILD_CREATE, requestGuildMembers. cbv zeta.
  repeat (case_match; simplify_eq); unfold emit; simpl;
    by rewrite last_snoc.
Qed.

(** X19.  The [fromUnavailable] of [GUILD_CREATE] is the [unavailable]
    of the cached guild before the merge, false for a guild not cached;
    so a guild that [GUILD_DELETE] marked unavailable, and that is kept in
    the guild repository, is reported as coming from unavailable when it
    is created again. *)
Theorem GUILD_CREATE_after_unavailable (down up : RawGuild.t) (c : Client) :
  truthy_bool (RawGuild.unavailable down) = true →
  RawGuild.id up = RawGuild.id down →
  (last (emitted (GUILD_CREATE up c)) ≫= fromUnavailableOf)
  = Some (from_option Guild.unavailable false
            (Repo.get (RawGuild.id up) (guilds c)))
  ∧ (Repo.enabled (guilds c) = true
     ∨ is_Some (Repo.get (RawGuild.id down) (guilds c)) →
     (last (emitted (GUILD_CREATE up (GUILD_DELETE down c)))
        ≫= fromUnavailableOf) = Some true).
Proof.
  intros Hun Hid. split; [apply GUILD_CREATE_fromUnavailable|].
  intros Hcached. rewrite GUILD_CREATE_fromUnavailable, Hid.
  destruct (GUILD_DELETE_unavailable_guild down c Hun Hcached)
    as (guild & -> & Hguild).
  simpl. by rewrite Hguild.
Qed.

(** X19 at guild ["G"] going unavailable and coming back. *)
Lemma GUILD_CREATE_after_unavailable_witness :
  (last (emitted (GUILD_CREATE guildSmall
                    (GUILD_DELETE unavailableG clientScope)))
     ≫= fromUnavailableOf) = Some true.
Proof.
  destruct (GUILD_CREATE_after_unavailable unavailableG guildSmall clientScope
              eq_refl eq_refl) as [_ Hback].
  apply Hback. left. reflexivity.
Defined.

(** X3 at the entry of user ["U"] in guild ["G"], seen from guild
    ["H"]. *)
Lemma Presences_delete_entry_witness :
  Presences.get (Some "H") (Some "U")
    (Presences.delete (Some "G") (Some "U") (presences clientScope)).2
  = Presences.get (Some "H") (Some "U") (presences clientScope).
Proof.
  destruct (Presences_delete_entry "G" "U" (presences clientScope))
    as (_ & _ & _ & Hother).
  apply Hother. discriminate.
Defined.

(** X4 at the scope of guild ["G"], seen from guild ["H"]. *)
Lemma Presences_delete_tier_witness :
  Presences.get (Some "H") (Some "U")
    (Presences.delete (Some "G") None (presences clientScope)).2
  = Presences.get (Some "H") (Some "U") (presences clientScope).
Proof.
  destruct (Presences_delete_tier "G" (presences clientScope))
    as (_ & _ & _ & Hother).
  apply Hother. discriminate.
Defined.

(** X5 at user ["U"], seen from another user of guild ["G"]. *)
Lemma Presences_delete_user_witness :
  Presences.get (Some "G") (Some "V")
    (Presences.delete None (Some "U") (presences clientScope)).2
  = Presences.get (Some "G") (Some "V") (presences clientScope).
Proof.
  destruct (Presences_delete_user "U" (presences clientScope))
    as (_ & _ & _ & _ & Hother).
  apply Hother. discriminate.
Defined.

(** ** Resolutions against every repository and tier *)


























































